(** * telegram_monitor.py: the notification escalation of PublicChannelMonitor

    A shallow embedding of [src/telegram_monitor.py].  The monitor object is a
    record; every coroutine is a resumable frame whose constructors are its
    suspension points (the [await]s of the source); the event loop is a step
    function over a world made of the shared monitor, the pool of
    [start_notification_loop] tasks and the command poller.  Everything the
    program does to the outside (bot calls, sleeps, log lines) is appended to
    a trace. *)

From Stdlib Require Import ZArith NArith List String Ascii Bool Lia.
From stdpp Require Import base decidable option list numbers gmap.

Local Open Scope Z_scope.

(** ** Python strings

    A [str] is a sequence of code points: slicing and [len] count code
    points, not bytes.  Literals of the source are written [py "..."] and
    decoded from the UTF-8 bytes of the Rocq string by [utf8]. *)

Definition str := list N.

Fixpoint utf8_decode (bs : list N) : str :=
  match bs with
  | [] => []
  | b :: r =>
      if (b <? 128)%N then b :: utf8_decode r
      else if (b <? 224)%N then
        match r with
        | c1 :: r' =>
            N.lor (N.shiftl (N.land b 31) 6) (N.land c1 63) :: utf8_decode r'
        | _ => []
        end
      else if (b <? 240)%N then
        match r with
        | c1 :: c2 :: r' =>
            N.lor (N.shiftl (N.land b 15) 12)
              (N.lor (N.shiftl (N.land c1 63) 6) (N.land c2 63))
              :: utf8_decode r'
        | _ => []
        end
      else
        match r with
        | c1 :: c2 :: c3 :: r' =>
            N.lor (N.shiftl (N.land b 7) 18)
              (N.lor (N.shiftl (N.land c1 63) 12)
                 (N.lor (N.shiftl (N.land c2 63) 6) (N.land c3 63)))
              :: utf8_decode r'
        | _ => []
        end
  end.

Definition utf8 (s : string) : str :=
  utf8_decode (map Byte.to_N (list_byte_of_string s)).
Arguments utf8 s%_string.

(** A literal is decoded where it is written, so that terms hold the code
    points themselves. *)
Notation "'py' s" := (ltac:(let v := eval vm_compute in (utf8 s) in exact v))
  (at level 10, s at level 9, only parsing).

(** The newline of the source's ["\n"]. *)
Definition nl : str := [10%N].

(** [s[:n]] for a non-negative [n]. *)
Definition slice_to (n : nat) (s : str) : str := take n s.

(** Truth value of a string: non-empty. *)
Definition truthy (s : str) : bool :=
  match s with [] => false | _ :: _ => true end.

(** [sep.join(parts)]. *)
Fixpoint join (sep : str) (parts : list str) : str :=
  match parts with
  | [] => []
  | [p] => p
  | p :: rest => p ++ sep ++ join sep rest
  end.

(** An f-string: the concatenation of its literal and interpolated parts. *)
Definition f_string (parts : list str) : str := concat parts.

(** [str(n)] of an integer: its decimal digits. *)
Fixpoint str_of_uint (d : Decimal.uint) : str :=
  match d with
  | Decimal.Nil => []
  | Decimal.D0 d => 48%N :: str_of_uint d
  | Decimal.D1 d => 49%N :: str_of_uint d
  | Decimal.D2 d => 50%N :: str_of_uint d
  | Decimal.D3 d => 51%N :: str_of_uint d
  | Decimal.D4 d => 52%N :: str_of_uint d
  | Decimal.D5 d => 53%N :: str_of_uint d
  | Decimal.D6 d => 54%N :: str_of_uint d
  | Decimal.D7 d => 55%N :: str_of_uint d
  | Decimal.D8 d => 56%N :: str_of_uint d
  | Decimal.D9 d => 57%N :: str_of_uint d
  end.

Definition str_of_nat (n : nat) : str := str_of_uint (Nat.to_uint n).

Definition str_of_Z (z : Z) : str :=
  match Z.to_int z with
  | Decimal.Pos d => str_of_uint d
  | Decimal.Neg d => 45%N :: str_of_uint d
  end.

(** [needle in hay]: substring test. *)
Fixpoint is_prefix (p s : str) : bool :=
  match p, s with
  | [], _ => true
  | a :: p', b :: s' => (a =? b)%N && is_prefix p' s'
  | _ :: _, [] => false
  end.

Fixpoint contains (needle hay : str) : bool :=
  is_prefix needle hay ||
  match hay with
  | [] => false
  | _ :: hay' => contains needle hay'
  end.

(** A [datetime] value, as its calendar fields. *)
Record datetime := {
  year : nat; month : nat; day : nat;
  hour : nat; minute : nat; second : nat
}.

(** The builtins and library functions the source calls and does not
    define.  [py_int s] is [int(s)], [None] standing for the [ValueError]
    it raises on a malformed literal.  The laws: the readings of the two
    defaults the source passes to [os.getenv], and that the empty string
    stays empty under [strip] and [lower]. *)
Class Builtins := {
  py_int : str -> option Z;
  py_repr : str -> str;
  str_strip : str -> str;
  str_lower : str -> str;
  strftime : datetime -> str -> str;
  py_int_0 : py_int (py "0") = Some 0;
  py_int_30 : py_int (py "30") = Some 30;
  str_strip_empty : str_strip [] = [];
  str_lower_empty : str_lower [] = []
}.

(** Exceptions, by the classes the source names. *)
Inductive exn :=
| ValueError (msg : str)
| TelegramError (msg : str)
| Exception (msg : str).

(** [str(e)] in an f-string. *)
Definition exn_str (e : exn) : str :=
  match e with
  | ValueError m | TelegramError m | Exception m => m
  end.

(** What an awaited call of the bot library gives back: a value, or a
    [telegram.error.TelegramError] carrying [msg], the class with which the
    library reports a failed request. *)
Inductive reply (A : Type) :=
| Returned (a : A)
| Raised (msg : str).
Arguments Returned {A} a.
Arguments Raised {A} msg.

(** ** The outside world: effects *)

Inductive level := INFO | WARNING | ERROR.

Inductive action :=
| Log (l : level) (msg : str)
| Makedirs (path : str)
| PathExists (path : str)
| ClientStart (phone : str)
| IsUserAuthorized
| ClientOn (chats : str)
| SendMessage (chat_id : Z) (text : str) (parse_mode : option str)
| GetUpdates (offset : option Z) (limit : option Z)
| Sleep (seconds : Z).

(** The texts handed to [bot.send_message], in order. *)
Definition sent_text (a : action) : option str :=
  match a with
  | SendMessage _ t _ => Some t
  | _ => None
  end.

Definition sent (tr : list action) : list str := omap sent_text tr.

(** ** Data carried by the two transports *)

(** An attribute as [getattr]/[hasattr] see it: absent, [None], or a string. *)
Inductive attr :=
| Absent
| IsNone
| Str (s : str).

(** [new_message.sender]: a user or channel entity. *)
Record Sender := {
  first_name : attr;
  username : attr
}.

(** The channel message an event carries ([event.message]); Telethon
    gives every message its [date]. *)
Record Message := {
  sender : option Sender;
  text : option str;
  date : datetime
}.

(** An update of the bot API with the message it carries, if any.  A
    message that reaches the bot in [update.message] has its sender, of
    which the source reads [from_user.id]. *)
Module Bot.
Record Message := {
  from_user_id : Z;
  text : option str
}.
Record Update := {
  update_id : Z;
  message : option Message
}.
End Bot.

(** ** The monitor object *)

Record PublicChannelMonitor := {
  api_id : Z;
  api_hash : str;
  phone_number : str;
  bot_token : str;
  user_id : Z;
  channel_username : str;
  notification_interval : Z;
  client : bool;                (* [None] or a [TelegramClient] *)
  bot : bool;                   (* [None] or a [Bot] *)
  notification_active : bool;
  stop_requested : bool;
  session_path : str
}.

Definition set_flags (self : PublicChannelMonitor) (active stop : bool)
  : PublicChannelMonitor :=
  {| api_id := api_id self; api_hash := api_hash self;
     phone_number := phone_number self; bot_token := bot_token self;
     user_id := user_id self; channel_username := channel_username self;
     notification_interval := notification_interval self;
     client := client self; bot := bot self;
     notification_active := active; stop_requested := stop;
     session_path := session_path self |}.

Definition set_client (self : PublicChannelMonitor) (c b : bool)
  : PublicChannelMonitor :=
  {| api_id := api_id self; api_hash := api_hash self;
     phone_number := phone_number self; bot_token := bot_token self;
     user_id := user_id self; channel_username := channel_username self;
     notification_interval := notification_interval self;
     client := c; bot := b;
     notification_active := notification_active self;
     stop_requested := stop_requested self;
     session_path := session_path self |}.

(** ** Configuration: [__init__] and [_validate_config] *)

(** [os.environ] as a map, and [os.getenv(name, dflt)]. *)
Definition environ_get (environ : gmap str str) (name : str) : option str :=
  environ !! name.

Definition getenv (environ : gmap str str) (name dflt : str) : str :=
  default dflt (environ_get environ name).

(** The values of [required_vars]: integers and strings. *)
Inductive pyval :=
| PInt (z : Z)
| PStr (s : str).

Definition py_bool (v : pyval) : bool :=
  match v with
  | PInt z => negb (z =? 0)
  | PStr s => truthy s
  end.

Definition is_int_zero (v : pyval) : bool :=
  match v with
  | PInt z => z =? 0
  | PStr _ => false
  end.

(** The condition of the list comprehension of [_validate_config]. *)
Definition is_missing (v : pyval) : bool :=
  negb (py_bool v) || is_int_zero v.

Definition required_vars (self : PublicChannelMonitor) : list (str * pyval) :=
  [ (py "API_ID", PInt (api_id self));
    (py "API_HASH", PStr (api_hash self));
    (py "PHONE_NUMBER", PStr (phone_number self));
    (py "BOT_TOKEN", PStr (bot_token self));
    (py "USER_ID", PInt (user_id self));
    (py "CHANNEL_USERNAME", PStr (channel_username self)) ].

Definition missing_vars (self : PublicChannelMonitor) : list str :=
  map fst (List.filter (fun kv => is_missing (snd kv)) (required_vars self)).

Definition missing_message (missing : list str) : str :=
  f_string [py "Missing required environment variables: "; join (py ", ") missing].

(** [_validate_config]: the log lines it writes and the exception it
    raises, if any. *)
Definition _validate_config (self : PublicChannelMonitor)
  : list action * option exn :=
  let missing := missing_vars self in
  match missing with
  | _ :: _ =>
      ([Log ERROR (missing_message missing)],
       Some (ValueError (missing_message missing)))
  | [] => ([Log INFO (py "Configuration validated successfully")], None)
  end.

Section Config.
Context `{Builtins}.

(** [int(os.getenv(name, dflt))]. *)
Definition int_getenv (environ : gmap str str) (name dflt : str) : exn + Z :=
  let s := getenv environ name dflt in
  match py_int s with
  | Some z => inr z
  | None =>
      inl (ValueError (f_string [py "invalid literal for int() with base 10: ";
                                 py_repr s]))
  end.

(** [PublicChannelMonitor()]: the trace of the constructor and either the
    exception it raises or the object it builds. *)
Definition __init__ (environ : gmap str str)
  : list action * (exn + PublicChannelMonitor) :=
  match int_getenv environ (py "API_ID") (py "0") with
  | inl e => ([], inl e)
  | inr the_api_id =>
  let the_api_hash := getenv environ (py "API_HASH") [] in
  let the_phone_number := getenv environ (py "PHONE_NUMBER") [] in
  let the_bot_token := getenv environ (py "BOT_TOKEN") [] in
  match int_getenv environ (py "USER_ID") (py "0") with
  | inl e => ([], inl e)
  | inr the_user_id =>
  let the_channel_username := getenv environ (py "CHANNEL_USERNAME") [] in
  match int_getenv environ (py "NOTIFICATION_INTERVAL") (py "30") with
  | inl e => ([], inl e)
  | inr the_interval =>
  let self :=
    {| api_id := the_api_id; api_hash := the_api_hash;
       phone_number := the_phone_number; bot_token := the_bot_token;
       user_id := the_user_id; channel_username := the_channel_username;
       notification_interval := the_interval;
       client := false; bot := false;
       notification_active := false; stop_requested := false;
       session_path := py "/app/sessions/telegram_session" |} in
  match _validate_config self with
  | (tr, Some e) => (tr, inl e)
  | (tr, None) => (tr, inr self)
  end
  end end end.
End Config.

(** ** Notification texts *)

(** A value interpolated in an f-string: a string, or [None]. *)
Definition fmt (v : option str) : str :=
  match v with
  | Some s => s
  | None => py "None"
  end.

(** The local variables of one run of [start_notification_loop]. *)
Record Locals := {
  sender_name : option str;
  message_preview : str;
  timestamp : str;
  notification_count : nat
}.

Definition max_notifications : nat := 25.

Definition initial_text (self : PublicChannelMonitor) (l : Locals) : str :=
  f_string
    [ py "🔔 <b>NEW MESSAGE DETECTED!</b>"; nl; nl;
      py "📢 Channel: <code>"; channel_username self; py "</code>"; nl;
      py "👤 Sender: "; fmt (sender_name l); nl;
      py "⏰ Time: "; timestamp l; nl;
      py "💬 Preview: "; message_preview l; nl; nl;
      py "🛑 Send /stop to your bot to stop notifications" ].

Definition alert_text (self : PublicChannelMonitor) (l : Locals) : str :=
  f_string
    [ py "⚠️ <b>ALERT #"; str_of_nat (notification_count l); py "</b> ⚠️"; nl; nl;
      py "You have an unread message from:"; nl;
      py "📢 <code>"; channel_username self; py "</code>"; nl;
      py "⏰ "; timestamp l; nl; nl;
      py "💬 <i>"; slice_to 100 (message_preview l); py "...</i>"; nl; nl;
      py "🛑 Send /stop to your bot to stop these alerts" ].

Definition max_text : str :=
  py "⚠️ Maximum notifications reached. Alerts stopped automatically.".

Definition stopped_text : str := py "✅ Notifications stopped!".

Definition startup_text (self : PublicChannelMonitor) : str :=
  f_string
    [ py "🤖 <b>Channel Monitor Started!</b>"; nl; nl;
      py "📢 Monitoring: <code>"; channel_username self; py "</code>"; nl;
      py "🔍 Waiting for new messages..."; nl;
      py "⏱️ Notification interval: "; str_of_Z (notification_interval self); py "s"; nl; nl;
      py "ℹ️ Send /stop to stop notifications when they start" ].

(** ** [send_notification]

    The call appends the request to the trace and suspends; on resumption a
    [TelegramError] is caught and logged, and the coroutine returns [None]
    either way. *)
Definition send_notification_call (self : PublicChannelMonitor) (message_text : str)
  : action :=
  SendMessage (user_id self) message_text (Some (py "HTML")).

Definition send_notification_return {A} (r : reply A) : list action :=
  match r with
  | Returned _ => []
  | Raised e => [Log ERROR (f_string [py "Error sending notification: "; e])]
  end.

(** ** [start_notification_loop] as a resumable coroutine *)

Inductive Frame :=
| Created (new_message : Message)   (* scheduled by [create_task], not yet run *)
| AwaitInitial (l : Locals)         (* in [send_notification(initial_text)] *)
| Settle (l : Locals)               (* in [asyncio.sleep(5)] *)
| AwaitAlert (l : Locals)           (* in [send_notification(alert_text)] *)
| Interval (l : Locals)             (* in [asyncio.sleep(notification_interval)] *)
| AwaitMax (l : Locals)             (* in the send of the maximum notice *)
| Finished.

Definition incr (l : Locals) : Locals :=
  {| sender_name := sender_name l; message_preview := message_preview l;
     timestamp := timestamp l; notification_count := S (notification_count l) |}.

(** The condition of the [while]. *)
Definition loop_test (self : PublicChannelMonitor) (l : Locals) : bool :=
  notification_active self && negb (stop_requested self)
  && (notification_count l <? max_notifications)%nat.

(** The last two statements: clear the flag, log, return. *)
Definition finish (self : PublicChannelMonitor)
  : PublicChannelMonitor * Frame * list action :=
  (set_flags self false (stop_requested self), Finished,
   [Log INFO (py "Notification loop ended")]).

(** After the loop: the maximum notice when the cap was reached. *)
Definition after_loop (self : PublicChannelMonitor) (l : Locals)
  : PublicChannelMonitor * Frame * list action :=
  if (max_notifications <=? notification_count l)%nat
  then (self, AwaitMax l, [send_notification_call self max_text])
  else finish self.

(** The head of the [while]: one more alert, or leave the loop. *)
Definition loop_head (self : PublicChannelMonitor) (l : Locals)
  : PublicChannelMonitor * Frame * list action :=
  if loop_test self l
  then let l' := incr l in
       (self, AwaitAlert l', [send_notification_call self (alert_text self l')])
  else after_loop self l.

Section Escalation.
Context `{Builtins}.

Definition sender_name_of (new_message : Message) : option str :=
  let by_first_name :=
    match sender new_message with
    | None => Some (py "Unknown")
    | Some s =>
        match first_name s with
        | Absent => Some (py "Unknown")
        | IsNone => None
        | Str n => Some n
        end
    end in
  match sender new_message with
  | Some s =>
      match username s with
      | Str u => if truthy u then Some (f_string [py "@"; u]) else by_first_name
      | _ => by_first_name
      end
  | None => by_first_name
  end.

Definition message_preview_of (new_message : Message) : str :=
  match text new_message with
  | Some t => if truthy t then slice_to 150 t else py "Media message"
  | None => py "Media message"
  end.

Definition locals_of (new_message : Message) : Locals :=
  {| sender_name := sender_name_of new_message;
     message_preview := message_preview_of new_message;
     timestamp := strftime (date new_message) (py "%H:%M:%S %d/%m/%Y");
     notification_count := 0 |}.

(** One resumption of the coroutine: from the suspension point [f], with
    the result [r] of the awaited bot call (unused after a sleep), up to
    the next suspension point. *)
Definition start_notification_loop
    (self : PublicChannelMonitor) (f : Frame) (r : reply unit)
  : PublicChannelMonitor * Frame * list action :=
  match f with
  | Created new_message =>
      if notification_active self then (self, Finished, [])
      else
        let self' := set_flags self true false in
        let l := locals_of new_message in
        (self', AwaitInitial l, [send_notification_call self' (initial_text self' l)])
  | AwaitInitial l =>
      (self, Settle l, send_notification_return r ++ [Sleep 5])
  | Settle l => loop_head self l
  | AwaitAlert l =>
      (self, Interval l,
       send_notification_return r ++
       [Log INFO (f_string [py "Sent alert notification #";
                            str_of_nat (notification_count l)]);
        Sleep (notification_interval self)])
  | Interval l => loop_head self l
  | AwaitMax l =>
      let '(self', f', acts) := finish self in
      (self', f', send_notification_return r ++ acts)
  | Finished => (self, Finished, [])
  end.

(** ** [check_stop_command] *)

(** The condition of the [if] inside the [for]. *)
Definition is_stop (self : PublicChannelMonitor) (update : Bot.Update) : bool :=
  match Bot.message update with
  | None => false
  | Some m =>
      (Bot.from_user_id m =? user_id self) &&
      match Bot.text m with
      | None => false
      | Some t => truthy t && bool_decide (str_lower (str_strip t) = py "/stop")
      end
  end.

Inductive CheckFrame :=
| AwaitUpdates                        (* in [get_updates(limit=10)] *)
| AwaitConfirm (update : Bot.Update)  (* in [send_message] of the confirmation *)
| AwaitAck.                           (* in [get_updates(offset=update_id + 1)] *)

Definition check_failed (e : str) : list action :=
  [Log ERROR (f_string [py "Error checking for stop command: "; e])].

(** One resumption of [check_stop_command]: suspended again ([inl]) or
    returned ([inr], with the boolean it returns). *)
Definition check_stop_command
    (self : PublicChannelMonitor) (f : CheckFrame) (r : reply (list Bot.Update))
  : PublicChannelMonitor * (CheckFrame + bool) * list action :=
  match f, r with
  | _, Raised e => (self, inr false, check_failed e)
  | AwaitUpdates, Returned updates =>
      match find (is_stop self) updates with
      | Some update =>
          (set_flags self false true, inl (AwaitConfirm update),
           [SendMessage (user_id self) stopped_text None])
      | None => (self, inr false, [])
      end
  | AwaitConfirm update, Returned _ =>
      (self, inl AwaitAck, [GetUpdates (Some (Bot.update_id update + 1)) None])
  | AwaitAck, Returned _ =>
      (self, inr true, [Log INFO (py "Stop command received")])
  end.

(** The [while True] of [start_monitoring]: check, sleep 2, again. *)
Inductive Poller :=
| Checking (f : CheckFrame)
| Sleeping (handled : bool).

Definition poller_step
    (self : PublicChannelMonitor) (p : Poller) (r : reply (list Bot.Update))
  : PublicChannelMonitor * Poller * list action :=
  match p with
  | Sleeping _ => (self, Checking AwaitUpdates, [GetUpdates None (Some 10)])
  | Checking f =>
      let '(self', res, acts) := check_stop_command self f r in
      match res with
      | inl f' => (self', Checking f', acts)
      | inr handled => (self', Sleeping handled, acts ++ [Sleep 2])
      end
  end.

(** ** The event loop *)

Record World := {
  monitor : PublicChannelMonitor;
  tasks : list Frame;
  poller : Poller;
  trace : list action
}.

Inductive event :=
| NewMessage (m : Message)                 (* the channel delivers a message *)
| Task (i : nat) (r : reply unit)          (* task [i] is resumed *)
| Poll (r : reply (list Bot.Update)).      (* the poller is resumed *)

(** [handler(event)]: log, and schedule the coroutine. *)
Definition handler (w : World) (m : Message) : World :=
  {| monitor := monitor w;
     tasks := tasks w ++ [Created m];
     poller := poller w;
     trace := trace w ++
       [Log INFO (f_string [py "New message detected in ";
                            channel_username (monitor w)])] |}.

Definition step (w : World) (ev : event) : World :=
  match ev with
  | NewMessage m => handler w m
  | Task i r =>
      match tasks w !! i with
      | None => w
      | Some f =>
          let '(self', f', acts) := start_notification_loop (monitor w) f r in
          {| monitor := self'; tasks := <[i := f']> (tasks w);
             poller := poller w; trace := trace w ++ acts |}
      end
  | Poll r =>
      let '(self', p', acts) := poller_step (monitor w) (poller w) r in
      {| monitor := self'; tasks := tasks w; poller := p';
         trace := trace w ++ acts |}
  end.

Definition run (w : World) (evs : list event) : World := foldl step w evs.
End Escalation.

(** ** Startup: [setup_client], [start_monitoring], [main] *)

(** What the two libraries and the file system answer during startup. *)
Record Startup := {
  makedirs_raises : option exn;   (* [os.makedirs] *)
  session_exists : bool;          (* [os.path.exists(session file)] *)
  start_raises : option exn;      (* [client.start(phone=...)] *)
  authorized : bool;              (* [client.is_user_authorized()] *)
  startup_reply : reply unit      (* the send of the startup message *)
}.

(** [setup_client]: the trace, the monitor as the coroutine leaves it, and
    the exception it raises, if any. *)
Definition setup_client (env : Startup) (self : PublicChannelMonitor)
  : list action * PublicChannelMonitor * option exn :=
  let t0 := [Log INFO (py "Setting up Telegram client..."); Makedirs (py "/app/sessions")] in
  match makedirs_raises env with
  | Some e => (t0, self, Some e)
  | None =>
  let self1 := set_client self true (bot self) in
  let t1 :=
    t0 ++ [PathExists (f_string [session_path self; py ".session"])] ++
    (if session_exists env then []
     else [Log WARNING (py "No existing session found. First-time setup required.");
           Log WARNING (py "You may need to run this interactively first to authenticate.")]) ++
    [ClientStart (phone_number self)] in
  match start_raises env with
  | Some e => (t1, self1, Some e)
  | None =>
  if authorized env
  then (t1 ++ [IsUserAuthorized; Log INFO (py "Client and bot setup complete")],
        set_client self1 true true, None)
  else (t1 ++ [IsUserAuthorized;
               Log ERROR (py "User not authorized. Session may be invalid or missing.");
               Log ERROR (py "Please run the script interactively first to authenticate.")],
        self1, Some (Exception (py "Authentication required")))
  end end.

Section Startup.
Context `{Builtins}.

(** How [start_monitoring] gets on: it returns early, or it reaches the
    [while True] with the handler installed and the first poll under way. *)
Inductive Started :=
| Aborted (self : PublicChannelMonitor) (tr : list action)
| Monitoring (w : World).

Definition start_monitoring (env : Startup) (self : PublicChannelMonitor) : Started :=
  match setup_client env self with
  | (tr, self', Some e) =>
      Aborted self'
        (tr ++ [Log ERROR (f_string [py "Failed to setup client: "; exn_str e]);
                Log ERROR (py "Make sure you have run the initial authentication setup.")])
  | (tr, self', None) =>
      Monitoring
        {| monitor := self'; tasks := []; poller := Checking AwaitUpdates;
           trace :=
             tr ++ [send_notification_call self' (startup_text self')] ++
             send_notification_return (startup_reply env) ++
             [ClientOn (channel_username self');
              Log INFO (f_string [py "Started monitoring "; channel_username self']);
              GetUpdates None (Some 10)] |}
  end.

(** [main] up to the monitoring loop: the constructor runs outside the
    [try], so its exception leaves [main]. *)
Definition main (environ : gmap str str) (env : Startup)
  : list action * (exn + Started) :=
  let t0 := [Log INFO (py "Starting Telegram Channel Monitor")] in
  match __init__ environ with
  | (tr, inl e) => (t0 ++ tr, inl e)
  | (tr, inr self) => (t0 ++ tr, inr (start_monitoring env self))
  end.
End Startup.

(** Actions that reach a transport. *)
Definition network (a : action) : bool :=
  match a with
  | ClientStart _ | IsUserAuthorized | ClientOn _
  | SendMessage _ _ _ | GetUpdates _ _ => true
  | _ => false
  end.

(** ** The builtins on ASCII text

    An instance used to evaluate the model on examples: decimal literals
    with an optional sign, ASCII white space and ASCII letters. *)

Fixpoint digits_value (acc : Z) (s : str) : option Z :=
  match s with
  | [] => Some acc
  | c :: r =>
      if ((48 <=? c) && (c <=? 57))%N
      then digits_value (acc * 10 + (Z.of_N c - 48)) r
      else None
  end.

Definition ascii_int (s : str) : option Z :=
  match s with
  | [] => None
  | 45%N :: (_ :: _) as r => Z.opp <$> digits_value 0 r
  | 43%N :: (_ :: _) as r => digits_value 0 r
  | 45%N :: [] | 43%N :: [] => None
  | _ => digits_value 0 s
  end.

Definition ascii_repr (s : str) : str := py "'" ++ s ++ py "'".

Definition ascii_space (c : N) : bool :=
  ((c =? 32) || ((9 <=? c) && (c <=? 13)))%N.

Fixpoint lstrip (s : str) : str :=
  match s with
  | c :: r => if ascii_space c then lstrip r else s
  | [] => []
  end.

Definition ascii_strip (s : str) : str := rev (lstrip (rev (lstrip s))).

Definition ascii_lower_char (c : N) : N :=
  if ((65 <=? c) && (c <=? 90))%N then (c + 32)%N else c.

Definition ascii_lower (s : str) : str := map ascii_lower_char s.

Definition pad2 (n : nat) : str :=
  if (n <? 10)%nat then 48%N :: str_of_nat n else str_of_nat n.

(** The one format the source uses; any other is returned as it is. *)
Definition ascii_strftime (d : datetime) (format : str) : str :=
  if bool_decide (format = py "%H:%M:%S %d/%m/%Y")
  then pad2 (hour d) ++ py ":" ++ pad2 (minute d) ++ py ":" ++ pad2 (second d) ++
       py " " ++ pad2 (day d) ++ py "/" ++ pad2 (month d) ++ py "/" ++ str_of_nat (year d)
  else format.

Definition ascii_builtins : Builtins := {|
  py_int := ascii_int;
  py_repr := ascii_repr;
  str_strip := ascii_strip;
  str_lower := ascii_lower;
  strftime := ascii_strftime;
  py_int_0 := eq_refl;
  py_int_30 := eq_refl;
  str_strip_empty := eq_refl;
  str_lower_empty := eq_refl
|}.

(** ** Vocabulary of the statements *)

(** The locals of a frame that has them. *)
Definition frame_locals (f : Frame) : option Locals :=
  match f with
  | AwaitInitial l | Settle l | AwaitAlert l | Interval l | AwaitMax l => Some l
  | Created _ | Finished => None
  end.

(** A cycle is running: the coroutine passed its guard and has not returned. *)
Definition live (f : Frame) : bool :=
  match f with
  | Created _ | Finished => false
  | _ => true
  end.

Definition live_count (fs : list Frame) : nat := length (List.filter live fs).

Definition is_finished (f : Frame) : bool :=
  match f with Finished => true | _ => false end.

Definition is_created (f : Frame) : bool :=
  match f with Created _ => true | _ => false end.

(** The alert counter stays within the cap. *)
Definition bounded (f : Frame) : bool :=
  match frame_locals f with
  | Some l => (notification_count l <=? max_notifications)%nat
  | None => true
  end.

(** An upper bound on the resumptions a frame still needs to return. *)
Definition fuel (f : Frame) : nat :=
  match f with
  | Created _ => 54
  | AwaitInitial l => 3 + 2 * (max_notifications - notification_count l)
  | Settle l => 2 + 2 * (max_notifications - notification_count l)
  | AwaitAlert l => 3 + 2 * (max_notifications - notification_count l)
  | Interval l => 2 + 2 * (max_notifications - notification_count l)
  | AwaitMax _ => 1
  | Finished => 0
  end.

Definition with_count (l : Locals) (n : nat) : Locals :=
  {| sender_name := sender_name l; message_preview := message_preview l;
     timestamp := timestamp l; notification_count := n |}.

(** The alerts numbered 1 to [n] of the cycle with locals [l]. *)
Definition alerts (self : PublicChannelMonitor) (l : Locals) (n : nat) : list str :=
  map (fun k => alert_text self (with_count l k)) (seq 1 n).

(** A get_updates(offset=...) call confirms the updates below the offset. *)
Definition confirmed_by (a : action) (u : Bot.Update) : bool :=
  match a with
  | GetUpdates (Some offset) _ => Bot.update_id u <? offset
  | _ => false
  end.

(** Update identifiers grow along a batch. *)
Fixpoint ascending (us : list Bot.Update) : bool :=
  match us with
  | u :: (v :: _) as rest => (Bot.update_id u <? Bot.update_id v) && ascending rest
  | _ => true
  end.

Section Schedules.
Context `{Builtins}.

(** Resumptions of task [i] in a schedule. *)
Definition resumes (i : nat) (evs : list event) : nat :=
  length (List.filter (fun ev => match ev with Task j _ => Nat.eqb i j | _ => false end) evs).

(** The batch holds no stop command of the recipient. *)
Definition no_stop_in (self : PublicChannelMonitor) (updates : list Bot.Update) : bool :=
  forallb (fun u => negb (is_stop self u)) updates.

(** The event brings no stop command. *)
Definition no_stop (self : PublicChannelMonitor) (ev : event) : bool :=
  match ev with
  | Poll (Returned updates) => no_stop_in self updates
  | _ => true
  end.

(** The event brings neither a stop command nor a new channel message. *)
Definition quiet (self : PublicChannelMonitor) (ev : event) : bool :=
  match ev with
  | NewMessage _ => false
  | _ => no_stop self ev
  end.

(** The same schedule with every send succeeding. *)
Definition succeed (ev : event) : event :=
  match ev with
  | Task i _ => Task i (Returned tt)
  | _ => ev
  end.

(** No cycle is pending or running. *)
Definition idle (w : World) : bool :=
  negb (notification_active (monitor w)) && forallb is_finished (tasks w).
End Schedules.

(** The text of a present setting is the zero of its type, or the setting
    is absent: integer settings read 0, string settings are empty. *)
Definition required_names : list str :=
  [py "API_ID"; py "API_HASH"; py "PHONE_NUMBER"; py "BOT_TOKEN"; py "USER_ID";
   py "CHANNEL_USERNAME"].

Definition integer_setting (name : str) : bool :=
  bool_decide (name = py "API_ID") || bool_decide (name = py "USER_ID").

Definition absent_or_zero `{Builtins} (environ : gmap str str) (name : str) : bool :=
  match environ_get environ name with
  | None => true
  | Some v =>
      if integer_setting name
      then match py_int v with Some 0 => true | _ => false end
      else negb (truthy v)
  end.

(** The integer settings that are set hold integer literals. *)
Definition integers_parse `{Builtins} (environ : gmap str str) : bool :=
  forallb (fun name => match environ_get environ name with
                       | None => true
                       | Some v => match py_int v with Some _ => true | None => false end
                       end)
          [py "API_ID"; py "USER_ID"; py "NOTIFICATION_INTERVAL"].

(** What the undisturbed cycle of a message has handed to the bot by the
    time it is suspended at [f]. *)
Definition told (self : PublicChannelMonitor) (l0 : Locals) (f : Frame) : list str :=
  match f with
  | Created _ => []
  | AwaitInitial _ | Settle _ => [initial_text self l0]
  | AwaitAlert l | Interval l =>
      initial_text self l0 :: alerts self l0 (notification_count l)
  | AwaitMax _ | Finished =>
      initial_text self l0 :: alerts self l0 max_notifications ++ [max_text]
  end.

(** The frames the undisturbed cycle with initial locals [l0] goes through. *)
Definition on_track (m : Message) (l0 : Locals) (f : Frame) : Prop :=
  match f with
  | Created m' => m' = m
  | AwaitInitial l | Settle l => l = l0
  | AwaitAlert l | Interval l =>
      l = with_count l0 (notification_count l) /\
      (1 <= notification_count l <= max_notifications)%nat
  | AwaitMax l => l = with_count l0 max_notifications
  | Finished => True
  end.

(** An upper bound on the resumptions a frame needs to return once the
    flags say stop. *)
Definition wind (f : Frame) : nat :=
  match f with
  | Created _ => 0
  | AwaitInitial l | AwaitAlert l =>
      if (notification_count l <? max_notifications)%nat then 2 else 3
  | Settle l | Interval l =>
      if (notification_count l <? max_notifications)%nat then 1 else 2
  | AwaitMax _ => 1
  | Finished => 0
  end.

(** The frame will send nothing more once the flags say stop: it is past
    its guard, below the cap and not about to send the maximum notice. *)
Definition calm (f : Frame) : bool :=
  match f with
  | Created _ | AwaitMax _ => false
  | Finished => true
  | AwaitInitial l | Settle l | AwaitAlert l | Interval l =>
      (notification_count l <? max_notifications)%nat
  end.

(** The trace without its log lines: what reaches the outside. *)
Definition is_log (a : action) : bool :=
  match a with Log _ _ => true | _ => false end.

Definition unlogged (tr : list action) : list action :=
  List.filter (fun a => negb (is_log a)) tr.

(** ** Invariants of the runs *)

Section Invariants.
Context `{Builtins}.

(** The world while the cycle of [m], taken up in [w0], runs with nothing
    else going on: its task is the last of the pool and is at [f]. *)
Definition undisturbed (w0 : World) (m : Message) (f : Frame) (w : World) : Prop :=
  tasks w = tasks w0 ++ [f] /\
  on_track m (locals_of m) f /\
  monitor w = set_flags (monitor w0) (live f)
                (if is_created f then stop_requested (monitor w0) else false) /\
  sent (trace w) = sent (trace w0) ++ told (monitor w0) (locals_of m) f.

(** The flag counts the running cycles: it is set exactly while one
    cycle is live. *)
Definition one_cycle (w : World) : Prop :=
  live_count (tasks w) = if notification_active (monitor w) then 1%nat else 0%nat.

(** The world once the flags say stop and no message is pending. *)
Definition stopped (w : World) : Prop :=
  notification_active (monitor w) = false /\
  stop_requested (monitor w) = true /\
  forallb (fun f => negb (is_created f)) (tasks w) = true.

(** The frames of the task created for [m]: their locals are those
    computed from [m], up to the counter. *)
Definition from_message (m : Message) (f : Frame) : Prop :=
  match f with
  | Created m' => m' = m
  | Finished => True
  | _ => exists n, frame_locals f = Some (with_count (locals_of m) n)
  end.

(** The texts the cycle of [m] can hand to the bot. *)
Definition text_of_cycle (self : PublicChannelMonitor) (m : Message) (t : str) : Prop :=
  t = initial_text self (locals_of m) \/
  (exists k, t = alert_text self (with_count (locals_of m) k)) \/
  t = max_text.

End Invariants.

(** ** Vocabulary of the runs *)

Section Shares.
Context `{Builtins}.

(** What task [i] does along a schedule, as [view] shows it. *)
Fixpoint share {X : Type} (view : list action -> list X)
    (i : nat) (w : World) (evs : list event) : list X :=
  match evs with
  | [] => []
  | ev :: evs' =>
      match ev with
      | Task j r =>
          if Nat.eqb i j then
            match tasks w !! j with
            | Some f => view (start_notification_loop (monitor w) f r).2
            | None => []
            end
          else []
      | _ => []
      end ++ share view i (step w ev) evs'
  end.

(** The texts task [i] hands to the bot along a schedule. *)
Definition sent_by : nat -> World -> list event -> list str := share sent.

(** What task [i] does to the outside along a schedule: its sends and its
    sleeps. *)
Definition done_by : nat -> World -> list event -> list action := share unlogged.

(** Everything a cycle of [m] can say, in the order of the source: the
    initial notification, the alerts 1 to 25, the maximum notice. *)
Definition script (self : PublicChannelMonitor) (m : Message) : list str :=
  initial_text self (locals_of m) :: alerts self (locals_of m) max_notifications ++ [max_text].

(** What a run adds to the trace. *)
Definition emitted (w : World) (evs : list event) : list action :=
  drop (length (trace w)) (trace (run w evs)).

(** Everything a cycle of [m] can do to the outside, in the order of the
    source: the initial notification, the sleep of 5, each alert with the
    sleep of the interval after it, the maximum notice. *)
Definition pace (self : PublicChannelMonitor) (m : Message) : list action :=
  send_notification_call self (initial_text self (locals_of m)) ::
  Sleep 5 ::
  flat_map (fun k => [send_notification_call self
                        (alert_text self (with_count (locals_of m) k));
                      Sleep (notification_interval self)])
           (seq 1 max_notifications) ++
  [send_notification_call self max_text].
End Shares.

(** How far in its pace a suspended cycle is. *)
Definition paced (f : Frame) : nat :=
  match f with
  | Created _ => 0
  | AwaitInitial _ => 1
  | Settle _ => 2
  | AwaitAlert l => notification_count l + notification_count l + 1
  | Interval l => notification_count l + notification_count l + 2
  | AwaitMax _ | Finished => 53
  end.

(** How far in its script a suspended cycle is. *)
Definition said (f : Frame) : nat :=
  match f with
  | Created _ => 0
  | AwaitInitial _ | Settle _ => 1
  | AwaitAlert l | Interval l => S (notification_count l)
  | AwaitMax _ | Finished => 27
  end.

(** The message goes to the configured recipient, as HTML when it is a
    notification and plain when it is the confirmation of a stop. *)
Definition to_recipient (self : PublicChannelMonitor) (a : action) : Prop :=
  match a with
  | SendMessage chat_id t parse_mode =>
      chat_id = user_id self /\
      (parse_mode = Some (py "HTML") \/ (parse_mode = None /\ t = stopped_text))
  | _ => True
  end.

(** The update is the one whose confirmation is pending at the start, or
    the first stop command of the recipient in a batch that
    get_updates(limit=10) returns to the poller during the schedule. *)
Definition taken_up `{Builtins} (w : World) (evs : list event) (u : Bot.Update) : Prop :=
  poller w = Checking (AwaitConfirm u) \/
  exists evs1 updates evs2,
    evs = evs1 ++ Poll (Returned updates) :: evs2 /\
    poller (run w evs1) = Checking AwaitUpdates /\
    find (is_stop (monitor w)) updates = Some u.

(** A call of get_updates is the poll for at most 10 updates, or the
    acknowledgement of a stop command of the recipient that the poller has
    taken up. *)
Definition poll_or_ack `{Builtins} (w : World) (evs : list event) (a : action) : Prop :=
  match a with
  | GetUpdates None (Some 10) => True
  | GetUpdates (Some offset) None =>
      exists u, taken_up w evs u /\ is_stop (monitor w) u = true /\
                offset = Bot.update_id u + 1
  | GetUpdates _ _ => False
  | _ => True
  end.

(** The same for one resumption: the acknowledgement is that of the update
    whose confirmation the poller awaits. *)
Definition poll_or_ack_of (p : Poller) (a : action) : Prop :=
  match a with
  | GetUpdates None (Some 10) => True
  | GetUpdates (Some offset) None =>
      exists u, p = Checking (AwaitConfirm u) /\ offset = Bot.update_id u + 1
  | GetUpdates _ _ => False
  | _ => True
  end.

(** The confirmation the poller is about to acknowledge is that of a stop
    command. *)
Definition confirming_a_stop `{Builtins} (w : World) : Prop :=
  forall u, poller w = Checking (AwaitConfirm u) -> is_stop (monitor w) u = true.

(** The poller's resumptions in a schedule. *)
Definition polls (evs : list event) : nat :=
  length (List.filter (fun ev => match ev with Poll _ => true | _ => false end) evs).

(** An upper bound on the resumptions the poller needs to poll again. *)
Definition until_poll (p : Poller) : nat :=
  match p with
  | Checking AwaitUpdates => 4
  | Checking (AwaitConfirm _) => 3
  | Checking AwaitAck => 2
  | Sleeping _ => 1
  end.

(** A stopped cycle at the cap: its maximum notice is still to come. *)
Definition at_cap (self0 : PublicChannelMonitor) (l : Locals) (fin : list Frame)
    (said0 : list str) (w : World) : Prop :=
  monitor w = set_flags self0 false true /\
  exists f, tasks w = fin ++ [f] /\
    (((f = AwaitAlert l \/ f = Interval l) /\ sent (trace w) = said0) \/
     ((f = AwaitMax l \/ f = Finished) /\ sent (trace w) = said0 ++ [max_text])).

(** ** Example data *)

Module Ex.
Definition self : PublicChannelMonitor :=
  {| api_id := 12345; api_hash := py "0123abcd"; phone_number := py "+10000000000";
     bot_token := py "42:token"; user_id := 777; channel_username := py "@news";
     notification_interval := 30; client := true; bot := true;
     notification_active := false; stop_requested := false;
     session_path := py "/app/sessions/telegram_session" |}.

(** The world when monitoring has just started. *)
Definition w : World :=
  {| monitor := self; tasks := []; poller := Checking AwaitUpdates; trace := [] |}.

Definition ann : Sender := {| first_name := Str (py "Ann"); username := Str (py "ann") |}.

Definition noon : datetime :=
  {| year := 2024; month := 5; day := 6; hour := 12; minute := 0; second := 9 |}.

Definition m : Message :=
  {| sender := Some ann; text := Some (py "Breaking: something happened"); date := noon |}.

Definition m2 : Message :=
  {| sender := None; text := Some (py "Second post"); date := noon |}.

Definition long_body : str := concat (replicate 16 (py "0123456789")).

Definition m_long : Message :=
  {| sender := Some ann; text := Some long_body; date := noon |}.

Definition m_media : Message := {| sender := Some ann; text := None; date := noon |}.

Definition ok : reply unit := Returned tt.

(** A full cycle: 54 resumptions, the poller finding nothing in between. *)
Definition full_cycle : list event :=
  concat (replicate 54 [Task 0 ok; Poll (Returned [])]).

(** Up to the third alert, its send still pending. *)
Definition three_alerts : list event := replicate 7 (Task 0 ok).

Definition update (i : Z) (from : Z) (t : str) : Bot.Update :=
  {| Bot.update_id := i;
     Bot.message := Some {| Bot.from_user_id := from; Bot.text := Some t |} |}.

Definition stranger_stop : Bot.Update := update 10 555 (py "/stop").
Definition hello : Bot.Update := update 11 777 (py "hello").
Definition stop : Bot.Update := update 12 777 (py " /STOP ").
Definition stop_again : Bot.Update := update 13 777 (py "/stop").
Definition stop_message : Bot.Message :=
  {| Bot.from_user_id := 777; Bot.text := Some (py " /STOP ") |}.

Definition batch_before : list Bot.Update := [stranger_stop; hello].
Definition batch_after : list Bot.Update := [stop_again].

(** After the stop: the cycle wakes up, the confirmation and the
    acknowledgement go through. *)
Definition wind_down : list event :=
  [Task 0 ok; Poll (Returned []); Task 0 ok; Poll (Returned [])].

(** Two messages in a row, then the tasks run. *)
Definition two_messages : list event :=
  [NewMessage m; NewMessage m2; Task 0 ok; Task 1 ok; Task 0 ok; Task 0 ok;
   Poll (Returned [stranger_stop; hello]); Task 0 (Raised (py "timed out"))].

(** A stop while the first cycle sleeps, then a new message before the
    first cycle wakes up. *)
Definition stop_then_message : list event :=
  [NewMessage m; Task 0 ok; Task 0 ok; Task 0 ok; Task 0 ok;
   Poll (Returned [stop]); NewMessage m2; Task 1 ok; Task 0 ok].

Definition environ_ok : gmap str str :=
  list_to_map
    [(py "API_ID", py "12345"); (py "API_HASH", py "0123abcd");
     (py "PHONE_NUMBER", py "+10000000000"); (py "BOT_TOKEN", py "42:token");
     (py "USER_ID", py "777"); (py "CHANNEL_USERNAME", py "@news")].

(** No bot token, and a user identifier of 0. *)
Definition environ_missing : gmap str str :=
  list_to_map
    [(py "API_ID", py "12345"); (py "API_HASH", py "0123abcd");
     (py "PHONE_NUMBER", py "+10000000000");
     (py "USER_ID", py "0"); (py "CHANNEL_USERNAME", py "@news")].

(** No bot token, and an interval that is not an integer literal. *)
Definition environ_malformed : gmap str str :=
  list_to_map
    [(py "API_ID", py "12345"); (py "API_HASH", py "0123abcd");
     (py "PHONE_NUMBER", py "+10000000000");
     (py "USER_ID", py "777"); (py "CHANNEL_USERNAME", py "@news");
     (py "NOTIFICATION_INTERVAL", py "30s")].

Definition unauthorized : Startup :=
  {| makedirs_raises := None; session_exists := false; start_raises := None;
     authorized := false; startup_reply := Returned tt |}.

Definition authorized_env : Startup :=
  {| makedirs_raises := None; session_exists := true; start_raises := None;
     authorized := true; startup_reply := Returned tt |}.

(** The first run: no session file yet, the login completed while the
    client started. *)
Definition first_run : Startup :=
  {| makedirs_raises := None; session_exists := false; start_raises := None;
     authorized := true; startup_reply := Returned tt |}.
(** Up to the sleep after the 25th alert. *)
Definition all_alerts : list event := replicate 52 (Task 0 ok).

Definition three_resumptions : list event := replicate 3 (Task 0 ok).

(** Four resumptions of the poller: a failed poll, the sleep, an empty
    batch, the sleep. *)
Definition four_polls : list event :=
  [Poll (Raised (py "timed out")); Poll (Returned []); Poll (Returned []);
   Poll (Returned [])].
End Ex.

(** * Proofs *)

Arguments f_string : simpl never.
Arguments slice_to : simpl never.
Arguments initial_text : simpl never.
Arguments alert_text : simpl never.
Arguments max_text : simpl never.
Arguments stopped_text : simpl never.
Arguments max_notifications : simpl never.
Arguments script : simpl never.
Arguments pace : simpl never.

Section Proofs.
Context `{Builtins}.

Lemma sent_app (a b : list action) : sent (a ++ b) = sent a ++ sent b.
Proof. apply omap_app. Qed.

Lemma sent_send_notification_return {A} (r : reply A) :
  sent (send_notification_return r) = [].
Proof. destruct r; reflexivity. Qed.

Lemma set_flags_id (self : PublicChannelMonitor) :
  set_flags self (notification_active self) (stop_requested self) = self.
Proof. destruct self; reflexivity. Qed.

Lemma alerts_S self l n :
  alerts self l (S n) = alerts self l n ++ [alert_text self (with_count l (S n))].
Proof. unfold alerts. rewrite seq_S, map_app. reflexivity. Qed.

Lemma alerts_length self l n : length (alerts self l n) = n.
Proof. unfold alerts. rewrite length_map. apply length_seq. Qed.


Lemma set_flags_set_flags self a b c d :
  set_flags (set_flags self a b) c d = set_flags self c d.
Proof. reflexivity. Qed.

Lemma initial_text_set_flags self a b l :
  initial_text (set_flags self a b) l = initial_text self l.
Proof. unfold initial_text. simpl. reflexivity. Qed.

Lemma alert_text_set_flags self a b l :
  alert_text (set_flags self a b) l = alert_text self l.
Proof. unfold alert_text. simpl. reflexivity. Qed.

Lemma send_notification_call_set_flags self a b t :
  send_notification_call (set_flags self a b) t = send_notification_call self t.
Proof. reflexivity. Qed.

Lemma sent_send_notification_call self t : sent [send_notification_call self t] = [t].
Proof. reflexivity. Qed.


Ltac flags :=
  repeat first
    [ rewrite initial_text_set_flags
    | rewrite alert_text_set_flags
    | rewrite send_notification_call_set_flags
    | rewrite sent_app
    | rewrite sent_send_notification_return
    | rewrite sent_send_notification_call
    | rewrite app_nil_r ].

Lemma cycle_resume self0 m (f : Frame) (r : reply unit) s self' f' acts :
  let l0 := locals_of m in
  on_track m l0 f ->
  (is_created f = false -> s = false) ->
  start_notification_loop (set_flags self0 (live f) s) f r = (self', f', acts) ->
  self' = set_flags self0 (live f') false /\
  on_track m l0 f' /\
  is_created f' = false /\
  told self0 l0 f' = told self0 l0 f ++ sent acts /\
  (fuel f' = fuel f - 1)%nat.
Proof.
  intros l0 Htrack Hs.
  destruct f as [m'|l|l|l|l|l|]; simpl in Htrack;
    try (rewrite (Hs eq_refl)); simpl.
  - subst m'. intros [= <- <- <-]. flags. split_and!; reflexivity.
  - subst l. intros [= <- <- <-]. flags. split_and!; reflexivity.
  - subst l. unfold loop_head, loop_test. simpl.
    intros [= <- <- <-]. flags. split_and!; simpl; try reflexivity.
    split; [reflexivity | unfold max_notifications; lia].
  - destruct Htrack as [Hl Hn]. intros [= <- <- <-]. flags.
    split_and!; simpl; try done; try lia.
  - destruct Htrack as [Hl Hn]. unfold loop_head, loop_test. simpl.
    destruct (Nat.ltb_spec (notification_count l) max_notifications) as [Hlt|Hge].
    + intros [= <- <- <-]. flags. unfold max_notifications in *.
      split_and!; simpl; try reflexivity; try lia.
      * split; [rewrite Hl; reflexivity | unfold max_notifications; lia].
      * rewrite alerts_S.
        replace (incr l) with (with_count l0 (S (notification_count l)))
          by (rewrite Hl; reflexivity).
        reflexivity.
    + unfold after_loop.
      destruct (Nat.leb_spec max_notifications (notification_count l));
        [|unfold max_notifications in *; lia].
      assert (notification_count l = max_notifications) as Hc by lia.
      intros [= <- <- <-]. flags. split_and!; simpl; try reflexivity.
      * rewrite Hl, Hc. reflexivity.
      * rewrite Hc. reflexivity.
      * rewrite Hc. unfold max_notifications. lia.
  - intros [= <- <- <-]. flags. split_and!; simpl; try reflexivity; try lia.
  - intros [= <- <- <-]. flags. split_and!; simpl; try reflexivity; try lia.
Qed.

(** ** The poller without a stop command *)

Lemma find_no_stop self (updates : list Bot.Update) :
  no_stop_in self updates = true -> find (is_stop self) updates = None.
Proof.
  unfold no_stop_in. induction updates as [|u us IH]; simpl; [reflexivity|].
  intros [Hu Hus]%andb_true_iff. apply negb_true_iff in Hu. rewrite Hu. auto.
Qed.

Lemma poller_step_no_stop self p r self' p' acts :
  no_stop self (Poll r) = true ->
  poller_step self p r = (self', p', acts) ->
  self' = self /\ sent acts = [].
Proof.
  intros Hq. destruct p as [[|u|]|b]; destruct r as [updates|e]; simpl in *;
    try (intros [= <- <- <-]; split; reflexivity).
  rewrite (find_no_stop _ _ Hq). intros [= <- <- <-]. split; reflexivity.
Qed.

Lemma is_stop_set_flags self a b u : is_stop (set_flags self a b) u = is_stop self u.
Proof. reflexivity. Qed.

Lemma no_stop_set_flags self a b ev :
  no_stop (set_flags self a b) ev = no_stop self ev.
Proof. reflexivity. Qed.

(** ** The undisturbed cycle in the world *)

Lemma undisturbed_handler w0 m :
  notification_active (monitor w0) = false ->
  undisturbed w0 m (Created m) (handler w0 m).
Proof.
  intros Hidle. unfold undisturbed, handler; simpl. split_and!; try reflexivity.
  - rewrite <- Hidle. symmetry. apply set_flags_id.
  - rewrite sent_app. reflexivity.
Qed.

Lemma resumes_cons i ev evs :
  resumes i (ev :: evs) = (resumes i [ev] + resumes i evs)%nat.
Proof. unfold resumes. simpl. destruct ev; simpl; try reflexivity.
  destruct (Nat.eqb i i0); reflexivity. Qed.

Lemma resumes_nil i : resumes i [] = 0%nat.
Proof. reflexivity. Qed.

Lemma resumes_task i j r :
  resumes i [Task j r] = if Nat.eqb i j then 1%nat else 0%nat.
Proof. unfold resumes; simpl. destruct (Nat.eqb i j); reflexivity. Qed.

Lemma resumes_task_ne i j r : i <> j -> resumes i [Task j r] = 0%nat.
Proof.
  intros Hne. rewrite resumes_task. destruct (Nat.eqb_spec i j); [contradiction|reflexivity].
Qed.

Lemma resumes_poll i r : resumes i [Poll r] = 0%nat.
Proof. reflexivity. Qed.

Lemma resumes_new i m : resumes i [NewMessage m] = 0%nat.
Proof. reflexivity. Qed.

Lemma undisturbed_step w0 m f w ev :
  forallb is_finished (tasks w0) = true ->
  undisturbed w0 m f w ->
  quiet (monitor w0) ev = true ->
  exists f', undisturbed w0 m f' (step w ev) /\
             (fuel f' = fuel f - resumes (length (tasks w0)) [ev])%nat.
Proof.
  intros Hfin (Htasks & Htrack & Hmon & Hsent) Hq.
  destruct ev as [m'|j r|r]; simpl in Hq; [discriminate| |].
  - (* a task is resumed *)
    unfold step. rewrite Htasks.
    destruct (lt_eq_lt_dec j (length (tasks w0))) as [[Hlt|Heq]|Hgt].
    + (* a task that finished before *)
      rewrite lookup_app_l by assumption.
      destruct (lookup_lt_is_Some_2 (tasks w0) j Hlt) as [g Hg]. rewrite Hg.
      assert (g = Finished) as ->.
      { apply list_elem_of_lookup_2 in Hg. apply list_elem_of_In in Hg.
        rewrite forallb_forall in Hfin. specialize (Hfin _ Hg).
        destruct g; try discriminate. reflexivity. }
      simpl. exists f. split.
      * unfold undisturbed; simpl. rewrite app_nil_r.
        rewrite insert_app_l by assumption. rewrite list_insert_id by assumption.
        split_and!; done.
      * unfold resumes; simpl.
        destruct (Nat.eqb_spec (length (tasks w0)) j); [lia|]. simpl. lia.
    + (* the task of the cycle *)
      subst j. rewrite list_lookup_middle by reflexivity.
      rewrite Hmon.
      destruct (start_notification_loop _ f r) as [[self' f'] acts] eqn:Hres.
      assert (is_created f = false ->
              (if is_created f then stop_requested (monitor w0) else false) = false)
        as Hs by (intros ->; reflexivity).
      destruct (cycle_resume _ m _ _ _ _ _ _ Htrack Hs Hres)
        as (-> & Htrack' & Hcr & Htold & Hfuel).
      exists f'. split.
      * unfold undisturbed; simpl. rewrite Hcr.
        rewrite insert_app_r_alt by lia. rewrite Nat.sub_diag. simpl.
        split_and!; try done.
        rewrite sent_app, Hsent, Htold. rewrite app_assoc. reflexivity.
      * unfold resumes; simpl. rewrite Nat.eqb_refl. simpl. lia.
    + (* no such task *)
      rewrite lookup_ge_None_2 by (rewrite length_app; simpl; lia).
      exists f. split; [unfold undisturbed; split_and!; assumption|].
      unfold resumes; simpl.
      destruct (Nat.eqb_spec (length (tasks w0)) j); [lia|]. simpl. lia.
  - (* the poller is resumed *)
    unfold step.
    destruct (poller_step (monitor w) (poller w) r) as [[self' p'] acts] eqn:Hres.
    apply poller_step_no_stop in Hres;
      [| rewrite Hmon, no_stop_set_flags; assumption].
    destruct Hres as [-> Hnone].
    exists f. split; [|unfold resumes; simpl; lia].
    unfold undisturbed; simpl. split_and!; try assumption.
    rewrite sent_app, Hnone, app_nil_r. assumption.
Qed.

Lemma undisturbed_run w0 m evs : forall f w,
  forallb is_finished (tasks w0) = true ->
  undisturbed w0 m f w ->
  forallb (quiet (monitor w0)) evs = true ->
  exists f', undisturbed w0 m f' (run w evs) /\
             (fuel f' = fuel f - resumes (length (tasks w0)) evs)%nat.
Proof.
  induction evs as [|ev evs IH]; intros f w Hfin Hinv Hq.
  - exists f. split; [assumption|]. unfold resumes; simpl. lia.
  - simpl in Hq. apply andb_true_iff in Hq as [Hev Hevs].
    destruct (undisturbed_step _ _ _ _ _ Hfin Hinv Hev) as (f1 & Hinv1 & Hfuel1).
    destruct (IH _ _ Hfin Hinv1 Hevs) as (f2 & Hinv2 & Hfuel2).
    exists f2. split; [assumption|].
    rewrite resumes_cons. lia.
Qed.

Lemma fuel_0 f : fuel f = 0%nat -> f = Finished.
Proof. destruct f; simpl; intros; try lia. reflexivity. Qed.

Lemma idle_spec w :
  idle w = true ->
  notification_active (monitor w) = false /\ forallb is_finished (tasks w) = true.
Proof.
  unfold idle. intros [Ha Hf]%andb_true_iff. apply negb_true_iff in Ha. auto.
Qed.

(** ** Scenario A *)

(** C1. From a world with no cycle pending or running, one channel
    message and then any schedule of task and poller resumptions that
    brings no stop command and no further message, with at least the 54
    resumptions the cycle needs: the bot has been handed exactly the
    initial notification, then the alerts numbered 1 to 25 in order, then
    the maximum notice, and the active flag is false again. *)
Theorem escalation_runs_to_the_cap (w : World) (m : Message) (evs : list event) :
  idle w = true ->
  forallb (quiet (monitor w)) evs = true ->
  (54 <= resumes (length (tasks w)) evs)%nat ->
  let w' := run (handler w m) evs in
  let l := locals_of m in
  sent (trace w') =
    sent (trace w) ++
    [initial_text (monitor w) l] ++
    map (fun k => alert_text (monitor w) (with_count l k)) (seq 1 25) ++
    [max_text] /\
  notification_active (monitor w') = false /\
  tasks w' !! length (tasks w) = Some Finished.
Proof.
  intros [Hact Hfin]%idle_spec Hq Hres w' l.
  destruct (undisturbed_run w m evs _ _ Hfin (undisturbed_handler w m Hact) Hq)
    as (f' & (Htasks & _ & Hmon & Hsent) & Hfuel).
  assert (f' = Finished) as -> by (apply fuel_0; simpl in Hfuel; lia).
  subst w'. split_and!.
  - rewrite Hsent. reflexivity.
  - rewrite Hmon. reflexivity.
  - rewrite Htasks. apply list_lookup_middle. reflexivity.
Qed.

(** ** Any schedule: the counter and termination *)

Lemma loop_head_cases self l :
  (loop_test self l = true /\
   loop_head self l =
     (self, AwaitAlert (incr l), [send_notification_call self (alert_text self (incr l))])) \/
  (loop_test self l = false /\ loop_head self l = after_loop self l).
Proof. unfold loop_head. destruct (loop_test self l); auto. Qed.

Lemma after_loop_cases self l :
  ((max_notifications <= notification_count l)%nat /\
   after_loop self l = (self, AwaitMax l, [send_notification_call self max_text])) \/
  ((notification_count l < max_notifications)%nat /\ after_loop self l = finish self).
Proof.
  unfold after_loop.
  destruct (Nat.leb_spec max_notifications (notification_count l)); auto.
Qed.

Lemma loop_test_true self l :
  loop_test self l = true ->
  notification_active self = true /\ stop_requested self = false /\
  (notification_count l < max_notifications)%nat.
Proof.
  unfold loop_test. intros [[Ha Hs]%andb_true_iff Hn]%andb_true_iff.
  apply negb_true_iff in Hs. apply Nat.ltb_lt in Hn. auto.
Qed.

Lemma loop_test_false self l :
  loop_test self l = false ->
  notification_active self = false \/ stop_requested self = true \/
  (max_notifications <= notification_count l)%nat.
Proof.
  unfold loop_test. intros [[Ha|Hs]%andb_false_iff|Hn]%andb_false_iff.
  - auto.
  - apply negb_false_iff in Hs. auto.
  - apply Nat.ltb_ge in Hn. auto.
Qed.

(** Every resumption of a frame that has not returned uses up fuel,
    whatever the flags and the reply are. *)
Lemma resume_fuel self f r self' f' acts :
  start_notification_loop self f r = (self', f', acts) ->
  (fuel f' <= fuel f - 1)%nat.
Proof.
  destruct f as [m|l|l|l|l|l|]; simpl.
  - destruct (notification_active self); intros [= <- <- <-]; simpl;
      unfold max_notifications; lia.
  - intros [= <- <- <-]. simpl. lia.
  - destruct (loop_head_cases self l) as [[Ht ->]|[_ ->]];
      [apply loop_test_true in Ht as (_ & _ & Ht)
      |destruct (after_loop_cases self l) as [[_ ->]|[_ ->]]];
      intros [= <- <- <-]; simpl; unfold max_notifications in *; lia.
  - intros [= <- <- <-]. simpl. lia.
  - destruct (loop_head_cases self l) as [[Ht ->]|[_ ->]];
      [apply loop_test_true in Ht as (_ & _ & Ht)
      |destruct (after_loop_cases self l) as [[_ ->]|[_ ->]]];
      intros [= <- <- <-]; simpl; unfold max_notifications in *; lia.
  - intros [= <- <- <-]. simpl. lia.
  - intros [= <- <- <-]. simpl. lia.
Qed.

Lemma resume_bounded self f r self' f' acts :
  start_notification_loop self f r = (self', f', acts) ->
  bounded f = true -> bounded f' = true.
Proof.
  unfold bounded.
  destruct f as [m|l|l|l|l|l|]; simpl.
  - destruct (notification_active self); intros [= <- <- <-]; reflexivity.
  - intros [= <- <- <-]. auto.
  - destruct (loop_head_cases self l) as [[Ht ->]|[_ ->]];
      [|destruct (after_loop_cases self l) as [[_ ->]|[_ ->]]];
      intros [= <- <- <-]; simpl; auto.
    intros _. apply loop_test_true in Ht as (_ & _ & Hn).
    apply Nat.leb_le. unfold max_notifications in Hn. lia.
  - intros [= <- <- <-]. auto.
  - destruct (loop_head_cases self l) as [[Ht ->]|[_ ->]];
      [|destruct (after_loop_cases self l) as [[_ ->]|[_ ->]]];
      intros [= <- <- <-]; simpl; auto.
    intros _. apply loop_test_true in Ht as (_ & _ & Hn).
    apply Nat.leb_le. unfold max_notifications in Hn. lia.
  - intros [= <- <- <-]. auto.
  - intros [= <- <- <-]. auto.
Qed.

(** The pool under one event: task [i] stays where it is unless it is the
    one resumed. *)
Lemma step_task w ev i f :
  tasks w !! i = Some f ->
  exists f', tasks (step w ev) !! i = Some f' /\
    (fuel f' <= fuel f - resumes i [ev])%nat /\
    (bounded f = true -> bounded f' = true).
Proof.
  intros Hi. destruct ev as [m|j r|r]; simpl.
  - exists f. split_and!; [|unfold resumes; simpl; lia|auto].
    apply lookup_app_l_Some. assumption.
  - destruct (tasks w !! j) as [g|] eqn:Hj.
    + destruct (start_notification_loop (monitor w) g r) as [[self' g'] acts] eqn:Hres.
      simpl. destruct (Nat.eq_dec i j) as [->|Hne].
      * assert (g = f) as -> by congruence.
        exists g'. split_and!.
        -- apply list_lookup_insert_eq. eapply lookup_lt_Some; eassumption.
        -- unfold resumes; simpl. rewrite Nat.eqb_refl. simpl.
           eapply resume_fuel; eassumption.
        -- eapply resume_bounded; eassumption.
      * exists f. split_and!; [| |auto].
        -- rewrite list_lookup_insert_ne by auto. assumption.
        -- unfold resumes; simpl. destruct (Nat.eqb_spec i j); [contradiction|].
           simpl. lia.
    + exists f. split_and!; [assumption| |auto].
      unfold resumes; simpl. destruct (Nat.eqb_spec i j); [congruence|]. simpl. lia.
  - destruct (poller_step (monitor w) (poller w) r) as [[self' p'] acts].
    exists f. split_and!; [assumption|unfold resumes; simpl; lia|auto].
Qed.

Lemma run_task evs : forall w i f,
  tasks w !! i = Some f ->
  exists f', tasks (run w evs) !! i = Some f' /\
    (fuel f' <= fuel f - resumes i evs)%nat /\
    (bounded f = true -> bounded f' = true).
Proof.
  induction evs as [|ev evs IH]; intros w i f Hi.
  - exists f. split_and!; [assumption|unfold resumes; simpl; lia|auto].
  - destruct (step_task w ev i f Hi) as (f1 & H1 & Hfuel1 & Hb1).
    destruct (IH _ _ _ H1) as (f2 & H2 & Hfuel2 & Hb2).
    exists f2. split_and!; [assumption| |auto].
    rewrite resumes_cons. lia.
Qed.

(** A task resumed as often as its fuel says has returned. *)
Lemma run_terminates w evs i f :
  tasks w !! i = Some f ->
  (fuel f <= resumes i evs)%nat ->
  tasks (run w evs) !! i = Some Finished.
Proof.
  intros Hi Hres. destruct (run_task evs w i f Hi) as (f' & Hf' & Hfuel & _).
  rewrite Hf'. f_equal. apply fuel_0. lia.
Qed.

Lemma step_bounded w ev :
  forallb bounded (tasks w) = true -> forallb bounded (tasks (step w ev)) = true.
Proof.
  intros Hb. apply forallb_forall. intros g Hg.
  apply list_elem_of_In, list_elem_of_lookup in Hg as [i Hi].
  rewrite forallb_forall in Hb.
  destruct (tasks w !! i) as [f|] eqn:Hf.
  - destruct (step_task w ev i f Hf) as (f' & Hf' & _ & Hbf).
    assert (g = f') as -> by congruence. apply Hbf, Hb.
    apply list_elem_of_In, list_elem_of_lookup. eauto.
  - (* a task the handler has just created *)
    destruct ev as [m|j r|r]; simpl in Hi.
    + apply lookup_app_Some in Hi as [Hi|[_ Hi]]; [congruence|].
      apply list_lookup_singleton_Some in Hi as [_ <-]. reflexivity.
    + destruct (tasks w !! j) as [h|] eqn:Hj; [|congruence].
      destruct (start_notification_loop (monitor w) h r) as [[self' h'] acts].
      simpl in Hi. apply lookup_lt_Some in Hi. rewrite length_insert in Hi.
      apply lookup_ge_None in Hf. lia.
    + destruct (poller_step (monitor w) (poller w) r) as [[self' p'] acts].
      simpl in Hi. congruence.
Qed.

Lemma run_bounded evs : forall w,
  forallb bounded (tasks w) = true -> forallb bounded (tasks (run w evs)) = true.
Proof.
  induction evs as [|ev evs IH]; intros w Hb; [assumption|].
  apply IH, step_bounded, Hb.
Qed.

(** What one resumption does to the alert counter. *)
Lemma resume_counter self f r self' f' acts :
  start_notification_loop self f r = (self', f', acts) ->
  match frame_locals f, frame_locals f' with
  | None, Some l' => notification_count l' = 0%nat
  | Some l, Some l' =>
      (l' = incr l /\ loop_test self l = true /\ sent acts = [alert_text self l']) \/
      (l' = l /\ (sent acts = [] \/ sent acts = [max_text]))
  | _, None => True
  end.
Proof.
  destruct f as [m|l|l|l|l|l|]; simpl.
  - destruct (notification_active self); intros [= <- <- <-]; reflexivity.
  - intros [= <- <- <-]. simpl. right. flags. auto.
  - destruct (loop_head_cases self l) as [[Ht ->]|[_ ->]];
      [|destruct (after_loop_cases self l) as [[_ ->]|[_ ->]]];
      intros [= <- <- <-]; simpl; auto.
  - intros [= <- <- <-]. simpl. right. flags. auto.
  - destruct (loop_head_cases self l) as [[Ht ->]|[_ ->]];
      [|destruct (after_loop_cases self l) as [[_ ->]|[_ ->]]];
      intros [= <- <- <-]; simpl; auto.
  - intros [= <- <- <-]. exact I.
  - intros [= <- <- <-]. exact I.
Qed.

(** C4. Along every schedule, from a pool whose counters are within the
    cap (an empty pool, or tasks just created): the counter of every task
    stays at most 25; a resumption that gives a frame its locals starts
    the counter at 0, and any later one either is an alerting iteration,
    which adds exactly 1 and sends the alert with the new number, or
    leaves the counter as it is; the loop is left only when the active
    flag is cleared, a stop is requested, or the counter is 25; and a task
    resumed as often as its fuel says (54 times from its creation) has
    returned, whatever the replies and the other events are. *)
Theorem alert_counter_bounded_and_loop_terminates (w : World) (evs : list event) :
  forallb bounded (tasks w) = true ->
  let w' := run w evs in
  forallb bounded (tasks w') = true /\
  (forall i f r self' f' acts,
      tasks w' !! i = Some f ->
      start_notification_loop (monitor w') f r = (self', f', acts) ->
      match frame_locals f, frame_locals f' with
      | None, Some l' => notification_count l' = 0%nat
      | Some l, Some l' =>
          (l' = incr l /\ loop_test (monitor w') l = true /\
           sent acts = [alert_text (monitor w') l']) \/
          (l' = l /\ (sent acts = [] \/ sent acts = [max_text]))
      | _, None => True
      end) /\
  (forall i l,
      tasks w' !! i = Some (Settle l) \/ tasks w' !! i = Some (Interval l) ->
      loop_test (monitor w') l = false ->
      notification_active (monitor w') = false \/
      stop_requested (monitor w') = true \/
      notification_count l = 25%nat) /\
  (forall i f,
      tasks w !! i = Some f ->
      (fuel f <= resumes i evs)%nat ->
      tasks w' !! i = Some Finished) /\
  (forall m, fuel (Created m) = 54%nat).
Proof.
  intros Hb w'. pose proof (run_bounded evs w Hb) as Hb'. fold w' in Hb'.
  split_and!.
  - assumption.
  - intros i f r self' f' acts _ Hres. eapply resume_counter; eassumption.
  - intros i l Hi Ht. apply loop_test_false in Ht as [Ha|[Hs|Hn]]; auto.
    right; right. rewrite forallb_forall in Hb'.
    assert (bounded (Settle l) = true) as Hl.
    { destruct Hi as [Hi|Hi];
        apply list_elem_of_lookup_2, list_elem_of_In, Hb' in Hi; exact Hi. }
    unfold bounded in Hl; simpl in Hl. apply Nat.leb_le in Hl.
    unfold max_notifications in *. lia.
  - intros i f Hi Hres. eapply run_terminates; eassumption.
  - reflexivity.
Qed.

(** ** One cycle at a time *)

Lemma live_count_app (l1 l2 : list Frame) :
  live_count (l1 ++ l2) = (live_count l1 + live_count l2)%nat.
Proof. unfold live_count. rewrite List.filter_app, length_app. reflexivity. Qed.

Lemma live_count_insert (l : list Frame) : forall i f f',
  l !! i = Some f ->
  (live_count (<[i := f']> l) + (if live f then 1 else 0)
   = live_count l + (if live f' then 1 else 0))%nat.
Proof.
  unfold live_count.
  induction l as [|g l IH]; intros i f f' Hi; [discriminate|].
  destruct i as [|i]; simpl in *.
  - injection Hi as ->. destruct (live f), (live f'); simpl; lia.
  - specialize (IH _ _ f' Hi). destruct (live g); simpl; lia.
Qed.

(** The guard and the end of [start_notification_loop], as far as the
    active flag and the liveness of the frame go. *)
Lemma resume_live self f r self' f' acts :
  start_notification_loop self f r = (self', f', acts) ->
  user_id self' = user_id self /\
  match f with
  | Created _ =>
      if notification_active self
      then self' = self /\ f' = Finished /\ acts = []
      else notification_active self' = true /\ stop_requested self' = false /\
           exists l, f' = AwaitInitial l /\ notification_count l = 0%nat
  | Finished => self' = self /\ f' = Finished /\ acts = []
  | _ =>
      (live f' = true /\ self' = self) \/
      (f' = Finished /\ notification_active self' = false /\
       stop_requested self' = stop_requested self)
  end.
Proof.
  destruct f as [m|l|l|l|l|l|]; simpl.
  - destruct (notification_active self); intros [= <- <- <-]; split; eauto.
  - intros [= <- <- <-]. auto.
  - destruct (loop_head_cases self l) as [[Ht ->]|[_ ->]];
      [|destruct (after_loop_cases self l) as [[_ ->]|[_ ->]]];
      intros [= <- <- <-]; simpl; auto.
  - intros [= <- <- <-]. auto.
  - destruct (loop_head_cases self l) as [[Ht ->]|[_ ->]];
      [|destruct (after_loop_cases self l) as [[_ ->]|[_ ->]]];
      intros [= <- <- <-]; simpl; auto.
  - intros [= <- <- <-]. simpl. auto.
  - intros [= <- <- <-]. auto.
Qed.

Lemma no_stop_user_id self self' ev :
  user_id self' = user_id self -> no_stop self' ev = no_stop self ev.
Proof.
  intros Hu. destruct ev as [m|j r|[updates|e]]; try reflexivity.
  simpl. unfold no_stop_in.
  induction updates as [|u us IH]; simpl; [reflexivity|].
  rewrite IH. unfold is_stop. rewrite Hu. reflexivity.
Qed.

Lemma step_one_cycle w ev :
  one_cycle w ->
  no_stop (monitor w) ev = true ->
  one_cycle (step w ev) /\ user_id (monitor (step w ev)) = user_id (monitor w).
Proof.
  unfold one_cycle. intros Hinv Hq. destruct ev as [m|j r|r]; simpl.
  - split; [|reflexivity]. rewrite live_count_app. unfold live_count at 2; simpl. lia.
  - destruct (tasks w !! j) as [f|] eqn:Hj; [|auto].
    destruct (start_notification_loop (monitor w) f r) as [[self' f'] acts] eqn:Hres.
    simpl. apply resume_live in Hres as [Hu Hres]. split; [|assumption].
    pose proof (live_count_insert _ _ _ f' Hj) as Hcount.
    destruct f as [m|l|l|l|l|l|]; simpl in Hcount;
      try (destruct Hres as [[Hl ->]|(-> & Ha & _)];
           [rewrite Hl in Hcount; lia
           |rewrite Ha; simpl in Hcount;
            destruct (notification_active (monitor w)); lia]).
    + destruct (notification_active (monitor w)) eqn:Ha.
      * destruct Hres as (-> & -> & _). rewrite Ha. simpl in Hcount. lia.
      * destruct Hres as (Ha' & _ & l & -> & _). rewrite Ha'. simpl in Hcount. lia.
    + destruct Hres as (-> & -> & _). simpl in Hcount. lia.
  - destruct (poller_step (monitor w) (poller w) r) as [[self' p'] acts] eqn:Hres.
    apply poller_step_no_stop in Hres as [-> _]; [|assumption]. auto.
Qed.

Lemma run_one_cycle evs : forall w self,
  one_cycle w ->
  user_id (monitor w) = user_id self ->
  forallb (no_stop self) evs = true ->
  one_cycle (run w evs).
Proof.
  induction evs as [|ev evs IH]; intros w self Hinv Hu Hq; [assumption|].
  simpl in Hq. apply andb_true_iff in Hq as [Hev Hevs].
  rewrite <- (no_stop_user_id self (monitor w)) in Hev by assumption.
  destruct (step_one_cycle w ev Hinv Hev) as [Hinv1 Hu1].
  apply (IH _ self); [assumption|congruence|assumption].
Qed.

(** The guard of [start_notification_loop] on schedules without a stop
    command.  Along every schedule of channel messages and resumptions
    that brings no stop command, from a world with no cycle running: at
    most one cycle is live at any time, and the active flag is set exactly
    while one is.  A message is taken up when its task first runs: if the
    flag is clear, that starts the one new cycle (active set, stop request
    cleared, counter 0, initial notification handed to the bot); if the
    flag is set, nothing changes but the task itself, which has returned
    and never runs again. *)
Theorem one_cycle_at_a_time (w : World) (evs : list event) :
  notification_active (monitor w) = false ->
  live_count (tasks w) = 0%nat ->
  forallb (no_stop (monitor w)) evs = true ->
  let w' := run w evs in
  (live_count (tasks w') <= 1)%nat /\
  (notification_active (monitor w') = true <-> live_count (tasks w') = 1%nat) /\
  (forall i m r,
      tasks w' !! i = Some (Created m) ->
      let w'' := step w' (Task i r) in
      if notification_active (monitor w')
      then monitor w'' = monitor w' /\
           trace w'' = trace w' /\
           poller w'' = poller w' /\
           tasks w'' = <[i := Finished]> (tasks w') /\
           live_count (tasks w'') = live_count (tasks w') /\
           (forall evs', tasks (run w'' evs') !! i = Some Finished)
      else monitor w'' = set_flags (monitor w') true false /\
           tasks w'' = <[i := AwaitInitial (locals_of m)]> (tasks w') /\
           notification_count (locals_of m) = 0%nat /\
           sent (trace w'') =
             sent (trace w') ++ [initial_text (monitor w') (locals_of m)] /\
           live_count (tasks w'') = 1%nat).
Proof.
  intros Hact Hlive Hq w'.
  assert (one_cycle w') as Hinv.
  { apply (run_one_cycle evs w (monitor w)); [|reflexivity|assumption].
    unfold one_cycle. rewrite Hact. assumption. }
  unfold one_cycle in Hinv. split_and!.
  - rewrite Hinv. destruct (notification_active (monitor w')); lia.
  - rewrite Hinv. destruct (notification_active (monitor w')); split; intros; try done.
  - intros i m r Hi w''. subst w''. unfold step. rewrite Hi. simpl.
    pose proof (live_count_insert (tasks w') i (Created m)) as Hcount.
    destruct (notification_active (monitor w')) eqn:Ha; simpl.
    + split_and!; try reflexivity.
      * apply app_nil_r.
      * specialize (Hcount Finished Hi). simpl in Hcount. lia.
      * intros evs'. apply (run_terminates _ _ _ Finished); [|simpl; lia].
        simpl. apply list_lookup_insert_eq. eapply lookup_lt_Some; eassumption.
    + split_and!; try reflexivity.
      * flags. reflexivity.
      * specialize (Hcount (AwaitInitial (locals_of m)) Hi). simpl in Hcount. lia.
Qed.

(** ** After a stop command *)

Lemma forallb_insert {A} (p : A -> bool) (l : list A) : forall i x,
  forallb p l = true -> p x = true -> forallb p (<[i := x]> l) = true.
Proof.
  induction l as [|a l IH]; intros i x Hl Hx; [reflexivity|].
  simpl in Hl. apply andb_true_iff in Hl as [Ha Hl].
  destruct i; simpl; [rewrite Hx|rewrite Ha, IH by assumption]; auto.
Qed.

Lemma forallb_lookup {A} (p : A -> bool) (l : list A) i x :
  forallb p l = true -> l !! i = Some x -> p x = true.
Proof.
  intros Hl Hi. rewrite forallb_forall in Hl.
  apply Hl, list_elem_of_In, list_elem_of_lookup. eauto.
Qed.

Lemma set_flags_same self a b :
  notification_active self = a -> stop_requested self = b -> set_flags self a b = self.
Proof. intros <- <-. apply set_flags_id. Qed.

(** One resumption while the flags say stop: the flags stay, the frame
    winds down, and the only text that can still go out is the maximum
    notice of a cycle that had reached the cap. *)
Lemma resume_stopped self f r self' f' acts :
  notification_active self = false ->
  stop_requested self = true ->
  is_created f = false ->
  start_notification_loop self f r = (self', f', acts) ->
  self' = self /\ is_created f' = false /\
  (wind f' <= wind f - 1)%nat /\
  (calm f = true -> calm f' = true /\ sent acts = []).
Proof.
  intros Ha Hs Hc.
  assert (forall l, loop_test self l = false) as Ht
    by (intros l; unfold loop_test; rewrite Ha; reflexivity).
  assert (finish self = (self, Finished, [Log INFO (py "Notification loop ended")]))
    as Hfin by (unfold finish; rewrite set_flags_same; auto).
  destruct f as [m|l|l|l|l|l|]; simpl; try discriminate.
  - intros [= <- <- <-]. split_and!; auto.
    + simpl. destruct (notification_count l <? max_notifications)%nat; lia.
    + intros Hcalm. flags. auto.
  - destruct (loop_head_cases self l) as [[Ht' _]|[_ ->]]; [rewrite Ht in Ht'; discriminate|].
    destruct (after_loop_cases self l) as [[Hn ->]|[Hn ->]].
    + intros [= <- <- <-]. split_and!; auto.
      * simpl. destruct (Nat.ltb_spec (notification_count l) max_notifications); lia.
      * intros Hcalm%Nat.ltb_lt. lia.
    + rewrite Hfin. intros [= <- <- <-]. split_and!; auto. simpl. lia.
  - intros [= <- <- <-]. split_and!; auto.
    + simpl. destruct (notification_count l <? max_notifications)%nat; lia.
    + intros Hcalm. flags. auto.
  - destruct (loop_head_cases self l) as [[Ht' _]|[_ ->]]; [rewrite Ht in Ht'; discriminate|].
    destruct (after_loop_cases self l) as [[Hn ->]|[Hn ->]].
    + intros [= <- <- <-]. split_and!; auto.
      * simpl. destruct (Nat.ltb_spec (notification_count l) max_notifications); lia.
      * intros Hcalm%Nat.ltb_lt. lia.
    + rewrite Hfin. intros [= <- <- <-]. split_and!; auto. simpl. lia.
  - rewrite (set_flags_same self) by auto.
    intros [= <- <- <-]. split_and!; auto. discriminate.
  - intros [= <- <- <-]. split_and!; auto.
Qed.

Lemma step_stopped w ev :
  stopped w ->
  quiet (monitor w) ev = true ->
  stopped (step w ev) /\
  monitor (step w ev) = monitor w /\
  (forall i f, tasks w !! i = Some f ->
     exists f', tasks (step w ev) !! i = Some f' /\
                (wind f' <= wind f - resumes i [ev])%nat) /\
  (forallb calm (tasks w) = true ->
     forallb calm (tasks (step w ev)) = true /\
     sent (trace (step w ev)) = sent (trace w)).
Proof.
  intros (Ha & Hs & Hnc) Hq. destruct ev as [m|j r|r]; simpl in Hq; [discriminate| |].
  - unfold step. destruct (tasks w !! j) as [g|] eqn:Hj.
    + destruct (start_notification_loop (monitor w) g r) as [[self' g'] acts] eqn:Hres.
      pose proof (forallb_lookup _ _ _ _ Hnc Hj) as Hg. apply negb_true_iff in Hg.
      destruct (resume_stopped _ _ _ _ _ _ Ha Hs Hg Hres) as (-> & Hg' & Hwind & Hcalm).
      simpl. split_and!.
      * split_and!; try assumption.
        apply forallb_insert; [assumption|]. rewrite Hg'. reflexivity.
      * reflexivity.
      * intros i f Hi. destruct (Nat.eq_dec i j) as [->|Hne].
        -- assert (g = f) as -> by congruence. exists g'. split.
           ++ apply list_lookup_insert_eq. eapply lookup_lt_Some; eassumption.
           ++ unfold resumes; simpl. rewrite Nat.eqb_refl. simpl. assumption.
        -- exists f. split.
           ++ rewrite list_lookup_insert_ne by auto. assumption.
           ++ rewrite resumes_task_ne by assumption. lia.
      * intros Hall. pose proof (forallb_lookup _ _ _ _ Hall Hj) as Hcg.
        destruct (Hcalm Hcg) as [Hcg' Hnone]. split.
        -- apply forallb_insert; assumption.
        -- rewrite sent_app, Hnone, app_nil_r. reflexivity.
    + split_and!; try done.
      intros i f Hi. exists f. split; [assumption|].
      rewrite resumes_task. destruct (Nat.eqb_spec i j); [congruence|lia].
  - unfold step.
    destruct (poller_step (monitor w) (poller w) r) as [[self' p'] acts] eqn:Hres.
    apply poller_step_no_stop in Hres as [-> Hnone]; [|assumption].
    simpl. split_and!; try done.
    + intros i f Hi. exists f. split; [assumption|rewrite resumes_poll; lia].
    + intros Hall. split; [assumption|].
      rewrite sent_app, Hnone, app_nil_r. reflexivity.
Qed.

Lemma run_stopped evs : forall w,
  stopped w ->
  forallb (quiet (monitor w)) evs = true ->
  stopped (run w evs) /\
  monitor (run w evs) = monitor w /\
  (forall i f, tasks w !! i = Some f ->
     exists f', tasks (run w evs) !! i = Some f' /\
                (wind f' <= wind f - resumes i evs)%nat) /\
  (forallb calm (tasks w) = true ->
     forallb calm (tasks (run w evs)) = true /\
     sent (trace (run w evs)) = sent (trace w)).
Proof.
  induction evs as [|ev evs IH]; intros w Hst Hq.
  - split_and!; try done. intros i f Hi. exists f.
    split; [assumption|rewrite resumes_nil; lia].
  - simpl in Hq. apply andb_true_iff in Hq as [Hev Hevs].
    destruct (step_stopped w ev Hst Hev) as (Hst1 & Hmon1 & Htask1 & Hcalm1).
    rewrite <- Hmon1 in Hevs.
    destruct (IH _ Hst1 Hevs) as (Hst2 & Hmon2 & Htask2 & Hcalm2).
    simpl. split_and!.
    + assumption.
    + congruence.
    + intros i f Hi. destruct (Htask1 i f Hi) as (f1 & Hf1 & Hw1).
      destruct (Htask2 i f1 Hf1) as (f2 & Hf2 & Hw2).
      exists f2. split; [assumption|]. rewrite resumes_cons. lia.
    + intros Hall. destruct (Hcalm1 Hall) as [Hall1 Hsent1].
      destruct (Hcalm2 Hall1) as [Hall2 Hsent2]. split; [assumption|congruence].
Qed.

Lemma wind_0 f : is_created f = false -> wind f = 0%nat -> f = Finished.
Proof.
  destruct f; simpl; intros Hc Hw; try discriminate; try reflexivity;
    destruct (notification_count l <? max_notifications)%nat; lia.
Qed.

(** ** The stop command *)

Lemma is_stop_true self (u : Bot.Update) bm t :
  Bot.message u = Some bm ->
  Bot.from_user_id bm = user_id self ->
  Bot.text bm = Some t ->
  str_lower (str_strip t) = py "/stop" ->
  is_stop self u = true.
Proof.
  intros Hm Hfrom Ht Hnorm. unfold is_stop. rewrite Hm, Hfrom, Ht, Z.eqb_refl. simpl.
  destruct t as [|c t].
  - rewrite str_strip_empty, str_lower_empty in Hnorm. discriminate.
  - simpl. apply bool_decide_eq_true. assumption.
Qed.

Lemma find_first_stop self pre u rest :
  no_stop_in self pre = true ->
  is_stop self u = true ->
  find (is_stop self) (pre ++ u :: rest) = Some u.
Proof.
  unfold no_stop_in. intros Hpre Hu.
  induction pre as [|v pre IH]; simpl in *.
  - rewrite Hu. reflexivity.
  - apply andb_true_iff in Hpre as [Hv Hpre]. apply negb_true_iff in Hv.
    rewrite Hv. auto.
Qed.

Lemma ascending_below (pre : list Bot.Update) u :
  ascending (pre ++ [u]) = true ->
  forallb (fun v => Bot.update_id v <? Bot.update_id u + 1) pre = true.
Proof.
  induction pre as [|v pre IH]; [reflexivity|].
  intros Hasc. change ((v :: pre) ++ [u]) with (v :: (pre ++ [u])) in Hasc.
  assert (ascending (pre ++ [u]) = true /\
          (Bot.update_id v < Bot.update_id u)) as [Hrest Hlt].
  { destruct pre as [|v' pre]; simpl in *.
    - apply andb_true_iff in Hasc as [Hlt _]. apply Z.ltb_lt in Hlt. auto.
    - apply andb_true_iff in Hasc as [Hlt Hrest]. apply Z.ltb_lt in Hlt.
      split; [assumption|].
      specialize (IH Hrest). simpl in IH. apply andb_true_iff in IH as [Hv' _].
      apply Z.ltb_lt in Hv'. lia. }
  simpl. rewrite (IH Hrest), andb_true_r. apply Z.ltb_lt. lia.
Qed.

(** The poller taking up the first stop command of a batch. *)
Lemma poller_takes_stop self pre u rest :
  no_stop_in self pre = true ->
  is_stop self u = true ->
  poller_step self (Checking AwaitUpdates) (Returned (pre ++ u :: rest))
    = (set_flags self false true, Checking (AwaitConfirm u),
       [SendMessage (user_id self) stopped_text None]).
Proof.
  intros Hpre Hu. simpl. rewrite (find_first_stop _ _ _ _ Hpre Hu). reflexivity.
Qed.

Lemma quiet_user_id self self' ev :
  user_id self' = user_id self -> quiet self' ev = quiet self ev.
Proof.
  intros Hu. destruct ev; try reflexivity; simpl; apply (no_stop_user_id _ _ (Poll r) Hu).
Qed.

Lemma forallb_quiet_user_id self self' evs :
  user_id self' = user_id self ->
  forallb (quiet self') evs = forallb (quiet self) evs.
Proof.
  intros Hu. induction evs as [|ev evs IH]; simpl; [reflexivity|].
  rewrite IH, (quiet_user_id _ _ _ Hu). reflexivity.
Qed.

Lemma told_length self l0 f :
  length (told self l0 f) =
    match f with
    | Created _ => 0%nat
    | AwaitInitial _ | Settle _ => 1%nat
    | AwaitAlert l | Interval l => S (notification_count l)
    | AwaitMax _ | Finished => 27%nat
    end.
Proof.
  destruct f; simpl; rewrite ?length_app, ?alerts_length; try reflexivity.
Qed.

Lemma forallb_finished_impl (p : Frame -> bool) (fs : list Frame) :
  p Finished = true -> forallb is_finished fs = true -> forallb p fs = true.
Proof.
  intros Hp. induction fs as [|f fs IH]; simpl; [reflexivity|].
  intros [Hf Hfs]%andb_true_iff. destruct f; try discriminate.
  rewrite Hp. auto.
Qed.

(** A stop command taken up while the undisturbed cycle of [m] is below
    the cap: the confirmation is the last text to go out. *)
Lemma stop_ends_cycle w m evs1 pre u rest evs2 n :
  idle w = true ->
  forallb (quiet (monitor w)) evs1 = true ->
  let l := locals_of m in
  let w1 := run (handler w m) evs1 in
  sent (trace w1) =
    sent (trace w) ++ initial_text (monitor w) l :: alerts (monitor w) l n ->
  (n < max_notifications)%nat ->
  poller w1 = Checking AwaitUpdates ->
  no_stop_in (monitor w) pre = true ->
  is_stop (monitor w) u = true ->
  forallb (quiet (monitor w)) evs2 = true ->
  let w2 := step w1 (Poll (Returned (pre ++ u :: rest))) in
  let w3 := run w2 evs2 in
  monitor w2 = set_flags (monitor w) false true /\
  trace w2 = trace w1 ++ [SendMessage (user_id (monitor w)) stopped_text None] /\
  sent (trace w3) = sent (trace w1) ++ [stopped_text] /\
  monitor w3 = set_flags (monitor w) false true /\
  ((2 <= resumes (length (tasks w)) evs2)%nat ->
   tasks w3 !! length (tasks w) = Some Finished).
Proof.
  intros [Hact Hfin]%idle_spec Hq1 l w1 Hsent1 Hn Hpoller Hpre Hu Hq2 w2 w3.
  destruct (undisturbed_run w m evs1 _ _ Hfin (undisturbed_handler w m Hact) Hq1)
    as (f & (Htasks & Htrack & Hmon & Hsent) & _).
  fold w1 in Htasks, Hmon, Hsent.
  (* where the cycle is *)
  rewrite Hsent in Hsent1. apply app_inv_head in Hsent1.
  assert (is_created f = false /\ calm f = true /\ (wind f <= 2)%nat) as (Hcr & Hcalm & Hwind).
  { apply (f_equal length) in Hsent1. rewrite told_length in Hsent1.
    simpl in Hsent1. rewrite alerts_length in Hsent1.
    assert (forall k, (k <= n)%nat -> (k <? max_notifications)%nat = true) as Hlt
      by (intros; apply Nat.ltb_lt; lia).
    destruct f as [m'|l'|l'|l'|l'|l'|]; simpl in Htrack |- *;
      try (unfold max_notifications in Hn; lia).
    - subst l'. simpl. split_and!; (reflexivity || lia).
    - subst l'. simpl. split_and!; (reflexivity || lia).
    - rewrite Hlt by lia. split_and!; (reflexivity || lia).
    - rewrite Hlt by lia. split_and!; (reflexivity || lia). }
  rewrite Hcr in Hmon.
  (* the poller takes up the command *)
  assert (monitor w2 = set_flags (monitor w) false true /\
          tasks w2 = tasks w ++ [f] /\
          trace w2 = trace w1 ++ [SendMessage (user_id (monitor w)) stopped_text None])
    as (Hmon2 & Htasks2 & Htrace2).
  { subst w2. unfold step. rewrite Hpoller, Hmon.
    rewrite poller_takes_stop by assumption. simpl. auto. }
  assert (stopped w2) as Hst2.
  { unfold stopped. rewrite Hmon2, Htasks2. split_and!; try reflexivity.
    rewrite forallb_app. simpl. rewrite Hcr. simpl. rewrite andb_true_r.
    apply forallb_finished_impl; [reflexivity|assumption]. }
  assert (forallb calm (tasks w2) = true) as Hcalm2.
  { rewrite Htasks2, forallb_app. simpl. rewrite Hcalm. simpl. rewrite andb_true_r.
    apply forallb_finished_impl; [reflexivity|assumption]. }
  assert (forallb (quiet (monitor w2)) evs2 = true) as Hq2'.
  { rewrite (forallb_quiet_user_id (monitor w)); [assumption|]. rewrite Hmon2. reflexivity. }
  destruct (run_stopped evs2 w2 Hst2 Hq2') as ((_ & _ & Hnc3) & Hmon3 & Htask3 & Hcalm3).
  fold w3 in Hnc3, Hmon3, Htask3, Hcalm3.
  destruct (Hcalm3 Hcalm2) as [_ Hsent3].
  split_and!; try assumption.
  - rewrite Hsent3, Htrace2, sent_app. reflexivity.
  - congruence.
  - intros Hres.
    destruct (Htask3 (length (tasks w)) f) as (f' & Hf' & Hw).
    { rewrite Htasks2. apply list_lookup_middle. reflexivity. }
    rewrite Hf'. f_equal. apply wind_0; [|lia].
    apply negb_true_iff. apply (forallb_lookup _ _ _ _ Hnc3 Hf').
Qed.

(** C2. A polled command whose sender is the configured recipient and
    whose text, stripped and lowercased, is [/stop], with no such command
    before it in the batch: the poller sets [stop_requested], clears
    [notification_active], hands the bot the one confirmation
    "Notifications stopped!" (behind its check mark), then calls
    get_updates with the offset one above the command's identifier, which
    confirms the command and, identifiers growing along the batch, the
    commands before it; what follows it in the batch is not looked at.
    Scenario B: when such a command is taken up after the initial
    notification and three alerts of an undisturbed cycle, the bot has been
    handed the initial notification, the alerts 1 to 3 and the
    confirmation, nothing more follows, and the flags end as active false,
    stop requested true. *)
Theorem stop_command_is_handled :
  (forall self pre u rest bm t,
      no_stop_in self pre = true ->
      Bot.message u = Some bm ->
      Bot.from_user_id bm = user_id self ->
      Bot.text bm = Some t ->
      str_lower (str_strip t) = py "/stop" ->
      let self1 := set_flags self false true in
      let ack := GetUpdates (Some (Bot.update_id u + 1)) None in
      poller_step self (Checking AwaitUpdates) (Returned (pre ++ u :: rest))
        = (self1, Checking (AwaitConfirm u),
           [SendMessage (user_id self) stopped_text None]) /\
      stop_requested self1 = true /\
      notification_active self1 = false /\
      stopped_text = py "✅ Notifications stopped!" /\
      (forall sent_message,
          poller_step self1 (Checking (AwaitConfirm u)) (Returned sent_message)
            = (self1, Checking AwaitAck, [ack])) /\
      (forall remaining,
          poller_step self1 (Checking AwaitAck) (Returned remaining)
            = (self1, Sleeping true,
               [Log INFO (py "Stop command received"); Sleep 2])) /\
      confirmed_by ack u = true /\
      (ascending (pre ++ [u]) = true -> forallb (confirmed_by ack) pre = true)) /\
  (forall w m evs1 pre u rest bm t evs2,
      idle w = true ->
      forallb (quiet (monitor w)) evs1 = true ->
      let l := locals_of m in
      let w1 := run (handler w m) evs1 in
      sent (trace w1) =
        sent (trace w) ++
        [initial_text (monitor w) l] ++
        map (fun k => alert_text (monitor w) (with_count l k)) (seq 1 3) ->
      poller w1 = Checking AwaitUpdates ->
      no_stop_in (monitor w) pre = true ->
      Bot.message u = Some bm ->
      Bot.from_user_id bm = user_id (monitor w) ->
      Bot.text bm = Some t ->
      str_lower (str_strip t) = py "/stop" ->
      forallb (quiet (monitor w)) evs2 = true ->
      let w3 := run (step w1 (Poll (Returned (pre ++ u :: rest)))) evs2 in
      sent (trace w3) =
        sent (trace w) ++
        [initial_text (monitor w) l] ++
        map (fun k => alert_text (monitor w) (with_count l k)) (seq 1 3) ++
        [stopped_text] /\
      notification_active (monitor w3) = false /\
      stop_requested (monitor w3) = true /\
      ((2 <= resumes (length (tasks w)) evs2)%nat ->
       tasks w3 !! length (tasks w) = Some Finished)).
Proof.
  split.
  - intros self pre u rest bm t Hpre Hm Hfrom Ht Hnorm self1 ack.
    pose proof (is_stop_true _ _ _ _ Hm Hfrom Ht Hnorm) as Hu.
    split_and!; try reflexivity.
    + apply poller_takes_stop; assumption.
    + simpl. apply Z.ltb_lt. lia.
    + intros Hasc. apply ascending_below in Hasc. exact Hasc.
  - intros w m evs1 pre u rest bm t evs2 Hidle Hq1 l w1 Hsent1 Hpoller Hpre
      Hm Hfrom Ht Hnorm Hq2 w3.
    pose proof (is_stop_true _ _ _ _ Hm Hfrom Ht Hnorm) as Hu.
    destruct (stop_ends_cycle w m evs1 pre u rest evs2 3 Hidle Hq1 Hsent1)
      as (_ & _ & Hsent3 & Hmon3 & Hfin3); try assumption.
    { unfold max_notifications. lia. }
    fold w1 w3 in Hsent3, Hmon3, Hfin3.
    split_and!.
    + rewrite Hsent3, Hsent1. rewrite <- !app_assoc. reflexivity.
    + rewrite Hmon3. reflexivity.
    + rewrite Hmon3. reflexivity.
    + assumption.
Qed.

(** C10. When the poller takes up a stop command, the flags are already
    set in the world in which the confirmation is on its way and no
    acknowledgement has been issued.  If the confirmation send fails, or
    it succeeds and the acknowledging get_updates fails, the error is
    logged, [check_stop_command] returns [False] and the monitor is left
    as it was: stop requested, not active.  From there, while no new
    message is taken up, the flags stay so and every running cycle
    returns within three resumptions; and under any schedule at all every
    task returns once it has been resumed as often as its fuel says. *)
Theorem stop_flags_survive_failures
    (w : World) (pre : list Bot.Update) (u : Bot.Update) (rest : list Bot.Update)
    (e : str) (evs : list event) :
  poller w = Checking AwaitUpdates ->
  no_stop_in (monitor w) pre = true ->
  is_stop (monitor w) u = true ->
  forallb (fun f => negb (is_created f)) (tasks w) = true ->
  forallb (quiet (monitor w)) evs = true ->
  let w1 := step w (Poll (Returned (pre ++ u :: rest))) in
  let failed := [Log ERROR (f_string [py "Error checking for stop command: "; e]); Sleep 2] in
  (stop_requested (monitor w1) = true /\
   notification_active (monitor w1) = false /\
   poller w1 = Checking (AwaitConfirm u) /\
   trace w1 = trace w ++ [SendMessage (user_id (monitor w)) stopped_text None]) /\
  (forall w2,
      w2 = step w1 (Poll (Raised e)) \/
      (exists sent_message,
          w2 = step (step w1 (Poll (Returned sent_message))) (Poll (Raised e))) ->
      monitor w2 = monitor w1 /\
      poller w2 = Sleeping false /\
      stop_requested (monitor (run w2 evs)) = true /\
      notification_active (monitor (run w2 evs)) = false /\
      (forall i f, tasks w !! i = Some f ->
                   (3 <= resumes i evs)%nat ->
                   tasks (run w2 evs) !! i = Some Finished) /\
      (forall evs' i f, tasks w !! i = Some f ->
                        (fuel f <= resumes i evs')%nat ->
                        tasks (run w2 evs') !! i = Some Finished)) /\
  trace (step w1 (Poll (Raised e))) = trace w1 ++ failed /\
  (forall sent_message,
      trace (step (step w1 (Poll (Returned sent_message))) (Poll (Raised e))) =
        trace w1 ++ [GetUpdates (Some (Bot.update_id u + 1)) None] ++ failed).
Proof.
  intros Hpoller Hpre Hu Hnc Hq w1 failed.
  assert (monitor w1 = set_flags (monitor w) false true /\
          tasks w1 = tasks w /\
          poller w1 = Checking (AwaitConfirm u) /\
          trace w1 = trace w ++ [SendMessage (user_id (monitor w)) stopped_text None])
    as (Hmon1 & Htasks1 & Hpoller1 & Htrace1).
  { subst w1. unfold step. rewrite Hpoller.
    rewrite poller_takes_stop by assumption. simpl. auto. }
  assert (step w1 (Poll (Raised e)) =
          {| monitor := monitor w1; tasks := tasks w1; poller := Sleeping false;
             trace := trace w1 ++ failed |}) as Hfail1.
  { unfold step. rewrite Hpoller1. reflexivity. }
  assert (forall sent_message,
             step (step w1 (Poll (Returned sent_message))) (Poll (Raised e)) =
             {| monitor := monitor w1; tasks := tasks w1; poller := Sleeping false;
                trace := (trace w1 ++ [GetUpdates (Some (Bot.update_id u + 1)) None])
                         ++ failed |}) as Hfail2.
  { intros x. unfold step at 2. rewrite Hpoller1. simpl. reflexivity. }
  split; [|split; [|split]].
  - split_and!; try assumption; rewrite Hmon1; reflexivity.
  - intros w2 Hw2.
    assert (monitor w2 = monitor w1 /\ tasks w2 = tasks w1 /\ poller w2 = Sleeping false)
      as (Hmon2 & Htasks2 & Hpoller2).
    { destruct Hw2 as [->|(x & ->)];
        [rewrite Hfail1|rewrite Hfail2]; simpl; auto. }
    assert (stopped w2) as Hst2.
    { unfold stopped. rewrite Hmon2, Hmon1, Htasks2, Htasks1. auto. }
    assert (forallb (quiet (monitor w2)) evs = true) as Hq2.
    { rewrite (forallb_quiet_user_id (monitor w)); [assumption|].
      rewrite Hmon2, Hmon1. reflexivity. }
    destruct (run_stopped evs w2 Hst2 Hq2) as ((Ha3 & Hs3 & Hnc3) & _ & Htask3 & _).
    split_and!; try assumption.
    + intros i f Hi Hres. rewrite <- Htasks1, <- Htasks2 in Hi.
      destruct (Htask3 i f Hi) as (f' & Hf' & Hw).
      rewrite Hf'. f_equal. apply wind_0.
      * apply negb_true_iff. apply (forallb_lookup _ _ _ _ Hnc3 Hf').
      * assert (wind f <= 3)%nat
          by (destruct f; simpl;
              try destruct (notification_count l <? max_notifications)%nat; lia).
        lia.
    + intros evs' i f Hi Hres. rewrite <- Htasks1, <- Htasks2 in Hi.
      eapply run_terminates; eassumption.
  - rewrite Hfail1. reflexivity.
  - intros x. rewrite Hfail2. simpl. rewrite <- app_assoc. reflexivity.
Qed.

(** ** Failed sends *)

Lemma unlogged_app (a b : list action) : unlogged (a ++ b) = unlogged a ++ unlogged b.
Proof. apply List.filter_app. Qed.

Lemma unlogged_send_notification_return {A} (r : reply A) :
  unlogged (send_notification_return r) = [].
Proof. destruct r; reflexivity. Qed.

Lemma sent_unlogged (tr : list action) : sent (unlogged tr) = sent tr.
Proof.
  induction tr as [|a tr IH]; [reflexivity|].
  destruct a; simpl; rewrite ?IH; try reflexivity;
    unfold sent in *; simpl; rewrite IH; reflexivity.
Qed.

(** The reply to a send changes nothing but the log. *)
Lemma resume_any_reply self f (r : reply unit) :
  let '(self1, f1, acts1) := start_notification_loop self f r in
  let '(self2, f2, acts2) := start_notification_loop self f (Returned tt) in
  self1 = self2 /\ f1 = f2 /\ unlogged acts1 = unlogged acts2.
Proof.
  destruct f as [m|l|l|l|l|l|]; simpl.
  - destruct (notification_active self); auto.
  - rewrite unlogged_app, unlogged_send_notification_return. auto.
  - destruct (loop_head self l) as [[s' f'] acts']. auto.
  - rewrite unlogged_app, unlogged_send_notification_return. auto.
  - destruct (loop_head self l) as [[s' f'] acts']. auto.
  - rewrite unlogged_app, unlogged_send_notification_return. auto.
  - auto.
Qed.

Lemma step_succeed w w' ev :
  monitor w = monitor w' -> tasks w = tasks w' -> poller w = poller w' ->
  unlogged (trace w) = unlogged (trace w') ->
  monitor (step w ev) = monitor (step w' (succeed ev)) /\
  tasks (step w ev) = tasks (step w' (succeed ev)) /\
  poller (step w ev) = poller (step w' (succeed ev)) /\
  unlogged (trace (step w ev)) = unlogged (trace (step w' (succeed ev))).
Proof.
  intros Hm Ht Hp Htr. destruct ev as [m|j r|r]; simpl.
  - rewrite Hm, Ht, Hp, !unlogged_app, Htr. auto.
  - rewrite <- Ht, <- Hm. destruct (tasks w !! j) as [f|] eqn:Hj; [|auto].
    pose proof (resume_any_reply (monitor w) f r) as Hres.
    destruct (start_notification_loop (monitor w) f r) as [[s1 f1] a1].
    destruct (start_notification_loop (monitor w) f (Returned tt)) as [[s2 f2] a2].
    destruct Hres as (-> & -> & Ha). simpl.
    rewrite Ht, Hp, !unlogged_app, Htr, Ha. auto.
  - rewrite <- Hm, <- Hp.
    destruct (poller_step (monitor w) (poller w) r) as [[s' p'] acts]. simpl.
    rewrite Ht, !unlogged_app, Htr. auto.
Qed.

Lemma run_succeed evs : forall w w',
  monitor w = monitor w' -> tasks w = tasks w' -> poller w = poller w' ->
  unlogged (trace w) = unlogged (trace w') ->
  monitor (run w evs) = monitor (run w' (map succeed evs)) /\
  tasks (run w evs) = tasks (run w' (map succeed evs)) /\
  poller (run w evs) = poller (run w' (map succeed evs)) /\
  unlogged (trace (run w evs)) = unlogged (trace (run w' (map succeed evs))).
Proof.
  induction evs as [|ev evs IH]; intros w w' Hm Ht Hp Htr; [auto|].
  destruct (step_succeed w w' ev Hm Ht Hp Htr) as (Hm1 & Ht1 & Hp1 & Htr1).
  apply IH; assumption.
Qed.

(** C7. A send of the cycle that fails ([bot.send_message] raises
    [TelegramError]): [send_notification] logs the error and returns, and
    the cycle goes on exactly as after a successful send, to the same frame
    with the same monitor and the same further actions, none of which is a
    send (no retry).  Along any schedule, the failures of the cycle's
    sends change nothing but the log: the monitor, the tasks, the poller
    and everything that reaches the outside are as if every send had
    succeeded. *)
Theorem send_failure_is_logged_and_skipped :
  (forall self l e,
      let logged := Log ERROR (f_string [py "Error sending notification: "; e]) in
      start_notification_loop self (AwaitInitial l) (Raised e)
        = (self, Settle l, [logged; Sleep 5]) /\
      start_notification_loop self (AwaitInitial l) (Returned tt)
        = (self, Settle l, [Sleep 5]) /\
      start_notification_loop self (AwaitAlert l) (Raised e)
        = (self, Interval l,
           [logged;
            Log INFO (f_string [py "Sent alert notification #";
                                str_of_nat (notification_count l)]);
            Sleep (notification_interval self)]) /\
      start_notification_loop self (AwaitAlert l) (Returned tt)
        = (self, Interval l,
           [Log INFO (f_string [py "Sent alert notification #";
                                str_of_nat (notification_count l)]);
            Sleep (notification_interval self)]) /\
      start_notification_loop self (AwaitMax l) (Raised e)
        = (set_flags self false (stop_requested self), Finished,
           [logged; Log INFO (py "Notification loop ended")]) /\
      start_notification_loop self (AwaitMax l) (Returned tt)
        = (set_flags self false (stop_requested self), Finished,
           [Log INFO (py "Notification loop ended")])) /\
  (forall w evs,
      let w1 := run w evs in
      let w2 := run w (map succeed evs) in
      monitor w1 = monitor w2 /\
      tasks w1 = tasks w2 /\
      poller w1 = poller w2 /\
      unlogged (trace w1) = unlogged (trace w2) /\
      sent (trace w1) = sent (trace w2)).
Proof.
  split.
  - intros self l e logged. split_and!; reflexivity.
  - intros w evs w1 w2.
    destruct (run_succeed evs w w eq_refl eq_refl eq_refl eq_refl)
      as (Hm & Ht & Hp & Htr).
    split_and!; try assumption.
    rewrite <- (sent_unlogged (trace w1)), <- (sent_unlogged (trace w2)).
    subst w1 w2. rewrite Htr. reflexivity.
Qed.

(** ** The texts of a cycle *)

(** The monitor keeps its configuration: only the two flags change. *)
Lemma resume_config self f r :
  exists a b, (start_notification_loop self f r).1.1 = set_flags self a b.
Proof.
  assert (exists a b, self = set_flags self a b) as Hid
    by (eexists _, _; symmetry; apply set_flags_id).
  destruct f as [m|l|l|l|l|l|]; simpl; try assumption.
  - destruct (notification_active self); simpl; eauto.
  - destruct (loop_head_cases self l) as [[_ ->]|[_ ->]];
      [|destruct (after_loop_cases self l) as [[_ ->]|[_ ->]]];
      unfold finish; simpl; eauto.
  - destruct (loop_head_cases self l) as [[_ ->]|[_ ->]];
      [|destruct (after_loop_cases self l) as [[_ ->]|[_ ->]]];
      unfold finish; simpl; eauto.
  - eauto.
Qed.

Lemma poller_config self p r :
  exists a b, (poller_step self p r).1.1 = set_flags self a b.
Proof.
  assert (exists a b, self = set_flags self a b) as Hid
    by (eexists _, _; symmetry; apply set_flags_id).
  destruct p as [[|u|]|h]; destruct r as [updates|e]; simpl; try assumption.
  destruct (find (is_stop self) updates); simpl; eauto.
Qed.

Lemma step_config w ev :
  exists a b, monitor (step w ev) = set_flags (monitor w) a b.
Proof.
  assert (exists a b, monitor w = set_flags (monitor w) a b) as Hid
    by (eexists _, _; symmetry; apply set_flags_id).
  destruct ev as [m|j r|r]; simpl; try assumption.
  - destruct (tasks w !! j) as [f|]; [|assumption].
    pose proof (resume_config (monitor w) f r) as Hc.
    destruct (start_notification_loop (monitor w) f r) as [[s' f'] acts]. exact Hc.
  - pose proof (poller_config (monitor w) (poller w) r) as Hc.
    destruct (poller_step (monitor w) (poller w) r) as [[s' p'] acts]. exact Hc.
Qed.

Lemma run_config evs : forall w,
  exists a b, monitor (run w evs) = set_flags (monitor w) a b.
Proof.
  induction evs as [|ev evs IH]; intros w.
  - eexists _, _; symmetry; apply set_flags_id.
  - destruct (step_config w ev) as (a & b & Hs).
    destruct (IH (step w ev)) as (a' & b' & Hr).
    exists a', b'. simpl. rewrite Hr, Hs. reflexivity.
Qed.

Lemma resume_texts self m f r self' f' acts :
  from_message m f ->
  start_notification_loop self f r = (self', f', acts) ->
  from_message m f' /\ Forall (text_of_cycle self m) (sent acts).
Proof.
  unfold text_of_cycle.
  destruct f as [m'|l|l|l|l|l|]; simpl.
  - intros ->. destruct (notification_active self); intros [= <- <- <-]; simpl.
    + split; [exact I|constructor].
    + split; [exists 0%nat; reflexivity|]. flags.
      constructor; [left; reflexivity|constructor].
  - intros [n [= ->]] [= <- <- <-]. split; [exists n; reflexivity|].
    flags. constructor.
  - intros [n [= ->]].
    destruct (loop_head_cases self (with_count (locals_of m) n)) as [[_ ->]|[_ ->]];
      [|destruct (after_loop_cases self (with_count (locals_of m) n)) as [[_ ->]|[_ ->]]];
      intros [= <- <- <-]; simpl; flags.
    + split; [exists (S n); reflexivity|].
      constructor; [right; left; exists (S n); reflexivity|constructor].
    + split; [exists n; reflexivity|].
      constructor; [auto|constructor].
    + split; [exact I|constructor].
  - intros [n [= ->]] [= <- <- <-]. split; [exists n; reflexivity|].
    flags. constructor.
  - intros [n [= ->]].
    destruct (loop_head_cases self (with_count (locals_of m) n)) as [[_ ->]|[_ ->]];
      [|destruct (after_loop_cases self (with_count (locals_of m) n)) as [[_ ->]|[_ ->]]];
      intros [= <- <- <-]; simpl; flags.
    + split; [exists (S n); reflexivity|].
      constructor; [right; left; exists (S n); reflexivity|constructor].
    + split; [exists n; reflexivity|].
      constructor; [auto|constructor].
    + split; [exact I|constructor].
  - intros _ [= <- <- <-]. split; [exact I|]. flags. constructor.
  - intros _ [= <- <- <-]. split; [exact I|constructor].
Qed.

Lemma run_from_message m evs : forall w i f,
  tasks w !! i = Some f ->
  from_message m f ->
  exists f', tasks (run w evs) !! i = Some f' /\ from_message m f'.
Proof.
  induction evs as [|ev evs IH]; intros w i f Hi Hf; [eauto|].
  simpl. destruct ev as [m'|j r|r]; simpl.
  - apply (IH _ i f); [|assumption]. apply lookup_app_l_Some. assumption.
  - destruct (tasks w !! j) as [g|] eqn:Hj; [|eauto].
    destruct (start_notification_loop (monitor w) g r) as [[s' g'] acts] eqn:Hres.
    destruct (Nat.eq_dec i j) as [->|Hne].
    + assert (g = f) as -> by congruence.
      apply (IH _ j g'); simpl.
      * apply list_lookup_insert_eq. eapply lookup_lt_Some; eassumption.
      * eapply resume_texts; eassumption.
    + apply (IH _ i f); simpl; [|assumption].
      rewrite list_lookup_insert_ne by auto. assumption.
  - destruct (poller_step (monitor w) (poller w) r) as [[s' p'] acts].
    apply (IH _ i f); assumption.
Qed.

(** Whatever the schedule, the task created for [m] only ever hands the
    bot the three kinds of text of its cycle. *)
Lemma cycle_texts w m evs r f self' f' acts :
  let w' := run (handler w m) evs in
  tasks w' !! length (tasks w) = Some f ->
  start_notification_loop (monitor w') f r = (self', f', acts) ->
  Forall (text_of_cycle (monitor w) m) (sent acts).
Proof.
  intros w' Hf Hres.
  destruct (run_from_message m evs (handler w m) (length (tasks w)) (Created m))
    as (g & Hg & Hfrom); [apply list_lookup_middle; reflexivity|reflexivity|].
  fold w' in Hg. assert (g = f) as -> by congruence.
  destruct (resume_texts _ _ _ _ _ _ _ Hfrom Hres) as [_ Htexts].
  destruct (run_config evs (handler w m)) as (a & b & Hmon). fold w' in Hmon.
  simpl in Hmon. rewrite Hmon in Htexts.
  eapply Forall_impl; [exact Htexts|].
  intros t [->|[[k ->]| ->]]; unfold text_of_cycle; flags; eauto.
Qed.

Lemma text_of_cycle_as self m (initial : str) (alert : nat -> str) (ts : list str) :
  initial_text self (locals_of m) = initial ->
  (forall k, alert_text self (with_count (locals_of m) k) = alert k) ->
  Forall (text_of_cycle self m) ts ->
  Forall (fun t => t = initial \/ (exists k, t = alert k) \/ t = max_text) ts.
Proof.
  intros Hi Ha Hts. eapply Forall_impl; [exact Hts|].
  intros t [->|[[k ->]| ->]]; [left|right; left; exists k|right; right]; auto.
Qed.

(** C5. A message whose body is longer than 150 characters: the preview
    kept for its cycle is the first 150 characters of the body, exactly
    150 long; the initial notification shows it whole, and every alert
    shows its first 100 characters, which are the first 100 of the body,
    followed by three dots.  Whatever the schedule, each text the task of
    that message hands to the bot is that initial notification, one of
    those alerts, or the maximum notice. *)
Theorem previews_are_truncated (w : World) (m : Message) (body : str) :
  text m = Some body ->
  (150 < length body)%nat ->
  let self := monitor w in
  let l := locals_of m in
  let initial :=
    f_string
      [ py "🔔 <b>NEW MESSAGE DETECTED!</b>"; nl; nl;
        py "📢 Channel: <code>"; channel_username self; py "</code>"; nl;
        py "👤 Sender: "; fmt (sender_name l); nl;
        py "⏰ Time: "; timestamp l; nl;
        py "💬 Preview: "; take 150 body; nl; nl;
        py "🛑 Send /stop to your bot to stop notifications" ] in
  let alert k :=
    f_string
      [ py "⚠️ <b>ALERT #"; str_of_nat k; py "</b> ⚠️"; nl; nl;
        py "You have an unread message from:"; nl;
        py "📢 <code>"; channel_username self; py "</code>"; nl;
        py "⏰ "; timestamp l; nl; nl;
        py "💬 <i>"; take 100 body; py "...</i>"; nl; nl;
        py "🛑 Send /stop to your bot to stop these alerts" ] in
  message_preview l = take 150 body /\
  length (take 150 body) = 150%nat /\
  length (take 100 body) = 100%nat /\
  initial_text self l = initial /\
  (forall k, alert_text self (with_count l k) = alert k) /\
  (forall evs r f self' f' acts,
      let w' := run (handler w m) evs in
      tasks w' !! length (tasks w) = Some f ->
      start_notification_loop (monitor w') f r = (self', f', acts) ->
      Forall (fun t => t = initial \/ (exists k, t = alert k) \/ t = max_text)
             (sent acts)).
Proof.
  intros Htext Hlen self l initial alert.
  assert (message_preview_of m = take 150 body) as Hprev.
  { unfold message_preview_of. rewrite Htext.
    destruct body; [simpl in Hlen; lia|reflexivity]. }
  assert (initial_text self l = initial) as Hinitial.
  { unfold initial_text, initial. simpl. rewrite Hprev. reflexivity. }
  assert (forall k, alert_text self (with_count l k) = alert k) as Halert.
  { intros k. unfold alert_text, alert. simpl. rewrite Hprev.
    unfold slice_to. rewrite take_take. reflexivity. }
  split_and!; try assumption.
  - rewrite length_take. lia.
  - rewrite length_take. lia.
  - intros evs r f self' f' acts w' Hf Hres.
    apply (text_of_cycle_as self m); try assumption.
    eapply cycle_texts; eassumption.
Qed.

(** C9. A message with no text body ([None] or the empty string): the
    preview kept for its cycle is the literal "Media message"; the initial
    notification shows it, and every alert shows it in the place of the
    body's first characters, followed by the three dots of the alert
    template.  Whatever the schedule, each text the task of that message
    hands to the bot is that initial notification, one of those alerts, or
    the maximum notice. *)
Theorem media_message_preview (w : World) (m : Message) :
  text m = None \/ text m = Some [] ->
  let self := monitor w in
  let l := locals_of m in
  let initial :=
    f_string
      [ py "🔔 <b>NEW MESSAGE DETECTED!</b>"; nl; nl;
        py "📢 Channel: <code>"; channel_username self; py "</code>"; nl;
        py "👤 Sender: "; fmt (sender_name l); nl;
        py "⏰ Time: "; timestamp l; nl;
        py "💬 Preview: "; py "Media message"; nl; nl;
        py "🛑 Send /stop to your bot to stop notifications" ] in
  let alert k :=
    f_string
      [ py "⚠️ <b>ALERT #"; str_of_nat k; py "</b> ⚠️"; nl; nl;
        py "You have an unread message from:"; nl;
        py "📢 <code>"; channel_username self; py "</code>"; nl;
        py "⏰ "; timestamp l; nl; nl;
        py "💬 <i>"; py "Media message"; py "...</i>"; nl; nl;
        py "🛑 Send /stop to your bot to stop these alerts" ] in
  message_preview l = py "Media message" /\
  initial_text self l = initial /\
  (forall k, alert_text self (with_count l k) = alert k) /\
  (forall evs r f self' f' acts,
      let w' := run (handler w m) evs in
      tasks w' !! length (tasks w) = Some f ->
      start_notification_loop (monitor w') f r = (self', f', acts) ->
      Forall (fun t => t = initial \/ (exists k, t = alert k) \/ t = max_text)
             (sent acts)).
Proof.
  intros Htext self l initial alert.
  assert (message_preview_of m = py "Media message") as Hprev.
  { unfold message_preview_of. destruct Htext as [->| ->]; reflexivity. }
  assert (initial_text self l = initial) as Hinitial.
  { unfold initial_text, initial. simpl. rewrite Hprev. reflexivity. }
  assert (forall k, alert_text self (with_count l k) = alert k) as Halert.
  { intros k. unfold alert_text, alert. simpl. rewrite Hprev. reflexivity. }
  split_and!; try assumption.
  intros evs r f self' f' acts w' Hf Hres.
  apply (text_of_cycle_as self m); try assumption.
  eapply cycle_texts; eassumption.
Qed.

(** ** Configuration *)

Lemma is_prefix_app (p s : str) : is_prefix p (p ++ s) = true.
Proof. induction p as [|a p IH]; simpl; [reflexivity|]. rewrite N.eqb_refl. exact IH. Qed.

Lemma is_prefix_app_l (p a b : str) : is_prefix p a = true -> is_prefix p (a ++ b) = true.
Proof.
  revert a. induction p as [|c p IH]; intros a; [reflexivity|].
  destruct a as [|d a]; simpl; [discriminate|].
  intros [Hc Hp]%andb_true_iff. rewrite Hc. simpl. auto.
Qed.

Lemma contains_here (n s : str) : contains n (n ++ s) = true.
Proof. destruct n; simpl; [destruct s; reflexivity|].
  rewrite N.eqb_refl, is_prefix_app. reflexivity. Qed.

Lemma contains_app_r (n a b : str) : contains n b = true -> contains n (a ++ b) = true.
Proof.
  intros Hb. induction a as [|c a IH]; [assumption|].
  simpl. rewrite IH. apply orb_true_r.
Qed.

Lemma contains_app_l (n a b : str) : contains n a = true -> contains n (a ++ b) = true.
Proof.
  induction a as [|c a IH]; simpl.
  - rewrite orb_false_r. intros Hn. destruct n; [destruct b; reflexivity|discriminate].
  - intros [Hp|Hc]%orb_true_iff.
    + pose proof (is_prefix_app_l n (c :: a) b Hp) as Hx.
      change ((c :: a) ++ b) with (c :: a ++ b) in Hx. rewrite Hx. reflexivity.
    + rewrite (IH Hc). apply orb_true_r.
Qed.

Lemma contains_join (sep x : str) (l : list str) :
  In x l -> contains x (join sep l) = true.
Proof.
  induction l as [|y l IH]; [contradiction|].
  intros [->|Hin].
  - destruct l; simpl.
    + rewrite <- (app_nil_r x) at 2. apply contains_here.
    + apply contains_here.
  - destruct l as [|z l]; [contradiction|].
    change (join sep (y :: z :: l)) with (y ++ sep ++ join sep (z :: l)).
    apply contains_app_r, contains_app_r, IH, Hin.
Qed.

Lemma contains_missing_message (x : str) (missing : list str) :
  In x missing -> contains x (missing_message missing) = true.
Proof.
  intros Hin. unfold missing_message, f_string. cbn [concat].
  apply contains_app_r, contains_app_l, contains_join, Hin.
Qed.

(** What [__init__] reads for an integer setting that parses. *)
Lemma int_getenv_parses environ name dflt d :
  py_int dflt = Some d ->
  match environ_get environ name with
  | None => true
  | Some v => match py_int v with Some _ => true | None => false end
  end = true ->
  exists z, int_getenv environ name dflt = inr z /\
            py_int (getenv environ name dflt) = Some z.
Proof.
  unfold int_getenv, getenv. intros Hd Hv.
  destruct (environ_get environ name) as [v|]; simpl.
  - destruct (py_int v) as [z|]; [eauto|discriminate].
  - rewrite Hd. eauto.
Qed.

Lemma is_missing_int environ name z :
  integer_setting name = true ->
  py_int (getenv environ name (py "0")) = Some z ->
  is_missing (PInt z) = absent_or_zero environ name.
Proof.
  unfold absent_or_zero, getenv. intros -> Hz.
  destruct (environ_get environ name) as [v|]; simpl in Hz.
  - rewrite Hz. destruct z; reflexivity.
  - rewrite py_int_0 in Hz. injection Hz as <-. reflexivity.
Qed.

Lemma is_missing_str environ name :
  integer_setting name = false ->
  is_missing (PStr (getenv environ name [])) = absent_or_zero environ name.
Proof.
  unfold absent_or_zero, getenv. intros ->.
  destruct (environ_get environ name) as [v|]; simpl; [|reflexivity].
  unfold is_missing. simpl. apply orb_false_r.
Qed.

Lemma filter_nonempty {A} (p : A -> bool) (l : list A) x :
  In x l -> p x = true -> List.filter p l <> [].
Proof.
  intros Hin Hp Hnil.
  assert (In x (List.filter p l)) as Hx by (apply filter_In; auto).
  rewrite Hnil in Hx. contradiction.
Qed.

(** [__init__] on an environment whose integer settings parse: the
    monitor it validates, and the settings validation finds missing. *)
Lemma init_parses environ :
  integers_parse environ = true ->
  exists self,
    __init__ environ =
      match _validate_config self with
      | (tr, Some e) => (tr, inl e)
      | (tr, None) => (tr, inr self)
      end /\
    missing_vars self = List.filter (absent_or_zero environ) required_names /\
    py_int (getenv environ (py "NOTIFICATION_INTERVAL") (py "30"))
      = Some (notification_interval self) /\
    notification_active self = false /\ stop_requested self = false.
Proof.
  unfold integers_parse. simpl.
  intros [H1 [H2 [H3 _]%andb_true_iff]%andb_true_iff]%andb_true_iff.
  destruct (int_getenv_parses environ (py "API_ID") (py "0") 0 py_int_0 H1)
    as (a & Ha & Ha').
  destruct (int_getenv_parses environ (py "USER_ID") (py "0") 0 py_int_0 H2)
    as (u & Hu & Hu').
  destruct (int_getenv_parses environ (py "NOTIFICATION_INTERVAL") (py "30") 30 py_int_30 H3)
    as (n & Hn & Hn').
  unfold __init__. rewrite Ha, Hu, Hn.
  eexists. split; [reflexivity|]. split_and!; try reflexivity; try assumption.
  unfold missing_vars, required_vars, required_names. cbn [api_id api_hash phone_number
    bot_token user_id channel_username List.filter snd].
  rewrite (is_missing_int environ (py "API_ID") a eq_refl Ha').
  rewrite (is_missing_int environ (py "USER_ID") u eq_refl Hu').
  rewrite !is_missing_str by reflexivity.
  destruct (absent_or_zero environ (py "API_ID")),
           (absent_or_zero environ (py "API_HASH")),
           (absent_or_zero environ (py "PHONE_NUMBER")),
           (absent_or_zero environ (py "BOT_TOKEN")),
           (absent_or_zero environ (py "USER_ID")),
           (absent_or_zero environ (py "CHANNEL_USERNAME")); reflexivity.
Qed.

(** C6, as the code has it.  An environment in which the integer
    settings that are set (API_ID, USER_ID, NOTIFICATION_INTERVAL) hold
    integer literals and at least one of the six required settings is
    absent or has the zero of its type: the constructor logs and raises a
    [ValueError] whose message lists, in the order of [required_vars],
    exactly the settings that are absent or zero, so every one of them is
    named in it; [main] ends there, having called neither transport.
    NOTIFICATION_INTERVAL is not among the required settings and reads 30
    when absent. *)
Theorem missing_settings_abort_startup :
  (forall (environ : gmap str str) (env : Startup),
      integers_parse environ = true ->
      (exists name, In name required_names /\ absent_or_zero environ name = true) ->
      let missing := List.filter (absent_or_zero environ) required_names in
      let msg :=
        f_string [py "Missing required environment variables: "; join (py ", ") missing] in
      __init__ environ = ([Log ERROR msg], inl (ValueError msg)) /\
      main environ env =
        ([Log INFO (py "Starting Telegram Channel Monitor"); Log ERROR msg],
         inl (ValueError msg)) /\
      forallb (fun a => negb (network a)) (main environ env).1 = true /\
      (forall name, In name required_names ->
                    absent_or_zero environ name = true ->
                    In name missing /\ contains name msg = true)) /\
  (forall (environ : gmap str str) tr self,
      environ_get environ (py "NOTIFICATION_INTERVAL") = None ->
      __init__ environ = (tr, inr self) ->
      notification_interval self = 30) /\
  ~ In (py "NOTIFICATION_INTERVAL") required_names.
Proof.
  split_and!.
  - intros environ env Hparse (name & Hin & Hzero) missing msg.
    destruct (init_parses environ Hparse) as (self & Hinit & Hmissing & _).
    fold missing in Hmissing.
    assert (__init__ environ = ([Log ERROR msg], inl (ValueError msg))) as Hraise.
    { rewrite Hinit. unfold _validate_config. rewrite Hmissing.
      destruct missing as [|x xs] eqn:Hm; [|reflexivity].
      exfalso. exact (filter_nonempty _ _ _ Hin Hzero Hm). }
    split_and!.
    + assumption.
    + unfold main. rewrite Hraise. reflexivity.
    + unfold main. rewrite Hraise. reflexivity.
    + intros x Hx Hzx.
      assert (In x missing) as Hxm by (apply filter_In; auto).
      split; [assumption|]. apply contains_missing_message. assumption.
  - intros environ tr self Habsent. unfold __init__.
    destruct (int_getenv environ (py "API_ID") (py "0")) as [e|a]; [discriminate|].
    destruct (int_getenv environ (py "USER_ID") (py "0")) as [e|u]; [discriminate|].
    unfold int_getenv, getenv. rewrite Habsent. simpl.
    rewrite py_int_30.
    match goal with |- context [_validate_config ?s] =>
      destruct (_validate_config s) as [tr' [e|]] end.
    + discriminate.
    + intros [= <- <-]. reflexivity.
  - unfold required_names. simpl. intros [Hx|[Hx|[Hx|[Hx|[Hx|[Hx|[]]]]]]]; discriminate.
Qed.

(** ** Authorization *)

(** C8, as the code has it.  What aborts the startup is the answer of
    [is_user_authorized], not the session file.  The client starts but the
    user is not authorized: [setup_client] logs the two error lines, the
    second telling the operator to run the script interactively first, and
    raises [Exception("Authentication required")], which is not the
    [ValueError] of the configuration; the bot is never created.
    [start_monitoring] logs the failure and returns: no message is sent, no
    handler is subscribed and no update is polled.  The same holds for
    whatever exception [setup_client] raises.  The line with the
    instruction is logged in this case and in no other.  A session file
    that is missing at startup only brings two warnings: when the client
    then starts and the user is authorized, nothing is raised and
    monitoring starts. *)
Theorem unauthorized_session_aborts_startup :
  (forall (env : Startup) (self : PublicChannelMonitor),
      makedirs_raises env = None ->
      start_raises env = None ->
      authorized env = false ->
      let setup :=
        [Log INFO (py "Setting up Telegram client...");
         Makedirs (py "/app/sessions");
         PathExists (f_string [session_path self; py ".session"])] ++
        (if session_exists env then []
         else [Log WARNING (py "No existing session found. First-time setup required.");
               Log WARNING (py "You may need to run this interactively first to authenticate.")]) ++
        [ClientStart (phone_number self);
         IsUserAuthorized;
         Log ERROR (py "User not authorized. Session may be invalid or missing.");
         Log ERROR (py "Please run the script interactively first to authenticate.")] in
      setup_client env self =
        (setup, set_client self true (bot self),
         Some (Exception (py "Authentication required"))) /\
      (forall msg, Exception (py "Authentication required") <> ValueError msg) /\
      start_monitoring env self =
        Aborted (set_client self true (bot self))
          (setup ++
           [Log ERROR (f_string [py "Failed to setup client: "; py "Authentication required"]);
            Log ERROR (py "Make sure you have run the initial authentication setup.")]) /\
      forallb (fun a => match a with
                        | SendMessage _ _ _ | GetUpdates _ _ | ClientOn _ => false
                        | _ => true
                        end)
              (setup ++
               [Log ERROR (f_string [py "Failed to setup client: ";
                                     py "Authentication required"]);
                Log ERROR (py "Make sure you have run the initial authentication setup.")])
        = true) /\
  (forall (env : Startup) (self self' : PublicChannelMonitor) tr e,
      setup_client env self = (tr, self', Some e) ->
      start_monitoring env self =
        Aborted self'
          (tr ++ [Log ERROR (f_string [py "Failed to setup client: "; exn_str e]);
                  Log ERROR (py "Make sure you have run the initial authentication setup.")]) /\
      (forall w, start_monitoring env self <> Monitoring w) /\
      forallb (fun a => match a with
                        | SendMessage _ _ _ | GetUpdates _ _ | ClientOn _ => false
                        | _ => true
                        end) tr = true) /\
  (forall (env : Startup) (self : PublicChannelMonitor),
      In (Log ERROR (py "Please run the script interactively first to authenticate."))
         (setup_client env self).1.1 <->
      makedirs_raises env = None /\ start_raises env = None /\ authorized env = false) /\
  (forall (env : Startup) (self : PublicChannelMonitor),
      makedirs_raises env = None ->
      start_raises env = None ->
      authorized env = true ->
      (setup_client env self).2 = None /\
      (exists w, start_monitoring env self = Monitoring w) /\
      (session_exists env = false ->
       In (Log WARNING (py "No existing session found. First-time setup required."))
          (setup_client env self).1.1 /\
       In (Log WARNING (py "You may need to run this interactively first to authenticate."))
          (setup_client env self).1.1)).
Proof.
  split; [|split; [|split]].
  - intros env self Hmk Hstart Hauth setup.
    assert (setup_client env self =
            (setup, set_client self true (bot self),
             Some (Exception (py "Authentication required")))) as Hsetup.
    { unfold setup_client. rewrite Hmk, Hstart, Hauth. subst setup.
      destruct (session_exists env); reflexivity. }
    split_and!.
    + assumption.
    + intros msg. discriminate.
    + unfold start_monitoring. rewrite Hsetup. reflexivity.
    + subst setup. destruct (session_exists env); reflexivity.
  - intros env self self' tr e Hsetup. split_and!.
    + unfold start_monitoring. rewrite Hsetup. reflexivity.
    + intros w. unfold start_monitoring. rewrite Hsetup. discriminate.
    + revert Hsetup. unfold setup_client.
      destruct (makedirs_raises env); [intros [= <- _ _]; reflexivity|].
      destruct (start_raises env);
        [intros [= <- _ _]; destruct (session_exists env); reflexivity|].
      destruct (authorized env); [discriminate|].
      intros [= <- _ _]. destruct (session_exists env); reflexivity.
  - intros env self. unfold setup_client.
    destruct (makedirs_raises env) as [e1|];
      [|destruct (start_raises env) as [e2|]; [|destruct (authorized env)]];
      destruct (session_exists env); cbn [fst snd app In];
      (split; [intros Hin; repeat (destruct Hin as [Hin|Hin]; try discriminate);
               try contradiction; auto
              |intros (Hm & Hs & Ha); try discriminate; auto 12]).
  - intros env self Hmk Hstart Hauth.
    unfold start_monitoring, setup_client. rewrite Hmk, Hstart, Hauth.
    split; [reflexivity|]. split; [eexists; reflexivity|].
    intros ->. cbn [fst snd app In]. auto 8.
Qed.

(** ** Scripts, traces and startup *)

Lemma script_length self m : length (script self m) = 27%nat.
Proof.
  unfold script. rewrite length_cons, length_app, alerts_length. reflexivity.
Qed.

Lemma script_initial self m : script self m !! 0%nat = Some (initial_text self (locals_of m)).
Proof. reflexivity. Qed.

Lemma script_alert self m n :
  (n < max_notifications)%nat ->
  script self m !! S n = Some (alert_text self (with_count (locals_of m) (S n))).
Proof.
  intros Hn. unfold script.
  change ((alerts self (locals_of m) max_notifications ++ [max_text]) !! n = 
          Some (alert_text self (with_count (locals_of m) (S n)))).
  rewrite lookup_app_l by (rewrite alerts_length; exact Hn).
  unfold alerts. rewrite list_lookup_fmap, lookup_seq_lt by exact Hn. reflexivity.
Qed.

Lemma script_max self m : script self m !! 26%nat = Some max_text.
Proof.
  unfold script.
  change ((alerts self (locals_of m) max_notifications ++ [max_text]) !! 25%nat = Some max_text).
  rewrite lookup_app_r by (rewrite alerts_length; unfold max_notifications; lia).
  rewrite alerts_length. reflexivity.
Qed.

Lemma script_set_flags self a b m : script (set_flags self a b) m = script self m.
Proof.
  unfold script, alerts. rewrite initial_text_set_flags.
  rewrite (map_ext _ (fun k => alert_text self (with_count (locals_of m) k)))
    by (intros k; apply alert_text_set_flags).
  reflexivity.
Qed.

(** One resumption says nothing, or the next line of the script. *)
Lemma resume_script self m f r self' f' acts :
  on_track m (locals_of m) f ->
  start_notification_loop self f r = (self', f', acts) ->
  on_track m (locals_of m) f' /\
  ((sent acts = [] /\ (f' = Finished \/ said f' = said f)) \/
   (exists t, sent acts = [t] /\ script self m !! said f = Some t /\
              (f = Finished \/ said f' = S (said f)))).
Proof.
  intros Htrack.
  destruct f as [m'|l|l|l|l|l|]; cbn in Htrack |- *.
  - subst m'. destruct (notification_active self); intros [= <- <- <-].
    + split; [exact I|]. left. auto.
    + split; [reflexivity|]. right. eexists. flags. split_and!; auto.
  - subst l. intros [= <- <- <-]. split; [reflexivity|]. left. flags. auto.
  - subst l.
    destruct (loop_head_cases self (locals_of m)) as [[_ ->]|[_ ->]];
      [|destruct (after_loop_cases self (locals_of m)) as [[Hc _]|[_ ->]]];
      try (simpl in Hc; unfold max_notifications in Hc; lia);
      intros [= <- <- <-]; cbn.
    + split; [split; [reflexivity|unfold max_notifications; lia]|].
      right. eexists. flags. split_and!; [reflexivity| |auto].
      apply (script_alert self m 0). unfold max_notifications. lia.
    + split; [exact I|]. left. auto.
  - destruct Htrack as [Hl Hn]. intros [= <- <- <-]. split; [split; assumption|].
    left. flags. auto.
  - destruct Htrack as [Hl Hn].
    destruct (loop_head_cases self l) as [[Ht ->]|[_ ->]];
      [|destruct (after_loop_cases self l) as [[Hc ->]|[_ ->]]];
      intros [= <- <- <-]; cbn.
    + apply loop_test_true in Ht as (_ & _ & Hlt).
      split; [split; [rewrite Hl; reflexivity|simpl; lia]|].
      right. eexists. flags. split_and!; [reflexivity| |auto].
      rewrite script_alert by exact Hlt. rewrite Hl. reflexivity.
    + assert (notification_count l = max_notifications) as Hc' by lia.
      split; [rewrite Hl, Hc'; reflexivity|].
      right. eexists. flags. split_and!; [reflexivity| |].
      * rewrite Hc'. apply script_max.
      * right. rewrite Hc'. reflexivity.
    + split; [exact I|]. left. auto.
  - intros [= <- <- <-]. split; [exact I|]. left. flags. auto.
  - intros [= <- <- <-]. split; [exact I|]. left. auto.
Qed.

Lemma step_other_task w ev i f :
  tasks w !! i = Some f ->
  match ev with Task j _ => i <> j | _ => True end ->
  tasks (step w ev) !! i = Some f.
Proof.
  intros Hi Hev. destruct ev as [m'|j r|r]; simpl.
  - apply lookup_app_l_Some. exact Hi.
  - destruct (tasks w !! j) as [g|]; [|exact Hi].
    destruct (start_notification_loop (monitor w) g r) as [[s' g'] acts]. simpl.
    rewrite list_lookup_insert_ne by auto. exact Hi.
  - destruct (poller_step (monitor w) (poller w) r) as [[s' p'] acts]. exact Hi.
Qed.

(** A task whose every resumption shows nothing or the next line of a
    list shows, along any schedule, a beginning of that list. *)
Section Lines.
Context {X : Type} (view : list action -> list X).
Variable line : PublicChannelMonitor -> Message -> list X.
Variable pos : Frame -> nat.
Variable top : nat.
Hypothesis line_length : forall self m, length (line self m) = top.
Hypothesis line_set_flags : forall self a b m, line (set_flags self a b) m = line self m.
Hypothesis view_nil : view [] = [].
Hypothesis resume_line : forall self m f r self' f' acts,
  on_track m (locals_of m) f ->
  start_notification_loop self f r = (self', f', acts) ->
  on_track m (locals_of m) f' /\
  ((view acts = [] /\ (f' = Finished \/ pos f' = pos f)) \/
   (exists t, view acts = [t] /\ line self m !! pos f = Some t /\
              (f = Finished \/ pos f' = S (pos f)))).

Lemma share_line m self0 evs : forall w i f n,
  tasks w !! i = Some f ->
  on_track m (locals_of m) f ->
  f = Finished \/ n = pos f ->
  (n <= top)%nat ->
  (exists a b, monitor w = set_flags self0 a b) ->
  exists k, (k <= top)%nat /\
            take n (line self0 m) ++ share view i w evs = take k (line self0 m).
Proof.
  induction evs as [|ev evs IH]; intros w i f n Hi Htrack Hn Hle Hmon.
  - exists n. split; [exact Hle|]. apply app_nil_r.
  - cbn [share].
    assert (exists a b, monitor (step w ev) = set_flags self0 a b) as Hmon'.
    { destruct Hmon as (a & b & Hm). destruct (step_config w ev) as (a' & b' & Hs).
      exists a', b'. rewrite Hs, Hm. apply set_flags_set_flags. }
    assert (match ev with Task j _ => i <> j | _ => True end ->
            exists k, (k <= top)%nat /\
              take n (line self0 m) ++ [] ++ share view i (step w ev) evs
              = take k (line self0 m)) as Hother.
    { intros Hev. apply (IH _ _ f); try assumption.
      apply step_other_task; assumption. }
    destruct ev as [m'|j r|r]; [apply Hother; exact I| |apply Hother; exact I].
    destruct (Nat.eqb_spec i j) as [<-|Hne]; [|apply Hother; exact Hne].
    rewrite Hi.
    destruct (start_notification_loop (monitor w) f r) as [[s' f'] acts] eqn:Hres.
    assert (tasks (step w (Task i r)) !! i = Some f') as Hi'.
    { simpl. rewrite Hi, Hres. simpl. apply list_lookup_insert_eq.
      eapply lookup_lt_Some; eassumption. }
    destruct (resume_line _ _ _ _ _ _ _ Htrack Hres) as [Htrack' Hsaid].
    destruct Hmon as (a & b & Hm). rewrite Hm, line_set_flags in Hsaid.
    cbn [snd].
    assert (f = Finished \/ f <> Finished) as [->|Hnf]
      by (destruct f; auto; right; discriminate).
    + simpl in Hres. revert Hres. intros [= <- <- <-]. rewrite view_nil.
      apply (IH _ _ Finished); auto.
    + destruct Hn as [Hx | ->]; [contradiction|].
      destruct Hsaid as [[-> Hf']|(t & -> & Ht & [Hx | Hf'])]; [| contradiction |].
      * apply (IH _ _ f'); try assumption.
        destruct Hf' as [->| ->]; auto.
      * rewrite app_assoc, <- (take_S_r _ _ _ Ht).
        apply (IH _ _ f'); try assumption; [right; auto|].
        apply lookup_lt_Some in Ht. rewrite line_length in Ht. lia.
Qed.
End Lines.

(** Whatever the schedule (stop commands, other messages, failed sends), what
    the task of a message hands to the bot is a beginning of the one
    script: the initial notification, the alerts 1 to 25 in order, the maximum
    notice.  So a message never brings more than 27 notifications, none
    twice and no alert out of order. *)
Theorem cycle_follows_its_script (w : World) (evs : list event) (i : nat) (m : Message) :
  tasks w !! i = Some (Created m) ->
  let l := locals_of m in
  exists k, (k <= 27)%nat /\
    sent_by i w evs =
      take k (initial_text (monitor w) l ::
              map (fun n => alert_text (monitor w) (with_count l n)) (seq 1 25) ++
              [max_text]).
Proof.
  intros Hi l.
  destruct (share_line sent script said 27 script_length script_set_flags eq_refl
              resume_script m (monitor w) evs w i (Created m) 0%nat Hi eq_refl)
    as (k & Hk & Hs).
  - right. reflexivity.
  - lia.
  - eexists _, _. symmetry. apply set_flags_id.
  - exists k. split; [exact Hk|]. exact Hs.
Qed.

Lemma rounds_lookup {A} (a : nat -> A) (b : A) n : forall s j,
  (j < n)%nat ->
  flat_map (fun k => [a k; b]) (seq s n) !! (2 * j)%nat = Some (a (s + j)%nat) /\
  flat_map (fun k => [a k; b]) (seq s n) !! (2 * j + 1)%nat = Some b.
Proof.
  induction n as [|n IH]; intros s j Hj; [lia|].
  destruct j as [|j].
  - simpl. rewrite Nat.add_0_r. auto.
  - destruct (IH (S s) j) as [Ha Hb]; [lia|].
    replace (2 * S j)%nat with (S (S (2 * j))) by lia.
    replace (S (S (2 * j)) + 1)%nat with (S (S (2 * j + 1))) by lia.
    replace (s + S j)%nat with (S s + j)%nat by lia.
    split; [exact Ha|exact Hb].
Qed.

Lemma rounds_length {A} (a : nat -> A) (b : A) n : forall s,
  length (flat_map (fun k => [a k; b]) (seq s n)) = (2 * n)%nat.
Proof.
  induction n as [|n IH]; intros s; [reflexivity|].
  simpl. rewrite IH. lia.
Qed.

Lemma pace_length self m : length (pace self m) = 53%nat.
Proof.
  unfold pace. rewrite !length_cons, length_app, rounds_length. reflexivity.
Qed.

Lemma pace_alert self m c :
  (c < max_notifications)%nat ->
  pace self m !! (c + c + 2)%nat =
    Some (send_notification_call self (alert_text self (with_count (locals_of m) (S c)))).
Proof.
  intros Hc. unfold pace.
  replace (c + c + 2)%nat with (S (S (2 * c))) by lia.
  rewrite !lookup_cons_ne_0 by lia. cbn [Nat.pred].
  rewrite lookup_app_l by (rewrite rounds_length; lia).
  exact (proj1 (rounds_lookup _ _ _ 1%nat c Hc)).
Qed.

Lemma pace_sleep self m c :
  (1 <= c <= max_notifications)%nat ->
  pace self m !! (c + c + 1)%nat = Some (Sleep (notification_interval self)).
Proof.
  intros Hc. unfold pace.
  replace (c + c + 1)%nat with (S (S (2 * (c - 1) + 1))) by lia.
  rewrite !lookup_cons_ne_0 by lia. cbn [Nat.pred].
  rewrite lookup_app_l by (rewrite rounds_length; lia).
  apply (rounds_lookup _ _ max_notifications 1%nat (c - 1)%nat). lia.
Qed.

Lemma pace_max self m :
  pace self m !! 52%nat = Some (send_notification_call self max_text).
Proof.
  unfold pace.
  rewrite !lookup_cons_ne_0 by lia. cbn [Nat.pred].
  rewrite lookup_app_r by (rewrite rounds_length; unfold max_notifications; lia).
  rewrite rounds_length. reflexivity.
Qed.

Lemma pace_set_flags self a b m : pace (set_flags self a b) m = pace self m.
Proof.
  unfold pace. rewrite initial_text_set_flags.
  rewrite (flat_map_ext _
             (fun k => [send_notification_call self
                          (alert_text self (with_count (locals_of m) k));
                        Sleep (notification_interval self)])).
  - reflexivity.
  - intros k. rewrite alert_text_set_flags. reflexivity.
Qed.

Lemma unlogged_after_send {A} (r : reply A) (acts : list action) :
  unlogged (send_notification_return r ++ acts) = unlogged acts.
Proof. rewrite unlogged_app, unlogged_send_notification_return. reflexivity. Qed.

(** One resumption does nothing to the outside, or the next step of the
    pace. *)
Lemma resume_pace self m f r self' f' acts :
  on_track m (locals_of m) f ->
  start_notification_loop self f r = (self', f', acts) ->
  on_track m (locals_of m) f' /\
  ((unlogged acts = [] /\ (f' = Finished \/ paced f' = paced f)) \/
   (exists t, unlogged acts = [t] /\ pace self m !! paced f = Some t /\
              (f = Finished \/ paced f' = S (paced f)))).
Proof.
  intros Htrack.
  destruct f as [m'|l|l|l|l|l|]; cbn in Htrack |- *.
  - subst m'. destruct (notification_active self); intros [= <- <- <-].
    + split; [exact I|]. left. auto.
    + split; [reflexivity|]. right. eexists. split_and!; [reflexivity| |auto].
      rewrite send_notification_call_set_flags, initial_text_set_flags. reflexivity.
  - subst l. intros [= <- <- <-]. split; [reflexivity|]. right.
    rewrite unlogged_after_send. eexists. split_and!; [reflexivity| |auto]. reflexivity.
  - subst l.
    destruct (loop_head_cases self (locals_of m)) as [[_ ->]|[_ ->]];
      [|destruct (after_loop_cases self (locals_of m)) as [[Hc _]|[_ ->]]];
      try (simpl in Hc; unfold max_notifications in Hc; lia);
      intros [= <- <- <-]; cbn.
    + split; [split; [reflexivity|unfold max_notifications; lia]|].
      right. eexists. split_and!; [reflexivity| |auto].
      apply (pace_alert self m 0). unfold max_notifications. lia.
    + split; [exact I|]. left. auto.
  - destruct Htrack as [Hl Hn]. intros [= <- <- <-]. split; [split; assumption|].
    right. rewrite unlogged_after_send. eexists. split_and!; [reflexivity| |].
    + apply pace_sleep. exact Hn.
    + right. cbn. lia.
  - destruct Htrack as [Hl Hn].
    destruct (loop_head_cases self l) as [[Ht ->]|[_ ->]];
      [|destruct (after_loop_cases self l) as [[Hc ->]|[_ ->]]];
      intros [= <- <- <-]; cbn.
    + apply loop_test_true in Ht as (_ & _ & Hlt).
      split; [split; [rewrite Hl; reflexivity|simpl; lia]|].
      right. eexists. split_and!; [reflexivity| |right; lia].
      rewrite Hl. cbn [incr with_count notification_count sender_name message_preview timestamp].
      rewrite <- Hl at 1.
      rewrite (pace_alert self m (notification_count l) Hlt). rewrite Hl. reflexivity.
    + assert (notification_count l = max_notifications) as Hc' by lia.
      split; [rewrite Hl, Hc'; reflexivity|].
      right. eexists. split_and!; [reflexivity| |].
      * rewrite Hc'. apply pace_max.
      * right. rewrite Hc'. reflexivity.
    + split; [exact I|]. left. auto.
  - intros [= <- <- <-]. split; [exact I|]. left.
    rewrite unlogged_after_send. auto.
  - intros [= <- <- <-]. split; [exact I|]. left. auto.
Qed.

(** Whatever the schedule, what the task of a message does to the outside
    is a beginning of the one pace: the initial notification, a sleep of 5
    seconds, then for each alert 1 to 25 the alert and a sleep of the
    notification interval, then the maximum notice.  No alert is sent
    without the sleep of the interval between it and the one before. *)
Theorem cycle_keeps_its_pace (w : World) (evs : list event) (i : nat) (m : Message) :
  tasks w !! i = Some (Created m) ->
  let self := monitor w in
  let l := locals_of m in
  exists k, (k <= 53)%nat /\
    done_by i w evs =
      take k (SendMessage (user_id self) (initial_text self l) (Some (py "HTML")) ::
              Sleep 5 ::
              flat_map (fun n => [SendMessage (user_id self)
                                    (alert_text self (with_count l n)) (Some (py "HTML"));
                                  Sleep (notification_interval self)])
                       (seq 1 25) ++
              [SendMessage (user_id self) max_text (Some (py "HTML"))]).
Proof.
  intros Hi self l.
  destruct (share_line unlogged pace paced 53 pace_length pace_set_flags eq_refl
              resume_pace m (monitor w) evs w i (Created m) 0%nat Hi eq_refl)
    as (k & Hk & Hs).
  - right. reflexivity.
  - lia.
  - eexists _, _. symmetry. apply set_flags_id.
  - exists k. split; [exact Hk|]. exact Hs.
Qed.

Lemma trace_step w ev : trace (step w ev) = trace w ++ emitted w [ev].
Proof.
  unfold emitted. simpl.
  assert (exists acts, trace (step w ev) = trace w ++ acts) as [acts ->].
  { destruct ev as [m|j r|r]; simpl.
    - eexists. reflexivity.
    - destruct (tasks w !! j) as [f|]; [|exists []; symmetry; apply app_nil_r].
      destruct (start_notification_loop (monitor w) f r) as [[s' f'] acts].
      eexists. reflexivity.
    - destruct (poller_step (monitor w) (poller w) r) as [[s' p'] acts].
      eexists. reflexivity. }
  rewrite drop_app_length. reflexivity.
Qed.

Lemma trace_run evs : forall w, trace (run w evs) = trace w ++ emitted w evs.
Proof.
  induction evs as [|ev evs IH]; intros w.
  - unfold emitted. simpl. rewrite drop_all. symmetry. apply app_nil_r.
  - unfold emitted. change (run w (ev :: evs)) with (run (step w ev) evs).
    rewrite IH, trace_step, <- app_assoc, drop_app_length. reflexivity.
Qed.

Lemma emitted_cons w ev evs :
  emitted w (ev :: evs) = emitted w [ev] ++ emitted (step w ev) evs.
Proof.
  unfold emitted at 1. change (run w (ev :: evs)) with (run (step w ev) evs).
  rewrite trace_run, trace_step, <- app_assoc, drop_app_length. reflexivity.
Qed.

(** What every step emits, every run emits. *)
Lemma run_emits (P : PublicChannelMonitor -> action -> Prop) (I : World -> Prop) :
  (forall self a b x, P self x -> P (set_flags self a b) x) ->
  (forall w ev, I w -> I (step w ev) /\ Forall (P (monitor w)) (emitted w [ev])) ->
  forall evs w, I w -> Forall (P (monitor w)) (emitted w evs).
Proof.
  intros Hflags Hstep. induction evs as [|ev evs IH]; intros w Hw.
  - unfold emitted. simpl. rewrite drop_all. constructor.
  - rewrite emitted_cons. destruct (Hstep w ev Hw) as [Hw' Hev].
    apply Forall_app. split; [exact Hev|].
    specialize (IH _ Hw').
    destruct (step_config w ev) as (a & b & Hs). rewrite Hs in IH.
    eapply Forall_impl; [exact IH|]. intros x Hx.
    rewrite <- (set_flags_id (monitor w)).
    rewrite <- (set_flags_set_flags (monitor w) a b). apply Hflags. exact Hx.
Qed.

Lemma emitted_task w i r f :
  tasks w !! i = Some f ->
  emitted w [Task i r] = (start_notification_loop (monitor w) f r).2.
Proof.
  intros Hi. unfold emitted. simpl. rewrite Hi.
  destruct (start_notification_loop (monitor w) f r) as [[s' f'] acts]. simpl.
  apply drop_app_length.
Qed.

Lemma emitted_task_none w i r : tasks w !! i = None -> emitted w [Task i r] = [].
Proof. intros Hi. unfold emitted. simpl. rewrite Hi. apply drop_all. Qed.

Lemma emitted_poll w r :
  emitted w [Poll r] = (poller_step (monitor w) (poller w) r).2.
Proof.
  unfold emitted. simpl.
  destruct (poller_step (monitor w) (poller w) r) as [[s' p'] acts]. simpl.
  apply drop_app_length.
Qed.

Lemma emitted_new w m :
  emitted w [NewMessage m] =
    [Log INFO (f_string [py "New message detected in "; channel_username (monitor w)])].
Proof. unfold emitted. simpl. apply drop_app_length. Qed.

Lemma to_recipient_return self {A} (r : reply A) :
  Forall (to_recipient self) (send_notification_return r).
Proof. destruct r; repeat constructor. Qed.

Lemma to_recipient_call self a b t :
  to_recipient self (send_notification_call (set_flags self a b) t).
Proof. simpl. auto. Qed.

Lemma resume_to_recipient self f r :
  Forall (to_recipient self) (start_notification_loop self f r).2.
Proof.
  pose proof (to_recipient_call self (notification_active self) (stop_requested self)) as Hcall.
  rewrite set_flags_id in Hcall.
  destruct f as [m|l|l|l|l|l|]; simpl.
  - destruct (notification_active self); simpl; [constructor|].
    constructor; [apply to_recipient_call|constructor].
  - apply Forall_app. split; [apply to_recipient_return|repeat constructor].
  - destruct (loop_head_cases self l) as [[_ ->]|[_ ->]];
      [|destruct (after_loop_cases self l) as [[_ ->]|[_ ->]]]; simpl;
      repeat constructor; apply Hcall.
  - apply Forall_app. split; [apply to_recipient_return|repeat constructor].
  - destruct (loop_head_cases self l) as [[_ ->]|[_ ->]];
      [|destruct (after_loop_cases self l) as [[_ ->]|[_ ->]]]; simpl;
      repeat constructor; apply Hcall.
  - apply Forall_app. split; [apply to_recipient_return|repeat constructor].
  - constructor.
Qed.

Lemma poller_to_recipient self p r :
  Forall (to_recipient self) (poller_step self p r).2.
Proof.
  destruct p as [[|u|]|h]; simpl; [| | |repeat constructor].
  - destruct r as [updates|e]; simpl; [|repeat constructor].
    destruct (find (is_stop self) updates); simpl; [|repeat constructor].
    constructor; [|constructor]. simpl. auto.
  - destruct r; simpl; repeat constructor.
  - destruct r; simpl; repeat constructor.
Qed.

(** Every message the program hands to the bot along a run goes to the
    configured recipient: the notifications of the cycles as HTML, the
    confirmation of a stop as plain text.  [emitted] is what the run adds to
    the trace. *)
Theorem notifications_go_to_the_recipient (w : World) (evs : list event) :
  trace (run w evs) = trace w ++ emitted w evs /\
  Forall (to_recipient (monitor w)) (emitted w evs).
Proof.
  split; [apply trace_run|].
  apply (run_emits to_recipient (fun _ => True)); [| |exact I].
  - intros self a b [] Hx; simpl in *; auto.
  - intros w0 ev _. split; [exact I|].
    destruct ev as [m|j r|r].
    + rewrite emitted_new. repeat constructor.
    + destruct (tasks w0 !! j) as [f|] eqn:Hj.
      * rewrite (emitted_task _ _ _ _ Hj). apply resume_to_recipient.
      * rewrite (emitted_task_none _ _ _ Hj). constructor.
    + rewrite emitted_poll. apply poller_to_recipient.
Qed.

Lemma poll_or_ack_of_return p {A} (r : reply A) :
  Forall (poll_or_ack_of p) (send_notification_return r).
Proof. destruct r; repeat constructor. Qed.

Lemma resume_poll_or_ack_of p self f r :
  Forall (poll_or_ack_of p) (start_notification_loop self f r).2.
Proof.
  destruct f as [m|l|l|l|l|l|]; simpl.
  - destruct (notification_active self); simpl; repeat constructor.
  - apply Forall_app. split; [apply poll_or_ack_of_return|repeat constructor].
  - destruct (loop_head_cases self l) as [[_ ->]|[_ ->]];
      [|destruct (after_loop_cases self l) as [[_ ->]|[_ ->]]]; simpl;
      repeat constructor.
  - apply Forall_app. split; [apply poll_or_ack_of_return|repeat constructor].
  - destruct (loop_head_cases self l) as [[_ ->]|[_ ->]];
      [|destruct (after_loop_cases self l) as [[_ ->]|[_ ->]]]; simpl;
      repeat constructor.
  - apply Forall_app. split; [apply poll_or_ack_of_return|repeat constructor].
  - constructor.
Qed.

Lemma poller_poll_or_ack_of self p r :
  Forall (poll_or_ack_of p) (poller_step self p r).2.
Proof.
  destruct p as [[|u|]|h]; simpl; [| | |repeat constructor].
  - destruct r as [updates|e]; simpl; [|repeat constructor].
    destruct (find (is_stop self) updates); simpl; repeat constructor.
  - destruct r as [x|e]; simpl; repeat constructor. exists u. auto.
  - destruct r; simpl; repeat constructor.
Qed.

Lemma step_poll_or_ack_of w ev : Forall (poll_or_ack_of (poller w)) (emitted w [ev]).
Proof.
  destruct ev as [m|j r|r].
  - rewrite emitted_new. repeat constructor.
  - destruct (tasks w !! j) as [f|] eqn:Hj.
    + rewrite (emitted_task _ _ _ _ Hj). apply resume_poll_or_ack_of.
    + rewrite (emitted_task_none _ _ _ Hj). constructor.
  - rewrite emitted_poll. apply poller_poll_or_ack_of.
Qed.

(** Where an awaited confirmation comes from. *)
Lemma await_confirm_origin w ev u :
  poller (step w ev) = Checking (AwaitConfirm u) ->
  poller w = Checking (AwaitConfirm u) \/
  exists updates,
    ev = Poll (Returned updates) /\
    poller w = Checking AwaitUpdates /\
    find (is_stop (monitor w)) updates = Some u.
Proof.
  destruct ev as [m|j r|r]; simpl.
  - auto.
  - destruct (tasks w !! j) as [f|]; [|auto].
    destruct (start_notification_loop (monitor w) f r) as [[s' f'] acts]. auto.
  - destruct (poller w) as [[|u0|]|h]; simpl.
    + destruct r as [updates|e]; simpl; [|discriminate].
      destruct (find (is_stop (monitor w)) updates) as [u1|] eqn:Hfind; simpl;
        [|discriminate].
      intros [= ->]. right. eauto.
    + destruct r; simpl; discriminate.
    + destruct r; simpl; discriminate.
    + discriminate.
Qed.

Lemma is_stop_step w ev u : is_stop (monitor (step w ev)) u = is_stop (monitor w) u.
Proof. destruct (step_config w ev) as (a & b & ->). reflexivity. Qed.

Lemma find_is_stop_step w ev updates :
  find (is_stop (monitor (step w ev))) updates = find (is_stop (monitor w)) updates.
Proof. destruct (step_config w ev) as (a & b & ->). reflexivity. Qed.

Lemma step_confirming w ev : confirming_a_stop w -> confirming_a_stop (step w ev).
Proof.
  intros Hw u Hu. rewrite is_stop_step.
  apply await_confirm_origin in Hu as [Hu|(updates & _ & _ & Hfind)].
  - apply Hw. exact Hu.
  - apply find_some in Hfind as [_ Hstop]. exact Hstop.
Qed.

Lemma taken_up_cons w ev evs u :
  taken_up (step w ev) evs u -> taken_up w (ev :: evs) u.
Proof.
  intros [Hu|(evs1 & updates & evs2 & -> & Hp & Hfind)].
  - apply await_confirm_origin in Hu as [Hu|(updates & -> & Hp & Hfind)].
    + left. exact Hu.
    + right. exists [], updates, evs. auto.
  - right. exists (ev :: evs1), updates, evs2. split_and!.
    + reflexivity.
    + exact Hp.
    + rewrite <- Hfind. symmetry. apply find_is_stop_step.
Qed.

Lemma acks_are_taken_up evs : forall w,
  confirming_a_stop w ->
  Forall (poll_or_ack w evs) (emitted w evs).
Proof.
  induction evs as [|ev evs IH]; intros w Hw.
  - unfold emitted. simpl. rewrite drop_all. constructor.
  - rewrite emitted_cons. apply Forall_app. split.
    + eapply Forall_impl; [apply step_poll_or_ack_of|].
      intros [] Hx; simpl in *; auto.
      destruct offset as [o|], limit as [l|]; auto.
      destruct Hx as (u & Hu & ->). exists u. split_and!; auto.
      left. exact Hu.
    + eapply Forall_impl; [apply (IH _ (step_confirming w ev Hw))|].
      intros [] Hx; simpl in *; auto.
      destruct offset as [o|], limit as [l|]; auto.
      destruct Hx as (u & Hu & Hstop & ->). exists u. split_and!.
      * apply taken_up_cons. exact Hu.
      * rewrite <- Hstop. symmetry. apply is_stop_step.
      * reflexivity.
Qed.

(** Along a run, every call of get_updates is the poll for at most 10
    updates, without offset, or carries the offset one above the identifier
    of a stop command of the recipient that the poller has taken up: the
    first such command of a batch that get_updates(limit=10) returned
    earlier in the run (or the one whose confirmation was pending when the
    run began).  No other update is ever acknowledged. *)
Theorem only_stops_are_acknowledged (w : World) (evs : list event) :
  confirming_a_stop w ->
  Forall (poll_or_ack w evs) (emitted w evs).
Proof. apply acks_are_taken_up. Qed.

Lemma poller_step_progress self p r :
  In (GetUpdates None (Some 10)) (poller_step self p r).2 \/
  (until_poll (poller_step self p r).1.2 < until_poll p)%nat.
Proof.
  destruct p as [[|u|]|h]; simpl.
  - right. destruct r as [updates|e]; simpl; [|lia].
    destruct (find (is_stop self) updates); simpl; lia.
  - right. destruct r; simpl; lia.
  - right. destruct r; simpl; lia.
  - left. left. reflexivity.
Qed.

Lemma until_poll_pos p : (1 <= until_poll p)%nat.
Proof. destruct p as [[|u|]|h]; simpl; lia. Qed.

Lemma emitted_nil w : emitted w [] = [].
Proof. unfold emitted. simpl. apply drop_all. Qed.

Lemma poller_polls_again evs : forall w,
  (until_poll (poller w) <= polls evs)%nat ->
  In (GetUpdates None (Some 10)) (emitted w evs).
Proof.
  induction evs as [|ev evs IH]; intros w Hp.
  - pose proof (until_poll_pos (poller w)). unfold polls in Hp. simpl in Hp. lia.
  - rewrite emitted_cons. apply in_or_app.
    destruct ev as [m|j r|r].
    + right. apply IH. exact Hp.
    + right. apply IH.
      replace (poller (step w (Task j r))) with (poller w); [exact Hp|].
      simpl. destruct (tasks w !! j) as [f|]; [|reflexivity].
      destruct (start_notification_loop (monitor w) f r) as [[s' f'] acts]. reflexivity.
    + rewrite emitted_poll.
      destruct (poller_step_progress (monitor w) (poller w) r) as [Hin|Hlt]; [auto|].
      right. apply IH.
      replace (poller (step w (Poll r))) with (poller_step (monitor w) (poller w) r).1.2.
      * unfold polls in *. simpl in Hp. lia.
      * simpl. destruct (poller_step (monitor w) (poller w) r) as [[s' p'] acts].
        reflexivity.
Qed.

(** The poller is never abandoned: whatever the transport answers, errors
    included, and whatever else happens in between, four resumptions of the
    poller bring a new get_updates(limit=10); every check that ends, having
    handled a stop, found none or failed, is followed by the sleep of 2
    seconds. *)
Theorem poller_keeps_polling (w : World) (evs : list event) :
  (4 <= polls evs)%nat ->
  In (GetUpdates None (Some 10)) (emitted w evs) /\
  (forall self f r self' handled acts,
      check_stop_command self f r = (self', inr handled, acts) ->
      exists p' acts',
        poller_step self (Checking f) r = (self', p', acts') /\
        p' = Sleeping handled /\ last acts' = Some (Sleep 2)).
Proof.
  intros Hp. split.
  - apply poller_polls_again.
    assert (until_poll (poller w) <= 4)%nat by (destruct (poller w) as [[|u|]|h]; simpl; lia).
    lia.
  - intros self f r self' handled acts Hc. simpl. rewrite Hc.
    eexists _, _. split_and!; [reflexivity|reflexivity|]. apply last_snoc.
Qed.

Lemma filter_nil_forallb {A} (p : A -> bool) (l : list A) :
  List.filter p l = [] <-> forallb (fun x => negb (p x)) l = true.
Proof.
  induction l as [|x l IH]; simpl; [tauto|].
  destruct (p x); simpl; [split; discriminate|exact IH].
Qed.

Lemma validate_accepts self tr :
  _validate_config self = (tr, None) <->
  missing_vars self = [] /\ tr = [Log INFO (py "Configuration validated successfully")].
Proof.
  unfold _validate_config. destruct (missing_vars self); split.
  - intros [= <-]. auto.
  - intros [_ ->]. reflexivity.
  - discriminate.
  - intros [[=] _].
Qed.

Lemma int_getenv_inr environ name dflt z :
  int_getenv environ name dflt = inr z ->
  py_int (getenv environ name dflt) = Some z /\
  match environ_get environ name with
  | None => true
  | Some v => match py_int v with Some _ => true | None => false end
  end = true.
Proof.
  unfold int_getenv, getenv.
  destruct (environ_get environ name) as [v|]; simpl;
    destruct (py_int _) as [z'|]; intros [= <-]; auto.
Qed.

Lemma string_setting_set environ name :
  truthy (getenv environ name []) = true ->
  environ_get environ name = Some (getenv environ name []).
Proof.
  unfold getenv. destruct (environ_get environ name); simpl; [reflexivity|discriminate].
Qed.

Lemma integer_setting_set environ name z :
  py_int (getenv environ name (py "0")) = Some z ->
  z <> 0 ->
  exists v, environ_get environ name = Some v /\ py_int v = Some z.
Proof.
  unfold getenv. destruct (environ_get environ name) as [v|]; simpl.
  - intros Hv _. exists v. auto.
  - rewrite py_int_0. intros [= <-] Hz. contradiction.
Qed.

(** The constructor returns an object exactly when the integer settings
    that are set parse and none of the six required settings is absent or
    zero.  The object then holds what the environment says: all six are
    set, the integers nonzero and the strings non-empty; the interval is
    the parsed NOTIFICATION_INTERVAL, or 30 when it is absent, its sign
    unchecked; client and bot are [None] and both flags false. *)
Theorem configuration_is_accepted_iff (environ : gmap str str) :
  ((exists tr self, __init__ environ = (tr, inr self)) <->
   integers_parse environ = true /\
   forallb (fun name => negb (absent_or_zero environ name)) required_names = true) /\
  (forall tr self,
      __init__ environ = (tr, inr self) ->
      tr = [Log INFO (py "Configuration validated successfully")] /\
      (exists v, environ_get environ (py "API_ID") = Some v /\
                 py_int v = Some (api_id self) /\ api_id self <> 0) /\
      (environ_get environ (py "API_HASH") = Some (api_hash self) /\ api_hash self <> []) /\
      (environ_get environ (py "PHONE_NUMBER") = Some (phone_number self) /\
       phone_number self <> []) /\
      (environ_get environ (py "BOT_TOKEN") = Some (bot_token self) /\ bot_token self <> []) /\
      (exists v, environ_get environ (py "USER_ID") = Some v /\
                 py_int v = Some (user_id self) /\ user_id self <> 0) /\
      (environ_get environ (py "CHANNEL_USERNAME") = Some (channel_username self) /\
       channel_username self <> []) /\
      py_int (getenv environ (py "NOTIFICATION_INTERVAL") (py "30"))
        = Some (notification_interval self) /\
      client self = false /\ bot self = false /\
      notification_active self = false /\ stop_requested self = false /\
      session_path self = py "/app/sessions/telegram_session").
Proof.
  assert (forall tr self, __init__ environ = (tr, inr self) -> integers_parse environ = true)
    as Hparse.
  { intros tr self. unfold __init__.
    destruct (int_getenv environ (py "API_ID") (py "0")) as [e|a] eqn:Ha; [discriminate|].
    destruct (int_getenv environ (py "USER_ID") (py "0")) as [e|u] eqn:Hu; [discriminate|].
    destruct (int_getenv environ (py "NOTIFICATION_INTERVAL") (py "30")) as [e|n] eqn:Hn;
      [discriminate|].
    intros _. apply int_getenv_inr in Ha as [_ Ha], Hu as [_ Hu], Hn as [_ Hn].
    unfold integers_parse. simpl. rewrite Ha, Hu, Hn. reflexivity. }
  split; [split|].
  - intros (tr & self & Hinit). pose proof (Hparse _ _ Hinit) as Hp. split; [exact Hp|].
    destruct (init_parses environ Hp) as (self1 & Hinit1 & Hmiss & _).
    rewrite Hinit in Hinit1.
    destruct (_validate_config self1) as [tr1 [e|]] eqn:Hv; [discriminate|].
    apply validate_accepts in Hv as [Hnil _].
    apply filter_nil_forallb. rewrite <- Hmiss. exact Hnil.
  - intros [Hp Hall].
    destruct (init_parses environ Hp) as (self1 & Hinit1 & Hmiss & _).
    apply filter_nil_forallb in Hall. rewrite <- Hmiss in Hall.
    exists [Log INFO (py "Configuration validated successfully")], self1.
    rewrite Hinit1.
    rewrite (proj2 (validate_accepts self1 _) (conj Hall eq_refl)). reflexivity.
  - intros tr self. unfold __init__.
    destruct (int_getenv environ (py "API_ID") (py "0")) as [e|a] eqn:Ha; [discriminate|].
    destruct (int_getenv environ (py "USER_ID") (py "0")) as [e|u] eqn:Hu; [discriminate|].
    destruct (int_getenv environ (py "NOTIFICATION_INTERVAL") (py "30")) as [e|n] eqn:Hn;
      [discriminate|].
    apply int_getenv_inr in Ha as [Ha _], Hu as [Hu _], Hn as [Hn _].
    match goal with |- context [_validate_config ?s] => set (self0 := s) end.
    destruct (_validate_config self0) as [tr0 [e|]] eqn:Hv; [discriminate|].
    intros [= <- <-]. apply validate_accepts in Hv as [Hnil ->].
    unfold missing_vars, required_vars in Hnil.
    cbn [List.filter map fst snd api_id api_hash phone_number bot_token user_id
         channel_username self0] in Hnil.
    destruct (is_missing (PInt a)) eqn:M1; [discriminate|].
    destruct (is_missing (PStr (getenv environ (py "API_HASH") []))) eqn:M2; [discriminate|].
    destruct (is_missing (PStr (getenv environ (py "PHONE_NUMBER") []))) eqn:M3;
      [discriminate|].
    destruct (is_missing (PStr (getenv environ (py "BOT_TOKEN") []))) eqn:M4; [discriminate|].
    destruct (is_missing (PInt u)) eqn:M5; [discriminate|].
    destruct (is_missing (PStr (getenv environ (py "CHANNEL_USERNAME") []))) eqn:M6;
      [discriminate|].
    clear Hnil.
    assert (forall z, is_missing (PInt z) = false -> z <> 0) as Hint.
    { intros z. unfold is_missing. simpl. destruct (Z.eqb_spec z 0); [discriminate|auto]. }
    assert (forall s, is_missing (PStr s) = false -> truthy s = true /\ s <> []) as Hstr.
    { intros s. unfold is_missing. simpl. destruct s; [discriminate|].
      intros _. split; [reflexivity|discriminate]. }
    apply Hint in M1, M5.
    apply Hstr in M2 as [M2 M2'], M3 as [M3 M3'], M4 as [M4 M4'], M6 as [M6 M6'].
    destruct (integer_setting_set _ _ _ Ha M1) as (va & Hva & Hva').
    destruct (integer_setting_set _ _ _ Hu M5) as (vu & Hvu & Hvu').
    subst self0. cbn.
    split_and!; try reflexivity; try assumption;
      try (apply string_setting_set; assumption).
    + exists va. auto.
    + exists vu. auto.
Qed.

Lemma startup_text_set_client self c b : startup_text (set_client self c b) = startup_text self.
Proof. reflexivity. Qed.

(** Monitoring starts exactly when the sessions directory can be made,
    the client starts and the user is authorized.  Then, outside the log,
    the program has made the directory, looked for the session file,
    started the client, asked for the authorization, sent the startup
    message to the recipient, subscribed to the channel and issued the
    first poll, in this order, whether or not the session file exists and
    whether or not the startup message could be sent. *)
Theorem monitoring_starts_iff (env : Startup) (self : PublicChannelMonitor) :
  ((exists w, start_monitoring env self = Monitoring w) <->
   makedirs_raises env = None /\ start_raises env = None /\ authorized env = true) /\
  (forall w,
      start_monitoring env self = Monitoring w ->
      monitor w = set_client self true true /\
      tasks w = [] /\
      poller w = Checking AwaitUpdates /\
      Forall (to_recipient self) (trace w) /\
      unlogged (trace w) =
        [Makedirs (py "/app/sessions");
         PathExists (f_string [session_path self; py ".session"]);
         ClientStart (phone_number self);
         IsUserAuthorized;
         SendMessage (user_id self) (startup_text self) (Some (py "HTML"));
         ClientOn (channel_username self);
         GetUpdates None (Some 10)]).
Proof.
  unfold start_monitoring, setup_client.
  destruct (makedirs_raises env) as [e1|] eqn:H1;
    [|destruct (start_raises env) as [e2|] eqn:H2;
      [|destruct (authorized env) eqn:H3]].
  - split; [split|]; [intros [w [=]]|intros [[=] _]|discriminate].
  - split; [split|]; [intros [w [=]]|intros (_ & [=] & _)|discriminate].
  - split; [split; [auto|intros _; eexists; reflexivity]|].
    intros w [= <-]. cbn [monitor tasks poller trace].
    rewrite !startup_text_set_client.
    destruct (session_exists env), (startup_reply env) as [[]|e];
      (split_and!; [reflexivity..| |reflexivity]);
      repeat (constructor; [simpl; auto|]); constructor.
  - split; [split|]; [intros [w [=]]|intros (_ & _ & [=])|discriminate].
Qed.

Lemma stop_taken_up w m evs1 pre u rest n :
  idle w = true ->
  forallb (quiet (monitor w)) evs1 = true ->
  let l := locals_of m in
  let w1 := run (handler w m) evs1 in
  sent (trace w1) =
    sent (trace w) ++ initial_text (monitor w) l :: alerts (monitor w) l n ->
  (n <= max_notifications)%nat ->
  poller w1 = Checking AwaitUpdates ->
  no_stop_in (monitor w) pre = true ->
  is_stop (monitor w) u = true ->
  let w2 := step w1 (Poll (Returned (pre ++ u :: rest))) in
  exists f,
    tasks w2 = tasks w ++ [f] /\
    monitor w2 = set_flags (monitor w) false true /\
    trace w2 = trace w1 ++ [SendMessage (user_id (monitor w)) stopped_text None] /\
    (((f = AwaitInitial l \/ f = Settle l) /\ n = 0%nat) \/
     ((f = AwaitAlert (with_count l n) \/ f = Interval (with_count l n)) /\ (1 <= n)%nat)).
Proof.
  intros [Hact Hfin]%idle_spec Hq1 l w1 Hsent1 Hn Hpoller Hpre Hu w2.
  destruct (undisturbed_run w m evs1 _ _ Hfin (undisturbed_handler w m Hact) Hq1)
    as (f & (Htasks & Htrack & Hmon & Hsent) & _).
  fold w1 in Htasks, Hmon, Hsent.
  rewrite Hsent in Hsent1. apply app_inv_head in Hsent1.
  apply (f_equal length) in Hsent1. rewrite told_length in Hsent1.
  simpl in Hsent1. rewrite alerts_length in Hsent1.
  exists f.
  assert (is_created f = false) as Hcr.
  { destruct f; try reflexivity. discriminate. }
  rewrite Hcr in Hmon.
  assert (monitor w2 = set_flags (monitor w) false true /\
          tasks w2 = tasks w ++ [f] /\
          trace w2 = trace w1 ++ [SendMessage (user_id (monitor w)) stopped_text None])
    as (Hmon2 & Htasks2 & Htrace2).
  { subst w2. unfold step. rewrite Hpoller, Hmon.
    rewrite poller_takes_stop by assumption. simpl. auto. }
  split_and!; try assumption.
  destruct f as [m'|l'|l'|l'|l'|l'|]; simpl in Htrack;
    try (unfold max_notifications in Hn; lia).
  - left. subst l'. split; [auto|lia].
  - left. subst l'. split; [auto|lia].
  - right. destruct Htrack as [Hl Hc]. injection Hsent1 as Hsent1.
    rewrite Hsent1 in Hl. subst l'. split; [auto|lia].
  - right. destruct Htrack as [Hl Hc]. injection Hsent1 as Hsent1.
    rewrite Hsent1 in Hl. subst l'. split; [auto|lia].
Qed.

Lemma quiet_run_length self evs : forall w,
  forallb (quiet self) evs = true ->
  length (tasks (run w evs)) = length (tasks w).
Proof.
  induction evs as [|ev evs IH]; intros w Hq; [reflexivity|].
  simpl in Hq. apply andb_true_iff in Hq as [Hev Hevs].
  change (run w (ev :: evs)) with (run (step w ev) evs). rewrite (IH _ Hevs).
  destruct ev as [m|j r|r]; simpl in Hev |- *; [discriminate| |].
  - destruct (tasks w !! j) as [f|]; [|reflexivity].
    destruct (start_notification_loop (monitor w) f r) as [[s' f'] acts]. simpl.
    apply length_insert.
  - destruct (poller_step (monitor w) (poller w) r) as [[s' p'] acts]. reflexivity.
Qed.

Lemma forallb_lookup_all {A} (p : A -> bool) (l : list A) :
  (forall i x, l !! i = Some x -> p x = true) -> forallb p l = true.
Proof.
  induction l as [|x l IH]; intros Hl; [reflexivity|]. simpl.
  rewrite (Hl 0%nat x eq_refl). apply IH. intros i y Hi. apply (Hl (S i) y Hi).
Qed.

(** Once the flags say stop, the tasks all return if each is resumed as
    often as its [wind] says. *)
Lemma stopped_run_finished w evs :
  stopped w ->
  forallb (quiet (monitor w)) evs = true ->
  (forall i f, tasks w !! i = Some f -> (wind f <= resumes i evs)%nat) ->
  forallb is_finished (tasks (run w evs)) = true.
Proof.
  intros Hst Hq Hwind.
  destruct (run_stopped evs w Hst Hq) as ((_ & _ & Hnc) & _ & Htask & _).
  apply forallb_lookup_all. intros i x Hi.
  assert (i < length (tasks w))%nat as Hlt.
  { rewrite <- (quiet_run_length (monitor w) evs w Hq). eapply lookup_lt_Some; eassumption. }
  destruct (lookup_lt_is_Some_2 _ _ Hlt) as [f Hf].
  destruct (Htask i f Hf) as (f' & Hf' & Hw). rewrite Hi in Hf'. injection Hf' as <-.
  specialize (Hwind i f Hf).
  assert (x = Finished) as ->; [|reflexivity].
  apply wind_0; [|lia]. apply negb_true_iff. apply (forallb_lookup _ _ _ _ Hnc Hi).
Qed.

Lemma at_cap_step self0 l fin said0 w ev :
  forallb is_finished fin = true ->
  notification_count l = max_notifications ->
  at_cap self0 l fin said0 w ->
  quiet self0 ev = true ->
  at_cap self0 l fin said0 (step w ev).
Proof.
  intros Hfin Hl (Hmon & f & Htasks & Hf) Hev.
  destruct ev as [m|j r|r]; simpl in Hev; [discriminate| |].
  - unfold step. destruct (tasks w !! j) as [g|] eqn:Hj; [|split; eauto].
    rewrite Htasks in Hj. apply lookup_app_Some in Hj as [Hj|[Hlen Hj]].
    + pose proof (forallb_lookup _ _ _ _ Hfin Hj) as Hg.
      destruct g; try discriminate. simpl.
      split; [exact Hmon|]. exists f. rewrite app_nil_r. split; [|exact Hf].
      rewrite Htasks. apply list_insert_id. apply lookup_app_l_Some. exact Hj.
    + destruct (j - length fin)%nat as [|k] eqn:Hk; [|destruct k; discriminate].
      injection Hj as <-. assert (j = length fin) as -> by lia.
      assert (forall f', <[length fin := f']> (tasks w) = fin ++ [f']) as Hins.
      { intros f'. rewrite Htasks, insert_app_r_alt by lia.
        rewrite Nat.sub_diag. reflexivity. }
      destruct Hf as [[[-> | ->] Hs]|[[-> | ->] Hs]].
      * simpl. split; [exact Hmon|]. exists (Interval l). rewrite Hins.
        split; [reflexivity|]. left. simpl. flags. simpl. rewrite ?app_nil_r. auto.
      * rewrite Hmon.
        change (start_notification_loop (set_flags self0 false true) (Interval l) r)
          with (after_loop (set_flags self0 false true) l).
        destruct (after_loop_cases (set_flags self0 false true) l) as [[_ ->]|[Hlt _]];
          [|lia].
        simpl. split; [reflexivity|]. exists (AwaitMax l). rewrite Hins.
        split; [reflexivity|]. right. simpl. flags. rewrite Hs. auto.
      * rewrite Hmon. simpl. split; [reflexivity|]. exists Finished. rewrite Hins.
        split; [reflexivity|]. right. simpl. flags. simpl. rewrite ?app_nil_r. auto.
      * simpl. split; [exact Hmon|]. exists Finished. rewrite Hins.
        split; [reflexivity|]. right. simpl. rewrite app_nil_r. auto.
  - unfold step.
    destruct (poller_step (monitor w) (poller w) r) as [[s' p'] acts] eqn:Hp.
    apply poller_step_no_stop in Hp as [-> Hacts];
      [|rewrite Hmon; exact Hev].
    split; [exact Hmon|]. exists f. split; [exact Htasks|].
    cbn [trace]. rewrite sent_app, Hacts, app_nil_r. exact Hf.
Qed.

Lemma at_cap_run self0 l fin said0 evs : forall w,
  forallb is_finished fin = true ->
  notification_count l = max_notifications ->
  at_cap self0 l fin said0 w ->
  forallb (quiet self0) evs = true ->
  at_cap self0 l fin said0 (run w evs).
Proof.
  induction evs as [|ev evs IH]; intros w Hfin Hl Hw Hq; [exact Hw|].
  simpl in Hq. apply andb_true_iff in Hq as [Hev Hevs].
  change (run w (ev :: evs)) with (run (step w ev) evs).
  apply IH; try assumption. apply at_cap_step; assumption.
Qed.

(** A stop command taken up after the initial notification and [n]
    alerts of an undisturbed cycle, followed by three resumptions of the
    cycle: the confirmation is sent; below the cap nothing follows it; at
    the cap ([n] = 25) the maximum notice still follows the confirmation.
    Either way the cycle has returned, the flags are active false, stop
    requested true, and the monitor is idle for the next message. *)
Theorem stop_after_n_alerts
    (w : World) (m : Message) (evs1 : list event)
    (pre : list Bot.Update) (u : Bot.Update) (rest : list Bot.Update)
    (evs2 : list event) (n : nat) :
  idle w = true ->
  forallb (quiet (monitor w)) evs1 = true ->
  let l := locals_of m in
  let w1 := run (handler w m) evs1 in
  sent (trace w1) =
    sent (trace w) ++
    [initial_text (monitor w) l] ++
    map (fun k => alert_text (monitor w) (with_count l k)) (seq 1 n) ->
  (n <= 25)%nat ->
  poller w1 = Checking AwaitUpdates ->
  no_stop_in (monitor w) pre = true ->
  is_stop (monitor w) u = true ->
  forallb (quiet (monitor w)) evs2 = true ->
  (3 <= resumes (length (tasks w)) evs2)%nat ->
  let w3 := run (step w1 (Poll (Returned (pre ++ u :: rest)))) evs2 in
  sent (trace w3) =
    sent (trace w1) ++ [stopped_text] ++ (if (n <? 25)%nat then [] else [max_text]) /\
  notification_active (monitor w3) = false /\
  stop_requested (monitor w3) = true /\
  idle w3 = true.
Proof.
  intros Hidle Hq1 l w1 Hsent1 Hn Hpoller Hpre Hu Hq2 Hres w3.
  destruct (stop_taken_up w m evs1 pre u rest n Hidle Hq1 Hsent1 Hn Hpoller Hpre Hu)
    as (f & Htasks2 & Hmon2 & Htrace2 & Hf).
  apply idle_spec in Hidle as [Hact Hfin].
  subst w3 w1 l.
  set (w2 := step (run (handler w m) evs1) (Poll (Returned (pre ++ u :: rest)))) in *.
  set (w3 := run w2 evs2).
  set (l := locals_of m) in *.
  assert (is_created f = false /\ (wind f <= 3)%nat /\
          ((n < 25)%nat -> calm f = true)) as (Hcr & Hwind & Hcalm).
  { destruct Hf as [[[-> | ->] Hn0]|[[-> | ->] Hn1]]; simpl;
      (split; [reflexivity|]);
      (split; [try match goal with |- context [if ?c then _ else _] => destruct c end; lia|]);
      intros Hlt; apply Nat.ltb_lt; unfold max_notifications; lia. }
  assert (stopped w2) as Hst2.
  { unfold stopped. rewrite Hmon2, Htasks2. split_and!; try reflexivity.
    rewrite forallb_app. simpl. rewrite Hcr. simpl. rewrite andb_true_r.
    apply forallb_finished_impl; [reflexivity|assumption]. }
  assert (forallb (quiet (monitor w2)) evs2 = true) as Hq2'.
  { rewrite (forallb_quiet_user_id (monitor w)); [assumption|]. rewrite Hmon2. reflexivity. }
  assert (forallb is_finished (tasks w3) = true) as Hfin3.
  { apply stopped_run_finished; try assumption.
    intros i g Hi. rewrite Htasks2 in Hi. apply lookup_app_Some in Hi as [Hi|[Hlen Hi]].
    - pose proof (forallb_lookup _ _ _ _ Hfin Hi) as Hg. destruct g; try discriminate.
      simpl. lia.
    - destruct (i - length (tasks w))%nat as [|k] eqn:Hk; [|destruct k; discriminate].
      injection Hi as <-. assert (i = length (tasks w)) as -> by lia. lia. }
  destruct (run_stopped evs2 w2 Hst2 Hq2') as (_ & Hmon3 & _ & Hcalm3).
  fold w3 in Hmon3, Hcalm3.
  split_and!.
  - destruct (Nat.ltb_spec n 25) as [Hlt|Hge].
    + destruct Hcalm3 as [_ ->].
      * rewrite Htasks2, forallb_app. simpl. rewrite (Hcalm Hlt). simpl.
        rewrite andb_true_r. apply forallb_finished_impl; [reflexivity|assumption].
      * rewrite Htrace2, sent_app. reflexivity.
    + assert (n = max_notifications) as -> by (unfold max_notifications; lia).
      destruct (at_cap_run (monitor w) (with_count l max_notifications) (tasks w)
                  (sent (trace w2)) evs2 w2 Hfin eq_refl) as (_ & f' & Htasks3 & Hf');
        [|exact Hq2|].
      * split; [exact Hmon2|]. exists f. split; [exact Htasks2|]. left.
        destruct Hf as [[_ Hn0]|[Hf _]]; [discriminate|]. auto.
      * fold w3 in Htasks3, Hf'. rewrite Htasks3, forallb_app in Hfin3.
        apply andb_true_iff in Hfin3 as [_ Hf3]. simpl in Hf3.
        destruct Hf' as [[[-> | ->] _]|[_ ->]]; try discriminate.
        rewrite Htrace2, sent_app, <- app_assoc. reflexivity.
  - rewrite Hmon3, Hmon2. reflexivity.
  - rewrite Hmon3, Hmon2. reflexivity.
  - unfold idle. rewrite Hmon3, Hmon2, Hfin3. reflexivity.
Qed.

Lemma resume_flags self f r self' f' acts :
  start_notification_loop self f r = (self', f', acts) ->
  self' = self \/
  (self' = set_flags self true false /\ notification_active self = false /\
   exists m, f = Created m) \/
  (self' = set_flags self false (stop_requested self) /\ f' = Finished).
Proof.
  destruct f as [m|l|l|l|l|l|]; simpl.
  - destruct (notification_active self) eqn:Ha; intros [= <- <- <-]; eauto 6.
  - intros [= <- <- <-]. auto.
  - destruct (loop_head_cases self l) as [[_ ->]|[_ ->]];
      [|destruct (after_loop_cases self l) as [[_ ->]|[_ ->]]];
      intros [= <- <- <-]; auto.
  - intros [= <- <- <-]. auto.
  - destruct (loop_head_cases self l) as [[_ ->]|[_ ->]];
      [|destruct (after_loop_cases self l) as [[_ ->]|[_ ->]]];
      intros [= <- <- <-]; auto.
  - intros [= <- <- <-]. auto.
  - intros [= <- <- <-]. auto.
Qed.

Lemma poller_flags self p r :
  (poller_step self p r).1.1 = self \/
  ((poller_step self p r).1.1 = set_flags self false true /\
   p = Checking AwaitUpdates /\
   exists updates u, r = Returned updates /\ find (is_stop self) updates = Some u).
Proof.
  destruct p as [[|u|]|h]; simpl; auto.
  - destruct r as [updates|e]; simpl; auto.
    destruct (find (is_stop self) updates) as [u|] eqn:Hf; simpl; eauto 8.
  - destruct r; simpl; auto.
  - destruct r; simpl; auto.
Qed.

(** One event changes the monitor in one of three ways, or not at all:
    a created task that passes the guard sets the active flag and clears
    the stop request; a cycle that returns clears the active flag; the
    poller that finds a stop command of the recipient sets the stop
    request and clears the active flag.  So along a run only the two flags
    change, never a setting. *)
Theorem flags_are_written_at_three_places (w : World) (ev : event) (evs : list event) :
  let self := monitor w in
  let self' := monitor (step w ev) in
  (self' = self \/
   (self' = set_flags self true false /\
    notification_active self = false /\
    exists i r m, ev = Task i r /\ tasks w !! i = Some (Created m)) \/
   (self' = set_flags self false (stop_requested self) /\
    exists i r, ev = Task i r /\ tasks (step w ev) !! i = Some Finished) \/
   (self' = set_flags self false true /\
    poller w = Checking AwaitUpdates /\
    exists updates u, ev = Poll (Returned updates) /\
                      find (is_stop self) updates = Some u /\
                      is_stop self u = true)) /\
  (exists a b, monitor (run w evs) = set_flags self a b).
Proof.
  intros self self'. split; [|apply run_config]. subst self self'.
  destruct ev as [m|j r|r].
  - left. reflexivity.
  - unfold step. destruct (tasks w !! j) as [f|] eqn:Hj; [|auto].
    destruct (start_notification_loop (monitor w) f r) as [[s' f'] acts] eqn:Hres.
    cbn [monitor tasks].
    destruct (resume_flags _ _ _ _ _ _ Hres) as [->|[(-> & Ha & m & ->)|[-> ->]]].
    + auto.
    + right. left. split_and!; eauto.
    + right. right. left. split; [reflexivity|]. exists j, r. split; [reflexivity|].
      apply list_lookup_insert_eq. eapply lookup_lt_Some; eassumption.
  - unfold step. pose proof (poller_flags (monitor w) (poller w) r) as Hp.
    destruct (poller_step (monitor w) (poller w) r) as [[s' p'] acts].
    cbn [monitor fst] in *.
    destruct Hp as [->|(-> & Hpoll & updates & u & -> & Hfind)]; [auto|].
    right. right. right. split_and!; auto. exists updates, u. split_and!; auto.
    apply find_some in Hfind as [_ Hu]. exact Hu.
Qed.

Lemma init_raises environ tr e :
  __init__ environ = (tr, inl e) ->
  (exists msg, e = ValueError msg) /\
  (tr = [] \/ tr = [Log ERROR (exn_str e)]).
Proof.
  unfold __init__, int_getenv.
  destruct (py_int (getenv environ (py "API_ID") (py "0"))) as [a|];
    [|intros [= <- <-]; eauto].
  destruct (py_int (getenv environ (py "USER_ID") (py "0"))) as [u|];
    [|intros [= <- <-]; eauto].
  destruct (py_int (getenv environ (py "NOTIFICATION_INTERVAL") (py "30"))) as [n|];
    [|intros [= <- <-]; eauto].
  unfold _validate_config.
  match goal with |- context [missing_vars ?s] => destruct (missing_vars s) end;
    [discriminate|].
  intros [= <- <-]. split; [eauto|]. right. reflexivity.
Qed.

(** [main] raises only what the constructor raises, a [ValueError], and
    has reached no transport by then.  When the constructor returns,
    [main] goes on as [start_monitoring] does: a failed setup (directory,
    client start, authorization) is logged there and leaves [main] without
    an exception. *)
Theorem main_raises_only_from_the_constructor (environ : gmap str str) (env : Startup) :
  match main environ env with
  | (tr, inl e) =>
      (exists msg, e = ValueError msg) /\
      (exists tr0, __init__ environ = (tr0, inl e)) /\
      forallb (fun a => negb (network a)) tr = true
  | (tr, inr started) =>
      exists tr0 self,
        __init__ environ = (tr0, inr self) /\
        tr = Log INFO (py "Starting Telegram Channel Monitor") :: tr0 /\
        started = start_monitoring env self
  end.
Proof.
  unfold main. destruct (__init__ environ) as [tr0 [e|self]] eqn:Hinit.
  - destruct (init_raises _ _ _ Hinit) as [He Htr]. split_and!; eauto.
    destruct Htr as [-> | ->]; reflexivity.
  - eauto.
Qed.

(** A body of 1 to 150 characters is the preview as it is: the initial
    notification shows it whole; every alert shows its first 100
    characters followed by three dots, which for a body of at most 100
    characters is the whole body followed by three dots. *)
Theorem short_bodies_are_shown_whole (w : World) (m : Message) (body : str) :
  text m = Some body ->
  body <> [] ->
  (length body <= 150)%nat ->
  let self := monitor w in
  let l := locals_of m in
  message_preview l = body /\
  initial_text self l =
    f_string
      [ py "🔔 <b>NEW MESSAGE DETECTED!</b>"; nl; nl;
        py "📢 Channel: <code>"; channel_username self; py "</code>"; nl;
        py "👤 Sender: "; fmt (sender_name l); nl;
        py "⏰ Time: "; timestamp l; nl;
        py "💬 Preview: "; body; nl; nl;
        py "🛑 Send /stop to your bot to stop notifications" ] /\
  (forall k,
      alert_text self (with_count l k) =
        f_string
          [ py "⚠️ <b>ALERT #"; str_of_nat k; py "</b> ⚠️"; nl; nl;
            py "You have an unread message from:"; nl;
            py "📢 <code>"; channel_username self; py "</code>"; nl;
            py "⏰ "; timestamp l; nl; nl;
            py "💬 <i>"; take 100 body; py "...</i>"; nl; nl;
            py "🛑 Send /stop to your bot to stop these alerts" ]) /\
  ((length body <= 100)%nat -> take 100 body = body).
Proof.
  intros Htext Hne Hlen self l.
  assert (message_preview_of m = body) as Hprev.
  { unfold message_preview_of. rewrite Htext.
    destruct body; [contradiction|]. simpl. unfold slice_to. apply take_ge. exact Hlen. }
  split_and!.
  - exact Hprev.
  - unfold initial_text. simpl. rewrite Hprev. reflexivity.
  - intros k. unfold alert_text. simpl. rewrite Hprev. reflexivity.
  - intros H100. apply take_ge. exact H100.
Qed.

(** The sender shown in the initial notification: [@] and the username
    when the sender has a non-empty one; otherwise the first name, "Unknown"
    when there is no sender or it has no first name attribute, and "None"
    when the first name is [None]. *)
Theorem sender_shown (m : Message) :
  let shown := fmt (sender_name (locals_of m)) in
  (sender m = None -> shown = py "Unknown") /\
  (forall s u,
      sender m = Some s -> username s = Str u -> u <> [] ->
      shown = f_string [py "@"; u]) /\
  (forall s,
      sender m = Some s ->
      username s = Absent \/ username s = IsNone \/ username s = Str [] ->
      shown = match first_name s with
              | Absent => py "Unknown"
              | IsNone => py "None"
              | Str n => n
              end).
Proof.
  intros shown. subst shown. unfold locals_of, sender_name_of. cbn [sender_name].
  split_and!.
  - intros ->. reflexivity.
  - intros s u -> -> Hu. destruct u; [contradiction|]. reflexivity.
  - intros s -> [-> | [-> | ->]]; destruct (first_name s); reflexivity.
Qed.

End Proofs.

(** * The theorems on examples *)

#[local] Existing Instance ascii_builtins.

(** Scenario A on the example channel message. *)
Lemma escalation_runs_to_the_cap_example :
  idle Ex.w = true /\
  forallb (quiet (monitor Ex.w)) Ex.full_cycle = true /\
  (54 <= resumes 0 Ex.full_cycle)%nat /\
  sent (trace (run (handler Ex.w Ex.m) Ex.full_cycle)) =
    [initial_text Ex.self (locals_of Ex.m)] ++
    map (fun k => alert_text Ex.self (with_count (locals_of Ex.m) k)) (seq 1 25) ++
    [max_text] /\
  notification_active (monitor (run (handler Ex.w Ex.m) Ex.full_cycle)) = false.
Proof.
  assert (idle Ex.w = true) as H1 by reflexivity.
  assert (forallb (quiet (monitor Ex.w)) Ex.full_cycle = true) as H2
    by (vm_compute; reflexivity).
  assert (54 <= resumes (length (tasks Ex.w)) Ex.full_cycle)%nat as H3
    by (apply Nat.leb_le; vm_compute; reflexivity).
  destruct (escalation_runs_to_the_cap Ex.w Ex.m Ex.full_cycle H1 H2 H3) as (Hs & Ha & _).
  split_and!; assumption.
Defined.

(** Scenario B on the example: a stop in capitals with blanks around it,
    behind a stop of a stranger and a greeting, and before a second stop. *)
Lemma stop_command_is_handled_example :
  (no_stop_in Ex.self Ex.batch_before = true /\
   str_lower (str_strip (py " /STOP ")) = py "/stop" /\
   poller_step Ex.self (Checking AwaitUpdates)
       (Returned (Ex.batch_before ++ Ex.stop :: Ex.batch_after))
     = (set_flags Ex.self false true, Checking (AwaitConfirm Ex.stop),
        [SendMessage 777 stopped_text None]) /\
   forallb (confirmed_by (GetUpdates (Some 13) None)) (Ex.batch_before ++ [Ex.stop]) = true) /\
  (let w1 := run (handler Ex.w Ex.m) Ex.three_alerts in
   let w3 := run (step w1 (Poll (Returned (Ex.batch_before ++ Ex.stop :: Ex.batch_after))))
                 Ex.wind_down in
   sent (trace w1) =
     [initial_text Ex.self (locals_of Ex.m)] ++
     map (fun k => alert_text Ex.self (with_count (locals_of Ex.m) k)) (seq 1 3) /\
   sent (trace w3) =
     [initial_text Ex.self (locals_of Ex.m)] ++
     map (fun k => alert_text Ex.self (with_count (locals_of Ex.m) k)) (seq 1 3) ++
     [stopped_text] /\
   notification_active (monitor w3) = false /\
   stop_requested (monitor w3) = true /\
   tasks w3 !! 0%nat = Some Finished).
Proof.
  destruct stop_command_is_handled as [Hhandle Hscenario].
  assert (no_stop_in Ex.self Ex.batch_before = true) as Hpre by reflexivity.
  assert (str_lower (str_strip (py " /STOP ")) = py "/stop") as Hnorm by reflexivity.
  split.
  - destruct (Hhandle Ex.self Ex.batch_before Ex.stop Ex.batch_after Ex.stop_message
                (py " /STOP ") Hpre eq_refl eq_refl eq_refl Hnorm)
      as (Hstep & _ & _ & _ & _ & _ & Hu & Hbefore).
    split_and!; try assumption; reflexivity.
  - intros w1 w3.
    assert (sent (trace w1) =
            sent (trace Ex.w) ++
            [initial_text (monitor Ex.w) (locals_of Ex.m)] ++
            map (fun k => alert_text (monitor Ex.w) (with_count (locals_of Ex.m) k))
                (seq 1 3)) as Hsent1 by (vm_compute; reflexivity).
    destruct (Hscenario Ex.w Ex.m Ex.three_alerts Ex.batch_before Ex.stop Ex.batch_after
                Ex.stop_message (py " /STOP ") Ex.wind_down
                eq_refl eq_refl Hsent1 eq_refl Hpre eq_refl eq_refl eq_refl Hnorm eq_refl)
      as (Hsent3 & Ha & Hs & Hfin).
    split_and!; try assumption.
    apply Hfin. apply Nat.leb_le. reflexivity.
Defined.

(** Two messages in a row: the second finds the flag set and starts
    nothing. *)
Lemma one_cycle_at_a_time_example :
  notification_active (monitor Ex.w) = false /\
  live_count (tasks Ex.w) = 0%nat /\
  forallb (no_stop (monitor Ex.w)) Ex.two_messages = true /\
  (live_count (tasks (run Ex.w Ex.two_messages)) <= 1)%nat /\
  tasks (run Ex.w Ex.two_messages) !! 1%nat = Some Finished /\
  (let w' := run Ex.w [NewMessage Ex.m; NewMessage Ex.m2; Task 0 Ex.ok] in
   notification_active (monitor w') = true /\
   monitor (step w' (Task 1 Ex.ok)) = monitor w' /\
   trace (step w' (Task 1 Ex.ok)) = trace w').
Proof.
  assert (notification_active (monitor Ex.w) = false) as H1 by reflexivity.
  assert (live_count (tasks Ex.w) = 0%nat) as H2 by reflexivity.
  assert (forallb (no_stop (monitor Ex.w)) Ex.two_messages = true) as H3 by reflexivity.
  assert (forallb (no_stop (monitor Ex.w))
            [NewMessage Ex.m; NewMessage Ex.m2; Task 0 Ex.ok] = true) as H4 by reflexivity.
  destruct (one_cycle_at_a_time Ex.w Ex.two_messages H1 H2 H3) as (Hle & _ & _).
  destruct (one_cycle_at_a_time Ex.w [NewMessage Ex.m; NewMessage Ex.m2; Task 0 Ex.ok]
              H1 H2 H4) as (_ & _ & Hguard).
  specialize (Hguard 1%nat Ex.m2 Ex.ok eq_refl).
  assert (notification_active
            (monitor (run Ex.w [NewMessage Ex.m; NewMessage Ex.m2; Task 0 Ex.ok])) = true)
    as Hact by reflexivity.
  cbv zeta in Hguard. rewrite Hact in Hguard.
  destruct Hguard as (Hmon & Htrace & _).
  split; [exact H1|]. split; [exact H2|]. split; [exact H3|]. split; [exact Hle|].
  split; [reflexivity|]. cbv zeta. split; [exact Hact|]. split; assumption.
Defined.

(** The counter on a schedule with failing sends and a stop command. *)
Lemma alert_counter_bounded_and_loop_terminates_example :
  forallb bounded (tasks (handler Ex.w Ex.m)) = true /\
  forallb bounded (tasks (run (handler Ex.w Ex.m) Ex.full_cycle)) = true /\
  tasks (run (handler Ex.w Ex.m) Ex.full_cycle) !! 0%nat = Some Finished.
Proof.
  assert (forallb bounded (tasks (handler Ex.w Ex.m)) = true) as H1 by reflexivity.
  destruct (alert_counter_bounded_and_loop_terminates (handler Ex.w Ex.m) Ex.full_cycle H1)
    as (Hb & _ & _ & Hterm & _).
  split_and!; try assumption.
  apply (Hterm 0%nat (Created Ex.m) eq_refl). apply Nat.leb_le. vm_compute. reflexivity.
Defined.

(** A body of 160 characters. *)
Lemma previews_are_truncated_example :
  text Ex.m_long = Some Ex.long_body /\
  (150 < length Ex.long_body)%nat /\
  message_preview (locals_of Ex.m_long) = take 150 Ex.long_body /\
  length (message_preview (locals_of Ex.m_long)) = 150%nat.
Proof.
  assert (150 < length Ex.long_body)%nat as Hlen
    by (apply Nat.ltb_lt; vm_compute; reflexivity).
  destruct (previews_are_truncated Ex.w Ex.m_long Ex.long_body eq_refl Hlen)
    as (Hprev & H150 & _).
  split; [reflexivity|]. split; [exact Hlen|]. split; [exact Hprev|].
  rewrite Hprev. exact H150.
Defined.

(** A media message. *)
Lemma media_message_preview_example :
  text Ex.m_media = None /\
  message_preview (locals_of Ex.m_media) = py "Media message" /\
  contains (py "<i>Media message...</i>")
           (alert_text Ex.self (with_count (locals_of Ex.m_media) 7)) = true.
Proof.
  destruct (media_message_preview Ex.w Ex.m_media (or_introl eq_refl))
    as (Hprev & _ & Halert & _).
  split; [reflexivity|]. split; [exact Hprev|].
  change Ex.self with (monitor Ex.w). rewrite (Halert 7%nat). reflexivity.
Defined.

(** No bot token and a user identifier of 0: both are named. *)
Lemma missing_settings_abort_startup_example :
  integers_parse Ex.environ_missing = true /\
  absent_or_zero Ex.environ_missing (py "BOT_TOKEN") = true /\
  absent_or_zero Ex.environ_missing (py "USER_ID") = true /\
  __init__ Ex.environ_missing =
    ([Log ERROR (py "Missing required environment variables: BOT_TOKEN, USER_ID")],
     inl (ValueError (py "Missing required environment variables: BOT_TOKEN, USER_ID"))) /\
  (exists self tr, __init__ Ex.environ_ok = (tr, inr self) /\ notification_interval self = 30).
Proof.
  assert (integers_parse Ex.environ_missing = true) as Hparse by (vm_compute; reflexivity).
  assert (absent_or_zero Ex.environ_missing (py "BOT_TOKEN") = true) as Htoken
    by (vm_compute; reflexivity).
  destruct missing_settings_abort_startup as (Hraise & Hdefault & _).
  destruct (Hraise Ex.environ_missing Ex.unauthorized Hparse)
    as (Hinit & _).
  { exists (py "BOT_TOKEN"). split; [|exact Htoken]. vm_compute. tauto. }
  split; [exact Hparse|]. split; [exact Htoken|]. split; [vm_compute; reflexivity|].
  split.
  - rewrite Hinit. vm_compute. reflexivity.
  - destruct (__init__ Ex.environ_ok) as [tr [e|self]] eqn:Hok;
      [vm_compute in Hok; discriminate|].
    exists self, tr. split; [reflexivity|].
    apply (Hdefault Ex.environ_ok tr self); [vm_compute; reflexivity|exact Hok].
Defined.

(** A malformed interval hides a missing bot token. *)
Lemma malformed_integer_hides_missing_setting :
  absent_or_zero Ex.environ_malformed (py "BOT_TOKEN") = true /\
  main Ex.environ_malformed Ex.authorized_env =
    ([Log INFO (py "Starting Telegram Channel Monitor")],
     inl (ValueError (py "invalid literal for int() with base 10: '30s'"))) /\
  contains (py "BOT_TOKEN") (py "invalid literal for int() with base 10: '30s'") = false.
Proof. split_and!; vm_compute; reflexivity. Qed.

(** An unauthorized session. *)
Lemma unauthorized_session_aborts_startup_example :
  authorized Ex.unauthorized = false /\
  (setup_client Ex.unauthorized Ex.self).2 = Some (Exception (py "Authentication required")) /\
  (forall w, start_monitoring Ex.unauthorized Ex.self <> Monitoring w).
Proof.
  destruct unauthorized_session_aborts_startup as (Hunauth & Hany & _ & _).
  destruct (Hunauth Ex.unauthorized Ex.self eq_refl eq_refl eq_refl) as (Hsetup & _).
  split; [reflexivity|]. split.
  - rewrite Hsetup. reflexivity.
  - exact (proj1 (proj2 (Hany Ex.unauthorized Ex.self _ _ _ Hsetup))).
Defined.

(** A session file that is missing at startup, with a user who is
    authorized once the client has started: nothing is raised, the handler
    is subscribed and the first poll is issued. *)
Lemma missing_session_still_starts_monitoring :
  session_exists Ex.first_run = false /\
  (setup_client Ex.first_run Ex.self).2 = None /\
  exists w,
    start_monitoring Ex.first_run Ex.self = Monitoring w /\
    In (ClientOn (channel_username Ex.self)) (trace w) /\
    In (GetUpdates None (Some 10)) (trace w).
Proof.
  split; [reflexivity|]. split; [reflexivity|].
  eexists. split; [reflexivity|]. split; vm_compute; auto 20.
Qed.

(** The confirmation fails while the cycle sleeps after its third alert. *)
Lemma stop_flags_survive_failures_example :
  let w := run (handler Ex.w Ex.m) Ex.three_alerts in
  let w2 := step (step w (Poll (Returned [Ex.stop]))) (Poll (Raised (py "timed out"))) in
  poller w = Checking AwaitUpdates /\
  is_stop (monitor w) Ex.stop = true /\
  stop_requested (monitor (run w2 Ex.wind_down)) = true /\
  notification_active (monitor (run w2 Ex.wind_down)) = false /\
  tasks (run w2 [Task 0 Ex.ok; Task 0 Ex.ok; Task 0 Ex.ok]) !! 0%nat = Some Finished.
Proof.
  intros w w2.
  assert (poller w = Checking AwaitUpdates) as H1 by reflexivity.
  assert (is_stop (monitor w) Ex.stop = true) as H2 by reflexivity.
  assert (forallb (fun f => negb (is_created f)) (tasks w) = true) as H3 by reflexivity.
  destruct (stop_flags_survive_failures w [] Ex.stop [] (py "timed out") Ex.wind_down
              H1 eq_refl H2 H3 eq_refl) as (_ & Hfail & _).
  destruct (Hfail w2 (or_introl eq_refl)) as (_ & _ & Hs & Ha & _).
  destruct (stop_flags_survive_failures w [] Ex.stop [] (py "timed out")
              [Task 0 Ex.ok; Task 0 Ex.ok; Task 0 Ex.ok]
              H1 eq_refl H2 H3 eq_refl) as (_ & Hfail' & _).
  destruct (Hfail' w2 (or_introl eq_refl)) as (_ & _ & _ & _ & Hfin & _).
  split_and!; try assumption.
  apply (Hfin 0%nat (AwaitAlert (with_count (locals_of Ex.m) 3)) eq_refl).
  apply Nat.leb_le. reflexivity.
Defined.

(** ** A stop command between two messages *)

(** C3. At most one cycle at a time fails once a stop command comes
    between two messages.  The cycle of the first message has sent alert 1
    and sleeps; the recipient's stop is polled, which sets the stop request
    and clears the active flag although that cycle has not returned; the
    second message is taken up before the first cycle wakes: it passes the
    guard, sets the active flag and clears the stop request.  The first
    cycle then finds its loop condition true and sends alert 2: two cycles
    are live at once, the stopped one alerting beside the new one. *)
Theorem stop_then_message_runs_two_cycles :
  let w1 := run Ex.w [NewMessage Ex.m; Task 0 Ex.ok; Task 0 Ex.ok; Task 0 Ex.ok;
                      Task 0 Ex.ok; Poll (Returned [Ex.stop])] in
  let w := run Ex.w Ex.stop_then_message in
  tasks w1 = [Interval (with_count (locals_of Ex.m) 1)] /\
  notification_active (monitor w1) = false /\
  stop_requested (monitor w1) = true /\
  run w1 [NewMessage Ex.m2; Task 1 Ex.ok; Task 0 Ex.ok] = w /\
  tasks w = [AwaitAlert (with_count (locals_of Ex.m) 2); AwaitInitial (locals_of Ex.m2)] /\
  live_count (tasks w) = 2%nat /\
  notification_active (monitor w) = true /\
  stop_requested (monitor w) = false /\
  sent (trace w) =
    [initial_text Ex.self (locals_of Ex.m);
     alert_text Ex.self (with_count (locals_of Ex.m) 1);
     stopped_text;
     initial_text Ex.self (locals_of Ex.m2);
     alert_text Ex.self (with_count (locals_of Ex.m) 2)].
Proof. vm_compute. split_and!; reflexivity. Qed.


(** ** Scripts, traces and startup on examples *)

(** The first cycle of the schedule with a stop and a second message:
    its task says the initial notification and two alerts. *)
Lemma cycle_follows_its_script_example :
  tasks (handler Ex.w Ex.m) !! 0%nat = Some (Created Ex.m) /\
  sent_by 0 (handler Ex.w Ex.m) (tail Ex.stop_then_message) =
    [initial_text Ex.self (locals_of Ex.m);
     alert_text Ex.self (with_count (locals_of Ex.m) 1);
     alert_text Ex.self (with_count (locals_of Ex.m) 2)] /\
  exists k, (k <= 27)%nat /\
    sent_by 0 (handler Ex.w Ex.m) (tail Ex.stop_then_message) =
      take k (initial_text Ex.self (locals_of Ex.m) ::
              map (fun n => alert_text Ex.self (with_count (locals_of Ex.m) n)) (seq 1 25) ++
              [max_text]).
Proof.
  split; [reflexivity|]. split; [vm_compute; reflexivity|].
  exact (cycle_follows_its_script (handler Ex.w Ex.m) (tail Ex.stop_then_message)
           0%nat Ex.m eq_refl).
Defined.

(** A stop during the sleep after the 25th alert: the confirmation, then
    the maximum notice. *)
Lemma stop_after_n_alerts_example :
  let w1 := run (handler Ex.w Ex.m) Ex.all_alerts in
  let w3 := run (step w1 (Poll (Returned [Ex.stop]))) Ex.three_resumptions in
  sent (trace w1) =
    initial_text Ex.self (locals_of Ex.m) ::
    map (fun k => alert_text Ex.self (with_count (locals_of Ex.m) k)) (seq 1 25) /\
  sent (trace w3) = sent (trace w1) ++ [stopped_text; max_text] /\
  idle w3 = true.
Proof.
  assert (idle Ex.w = true) as H1 by reflexivity.
  assert (forallb (quiet (monitor Ex.w)) Ex.all_alerts = true) as H2 by reflexivity.
  assert (sent (trace (run (handler Ex.w Ex.m) Ex.all_alerts)) =
          sent (trace Ex.w) ++
          [initial_text (monitor Ex.w) (locals_of Ex.m)] ++
          map (fun k => alert_text (monitor Ex.w) (with_count (locals_of Ex.m) k)) (seq 1 25))
    as H3 by (vm_compute; reflexivity).
  assert (25 <= 25)%nat as H4 by lia.
  assert (poller (run (handler Ex.w Ex.m) Ex.all_alerts) = Checking AwaitUpdates)
    as H5 by reflexivity.
  assert (no_stop_in (monitor Ex.w) [] = true) as H6 by reflexivity.
  assert (is_stop (monitor Ex.w) Ex.stop = true) as H7 by reflexivity.
  assert (forallb (quiet (monitor Ex.w)) Ex.three_resumptions = true) as H8 by reflexivity.
  assert (3 <= resumes (length (tasks Ex.w)) Ex.three_resumptions)%nat as H9
    by (apply Nat.leb_le; reflexivity).
  destruct (stop_after_n_alerts Ex.w Ex.m Ex.all_alerts [] Ex.stop [] Ex.three_resumptions
              25 H1 H2 H3 H4 H5 H6 H7 H8 H9) as (Hsent & _ & _ & Hidle).
  cbv zeta. split; [exact H3|]. split; [exact Hsent|exact Hidle].
Defined.

(** A batch with a greeting and two stops of the recipient. *)
Lemma only_stops_are_acknowledged_example :
  confirming_a_stop Ex.w /\
  emitted Ex.w [Poll (Returned [Ex.hello; Ex.stop; Ex.stop_again]); Poll (Returned []);
                Poll (Returned [])] =
    [SendMessage 777 stopped_text None;
     GetUpdates (Some 13) None;
     Log INFO (py "Stop command received"); Sleep 2] /\
  Forall (poll_or_ack Ex.w
            [Poll (Returned [Ex.hello; Ex.stop; Ex.stop_again]); Poll (Returned []);
             Poll (Returned [])])
         (emitted Ex.w
            [Poll (Returned [Ex.hello; Ex.stop; Ex.stop_again]); Poll (Returned []);
             Poll (Returned [])]).
Proof.
  assert (confirming_a_stop Ex.w) as H1 by (intros u; discriminate).
  split; [exact H1|]. split; [vm_compute; reflexivity|].
  exact (only_stops_are_acknowledged Ex.w _ H1).
Defined.

(** In that run the later stop of the batch is not what an
    acknowledgement may name. *)
Lemma later_stop_is_not_acknowledged :
  ~ poll_or_ack Ex.w
      [Poll (Returned [Ex.hello; Ex.stop; Ex.stop_again]); Poll (Returned []);
       Poll (Returned [])]
      (GetUpdates (Some 14) None).
Proof.
  intros (u & Hu & _ & Hoff).
  destruct Hu as [Hu|(evs1 & updates & evs2 & Hevs & _ & Hfind)]; [discriminate|].
  destruct evs1 as [|e1 [|e2 [|e3 evs1]]]; simplify_eq/=; try discriminate.
  destruct evs1; discriminate.
Qed.

(** A body of 28 characters. *)
Lemma short_bodies_are_shown_whole_example :
  text Ex.m = Some (py "Breaking: something happened") /\
  message_preview (locals_of Ex.m) = py "Breaking: something happened" /\
  take 100 (py "Breaking: something happened") = py "Breaking: something happened".
Proof.
  assert (py "Breaking: something happened" <> []) as H2 by discriminate.
  assert (length (py "Breaking: something happened") <= 150)%nat as H3
    by (apply Nat.leb_le; reflexivity).
  destruct (short_bodies_are_shown_whole Ex.w Ex.m _ eq_refl H2 H3) as (Hp & _ & _ & Hw).
  split; [reflexivity|]. split; [exact Hp|].
  apply Hw. apply Nat.leb_le. reflexivity.
Defined.

(** The environment with the six settings. *)
Lemma configuration_is_accepted_iff_example :
  exists tr self, __init__ Ex.environ_ok = (tr, inr self).
Proof.
  apply (proj1 (configuration_is_accepted_iff Ex.environ_ok)).
  split; vm_compute; reflexivity.
Defined.

(** An authorized session. *)
Lemma monitoring_starts_iff_example :
  exists w, start_monitoring Ex.authorized_env Ex.self = Monitoring w.
Proof.
  apply (proj1 (monitoring_starts_iff Ex.authorized_env Ex.self)).
  split_and!; reflexivity.
Defined.

(** The same task with its sleeps. *)
Lemma cycle_keeps_its_pace_example :
  tasks (handler Ex.w Ex.m) !! 0%nat = Some (Created Ex.m) /\
  done_by 0 (handler Ex.w Ex.m) (tail Ex.stop_then_message) =
    [SendMessage 777 (initial_text Ex.self (locals_of Ex.m)) (Some (py "HTML"));
     Sleep 5;
     SendMessage 777 (alert_text Ex.self (with_count (locals_of Ex.m) 1)) (Some (py "HTML"));
     Sleep 30;
     SendMessage 777 (alert_text Ex.self (with_count (locals_of Ex.m) 2)) (Some (py "HTML"))] /\
  exists k, (k <= 53)%nat /\
    done_by 0 (handler Ex.w Ex.m) (tail Ex.stop_then_message) =
      take k (SendMessage 777 (initial_text Ex.self (locals_of Ex.m)) (Some (py "HTML")) ::
              Sleep 5 ::
              flat_map (fun n => [SendMessage 777
                                    (alert_text Ex.self (with_count (locals_of Ex.m) n))
                                    (Some (py "HTML"));
                                  Sleep 30])
                       (seq 1 25) ++
              [SendMessage 777 max_text (Some (py "HTML"))]).
Proof.
  split; [reflexivity|]. split; [vm_compute; reflexivity|].
  exact (cycle_keeps_its_pace (handler Ex.w Ex.m) (tail Ex.stop_then_message)
           0%nat Ex.m eq_refl).
Defined.

(** A failed poll does not end the polling. *)
Lemma poller_keeps_polling_example :
  (4 <= polls Ex.four_polls)%nat /\
  In (GetUpdates None (Some 10)) (emitted Ex.w Ex.four_polls).
Proof.
  assert (4 <= polls Ex.four_polls)%nat as H1 by (apply Nat.leb_le; reflexivity).
  split; [exact H1|].
  exact (proj1 (poller_keeps_polling Ex.w Ex.four_polls H1)).
Defined.
